(** * Solar synthetic sensor generation (span_panel/synthetic_solar.py)

    A shallow embedding of the module that assembles the three "solar"
    formula sensors of the SPAN Panel integration, followed by the
    properties its specification states about it.

    Conventions of the embedding
    - Python [int] is [Z]; [None]-able values are [option]s.
    - Python [str] is [string], holding the str in UTF-8 as a string
      literal of this file does: "unmapped_tab_15" is that str, one byte
      per character, and a character beyond ASCII takes several.  Prefix
      test, search, replacement and concatenation on the bytes are those on
      the characters; a byte string that is not UTF-8 stands for no str.
    - A Python [dict] with string keys is an association list in insertion
      order ([Dict]); assignment overwrites in place or appends.
    - Values typed [Any] are [Scalar]s (template variables, options) or
      [PyVal]s (what the template renderer hands back).  Floats are left out:
      the generator puts none into a template variable and reads none of a
      circuit's float readings.
    - A call that may raise returns a [Res]; logging is a trace of records
      carried by the monad [M].  Only [Exception] subclasses are modelled, so
      [except Exception] catches every [Raise].
    - [await] is sequential here, so coroutines are ordinary calls. *)

From Stdlib Require Import ZArith List String Ascii Bool Lia.
From Stdlib Require Import DecimalString DecimalPos Sorted Permutation.
Import ListNotations.
Open Scope string_scope.
Open Scope Z_scope.
Set Warnings "-register-all".

(** ** Python values *)

Inductive Scalar : Type :=
| SNone
| SBool (b : bool)
| SInt (z : Z)
| SStr (s : string).

Inductive PyVal : Type :=
| PAtom (a : Scalar)
| PList (l : list PyVal)
| PDict (d : list (string * PyVal)).

Inductive Exn : Type :=
| ValueError
| AttributeError
| OtherError (what : string).

Inductive Res (A : Type) : Type :=
| Ok (a : A)
| Raise (e : Exn).
Arguments Ok {A} a.
Arguments Raise {A} e.

(** ** Builtins on strings and integers *)

Module Py.

(** [str(n)] for an int, as for the ints that [int] below can produce:
    those of at most [max_str_digits] digits. *)
Definition str_int (z : Z) : string := NilZero.string_of_int (Z.to_int z).

(** [str(v)] for a scalar. *)
Definition str (v : Scalar) : string :=
  match v with
  | SNone => "None"
  | SBool true => "True"
  | SBool false => "False"
  | SInt z => str_int z
  | SStr s => s
  end.

(** Truth value of a scalar, of an optional string, of any value. *)
Definition truthy (v : Scalar) : bool :=
  match v with
  | SNone => false
  | SBool b => b
  | SInt z => negb (z =? 0)
  | SStr s => negb (s =? "")%string
  end.

Definition truthy_opt (o : option string) : bool :=
  match o with
  | None => false
  | Some s => negb (s =? "")%string
  end.

Definition truthy_val (v : PyVal) : bool :=
  match v with
  | PAtom a => truthy a
  | PList l => match l with [] => false | _ => true end
  | PDict d => match d with [] => false | _ => true end
  end.

(** [s.startswith(p)]. *)
Definition startswith (p s : string) : bool := String.prefix p s.

(** [sub in s] on strings. *)
Fixpoint contains (sub s : string) : bool :=
  String.prefix sub s ||
  match s with
  | EmptyString => false
  | String _ s' => contains sub s'
  end.

(** [s.replace(old, new)] for a non-empty [old]: occurrences are taken left
    to right without overlap; [skip] counts the characters of the occurrence
    being dropped. *)
Fixpoint replace_from (old new s : string) (skip : nat) : string :=
  match s with
  | EmptyString => EmptyString
  | String c s' =>
      match skip with
      | S k => replace_from old new s' k
      | O =>
          if String.prefix old s
          then new ++ replace_from old new s' (String.length old - 1)
          else String c (replace_from old new s' 0)
      end
  end.

Definition replace (old new s : string) : string := replace_from old new s 0.

(** [sep.join(l)]. *)
Definition join (sep : string) (l : list string) : string := String.concat sep l.

(** [sorted(l)] on ints: insertion sort. *)
Fixpoint insert_sorted (x : Z) (l : list Z) : list Z :=
  match l with
  | [] => [x]
  | y :: r => if x <=? y then x :: l else y :: insert_sorted x r
  end.

Fixpoint sorted (l : list Z) : list Z :=
  match l with
  | [] => []
  | x :: r => insert_sorted x (sorted r)
  end.

(** *** [int] on a str

    [int(s)] in base ten, as CPython 3.11 computes it.  The str is first
    brought to ASCII: a character below 127 stays, any other white-space
    character becomes a blank, any other decimal digit (the characters of
    category Nd, Unicode 14.0) becomes its ASCII digit, and anything else
    cannot be parsed.  What is left is parsed as C does: white space around
    (9 to 13 and 32), an optional sign, then digits that single underscores
    may separate.  Anything else is a [ValueError], and so are more than
    [max_str_digits] digits, leading zeros counted and sign, underscores and
    white space not. *)

(** The payload of a continuation byte of UTF-8. *)
Definition continuation_byte (c : ascii) : option N :=
  let n := N_of_ascii c in
  if ((128 <=? n) && (n <? 192))%N then Some (n - 128)%N else None.

(** The characters of a str, as code points, read off its UTF-8 encoding;
    [None] for bytes that encode no str. *)
Fixpoint code_points (s : string) : option (list N) :=
  match s with
  | EmptyString => Some []
  | String c0 s0 =>
      let n := N_of_ascii c0 in
      if (n <? 128)%N then option_map (cons n) (code_points s0)
      else if (n <? 194)%N then None
      else if (n <? 224)%N then
        match s0 with
        | String c1 s1 =>
            match continuation_byte c1 with
            | Some b1 =>
                option_map (cons ((n - 192) * 64 + b1)%N) (code_points s1)
            | None => None
            end
        | _ => None
        end
      else if (n <? 240)%N then
        match s0 with
        | String c1 (String c2 s2) =>
            match continuation_byte c1, continuation_byte c2 with
            | Some b1, Some b2 =>
                let cp := (((n - 224) * 64 + b1) * 64 + b2)%N in
                if ((0x800 <=? cp) && negb ((0xD800 <=? cp) && (cp <? 0xE000)))%N
                then option_map (cons cp) (code_points s2)
                else None
            | _, _ => None
            end
        | _ => None
        end
      else if (n <? 245)%N then
        match s0 with
        | String c1 (String c2 (String c3 s3)) =>
            match continuation_byte c1, continuation_byte c2,
                  continuation_byte c3 with
            | Some b1, Some b2, Some b3 =>
                let cp := ((((n - 240) * 64 + b1) * 64 + b2) * 64 + b3)%N in
                if ((0x10000 <=? cp) && (cp <? 0x110000))%N
                then option_map (cons cp) (code_points s3)
                else None
            | _, _, _ => None
            end
        | _ => None
        end
      else None
  end.

(** The white-space characters from 127 on. *)
Definition unicode_space (cp : N) : bool :=
  (existsb (N.eqb cp)
     [0x85; 0xA0; 0x1680; 0x2028; 0x2029; 0x202F; 0x205F; 0x3000]
   || ((0x2000 <=? cp) && (cp <=? 0x200A)))%N.

(** The digit zero of each run of ten decimal digits from 127 on. *)
Definition decimal_zeros : list N :=
  [ 0x660; 0x6F0; 0x7C0; 0x966; 0x9E6; 0xA66; 0xAE6; 0xB66;
    0xBE6; 0xC66; 0xCE6; 0xD66; 0xDE6; 0xE50; 0xED0; 0xF20;
    0x1040; 0x1090; 0x17E0; 0x1810; 0x1946; 0x19D0; 0x1A80; 0x1A90;
    0x1B50; 0x1BB0; 0x1C40; 0x1C50; 0xA620; 0xA8D0; 0xA900; 0xA9D0;
    0xA9F0; 0xAA50; 0xABF0; 0xFF10; 0x104A0; 0x10D30; 0x11066; 0x110F0;
    0x11136; 0x111D0; 0x112F0; 0x11450; 0x114D0; 0x11650; 0x116C0; 0x11730;
    0x118E0; 0x11950; 0x11C50; 0x11D50; 0x11DA0; 0x16A60; 0x16AC0; 0x16B50;
    0x1D7CE; 0x1D7D8; 0x1D7E2; 0x1D7EC; 0x1D7F6; 0x1E140; 0x1E2F0; 0x1E950;
    0x1FBF0 ]%N.

Definition unicode_decimal (cp : N) : option N :=
  option_map (fun zero => (cp - zero)%N)
    (find (fun zero => ((zero <=? cp) && (cp <? zero + 10))%N) decimal_zeros).

(** What [int] makes of one character before it parses. *)
Definition ascii_form (cp : N) : ascii :=
  if (cp <? 127)%N then ascii_of_N cp
  else if unicode_space cp then " "%char
  else match unicode_decimal cp with
       | Some d => ascii_of_N (48 + d)
       | None => "?"%char
       end.

Definition to_ascii (s : string) : option string :=
  option_map (fun cps => string_of_list_ascii (map ascii_form cps))
    (code_points s).

Definition is_space (c : ascii) : bool :=
  let n := nat_of_ascii c in
  (((9 <=? n) && (n <=? 13)) || (n =? 32))%nat.

(** [sys.get_int_max_str_digits()], at its default. *)
Definition max_str_digits : nat := 4300.

Definition digit_of (c : ascii) : option Z :=
  let n := nat_of_ascii c in
  if ((48 <=? n) && (n <=? 57))%nat then Some (Z.of_nat n - 48) else None.

Fixpoint lstrip (s : string) : string :=
  match s with
  | String c s' => if is_space c then lstrip s' else s
  | EmptyString => EmptyString
  end.

Fixpoint rev_onto (s acc : string) : string :=
  match s with
  | EmptyString => acc
  | String c s' => rev_onto s' (String c acc)
  end.

Definition strip (s : string) : string :=
  rev_onto (lstrip (rev_onto (lstrip s) "")) "".

Inductive DigitState : Type := AtStart | AfterDigit | AfterUnderscore.

Fixpoint digits_from (s : string) (st : DigitState) (acc : Z) : option Z :=
  match s with
  | EmptyString =>
      match st with AfterDigit => Some acc | _ => None end
  | String c s' =>
      match digit_of c with
      | Some d => digits_from s' AfterDigit (10 * acc + d)
      | None =>
          if Ascii.eqb c "_"
          then match st with
               | AfterDigit => digits_from s' AfterUnderscore acc
               | _ => None
               end
          else None
      end
  end.

Fixpoint count_digits (s : string) : nat :=
  match s with
  | EmptyString => O
  | String c s' =>
      match digit_of c with
      | Some _ => S (count_digits s')
      | None => count_digits s'
      end
  end.

(** The parse of what [to_ascii] gives. *)
Definition int_of_ascii (s : string) : Res Z :=
  let body := strip s in
  let parsed :=
    match body with
    | String "-" r => option_map Z.opp (digits_from r AtStart 0)
    | String "+" r => digits_from r AtStart 0
    | _ => digits_from body AtStart 0
    end in
  match parsed with
  | Some z =>
      if (count_digits body <=? max_str_digits)%nat
      then Ok z
      else Raise ValueError
  | None => Raise ValueError
  end.

Definition int (s : string) : Res Z :=
  match to_ascii s with
  | Some s' => int_of_ascii s'
  | None => Raise ValueError
  end.

End Py.

(** ** Dictionaries *)

Definition Dict (V : Type) : Type := list (string * V).

Fixpoint dict_get {V : Type} (k : string) (d : Dict V) : option V :=
  match d with
  | [] => None
  | (k', v) :: r => if (k' =? k)%string then Some v else dict_get k r
  end.

(** [d[k] = v]. *)
Fixpoint dict_set {V : Type} (k : string) (v : V) (d : Dict V) : Dict V :=
  match d with
  | [] => [(k, v)]
  | (k', v') :: r =>
      if (k' =? k)%string then (k, v) :: r else (k', v') :: dict_set k v r
  end.

(** [d.update(other)], also the [**other] of a dict display. *)
Definition dict_update {V : Type} (d other : Dict V) : Dict V :=
  fold_left (fun acc kv => dict_set (fst kv) (snd kv) acc) other d.

Definition dict_keys {V : Type} (d : Dict V) : list string := map fst d.

(** [d.get(k, default)]. *)
Definition dict_get_default {V : Type} (k : string) (default : V) (d : Dict V) : V :=
  match dict_get k d with
  | Some v => v
  | None => default
  end.

(** ** Logging and exceptions *)

Inductive Level : Type := DEBUG | WARNING | ERROR.

(** A record keeps the level and the format string of the call; the
    arguments interpolated into it are not kept. *)
Record LogRecord : Type := mkLog { level : Level; message : string }.

Definition M (A : Type) : Type := (list LogRecord * Res A)%type.

Definition ret {A : Type} (a : A) : M A := ([], Ok a).

Definition bind {A B : Type} (m : M A) (f : A -> M B) : M B :=
  match m with
  | (l, Ok a) => let (l', r) := f a in ((l ++ l')%list, r)
  | (l, Raise e) => (l, Raise e)
  end.

Definition raise {A : Type} (e : Exn) : M A := ([], Raise e).

Definition lift {A : Type} (r : Res A) : M A := ([], r).

Definition log (lv : Level) (msg : string) : M unit := ([mkLog lv msg], Ok tt).

(** [try: body  except Exception as e: handler(e)]. *)
Definition try_except {A : Type} (body : M A) (handler : Exn -> M A) : M A :=
  match body with
  | (l, Raise e) => let (l', r) := handler e in ((l ++ l')%list, r)
  | done => done
  end.

Definition trace {A : Type} (m : M A) : list LogRecord := fst m.
Definition outcome {A : Type} (m : M A) : Res A := snd m.

Notation "x <- m ;; k" := (bind m (fun x => k))
  (at level 61, m at next level, right associativity).
Notation "' pat <- m ;; k" :=
  (bind m (fun x => match x with pat => k end))
  (at level 61, pat pattern, m at next level, right associativity).
Notation "m ;;; k" := (bind m (fun _ => k))
  (at level 61, right associativity).

(** ** Data model *)

(** The circuit record of span_panel_circuit.py, without its float-valued
    readings.  [tabs] is [None] when the attribute is missing or unset. *)
Record SpanPanelCircuit : Type := mkCircuit {
  circuit_id : string;
  name : string;
  relay_state : string;
  priority : string;
  is_user_controllable : bool;
  is_sheddable : bool;
  is_never_backup : bool;
  tabs : option (list Z)
}.

(** The panel snapshot: [span_panel.circuits] and
    [span_panel.status.serial_number]. *)
Record SpanPanel : Type := mkPanel {
  circuits : Dict SpanPanelCircuit;
  serial_number : string
}.

(** The coordinator, of which only [config_entry.options] is read. *)
Record SpanPanelCoordinator : Type := mkCoordinator {
  options : Dict Scalar
}.

(** Declared in synthetic_utils.py; this module never builds one. *)
Variant BackingEntity : Type := backing_entity (entity_id : string).

Record SensorDef : Type := mkSensorDef {
  template : string;
  sensor_type : string;
  description : string
}.

Definition SOLAR_SENSOR_DEFINITIONS : list SensorDef :=
  [ mkSensorDef "solar_current_power.yaml.txt" "power"
      "Current solar power production";
    mkSensorDef "solar_produced_energy.yaml.txt" "energy_produced"
      "Total solar energy produced";
    mkSensorDef "solar_consumed_energy.yaml.txt" "energy_consumed"
      "Total solar energy consumed" ].

(** ** External collaborators

    The functions imported from helpers.py, util.py, synthetic_utils.py and
    homeassistant.util.  Only the template service is called under a
    [try]; it is the one whose failure is part of its interface. *)
Class Collaborators : Type := {
  slugify : string -> string;
  panel_to_device_info : SpanPanel -> Dict (option string);
  get_unmapped_circuit_entity_id : SpanPanel -> Z -> string -> option string;
  construct_120v_synthetic_entity_id :
    SpanPanelCoordinator -> SpanPanel -> string -> string -> string ->
    Z -> option string -> option string;
  construct_240v_synthetic_entity_id :
    SpanPanelCoordinator -> SpanPanel -> string -> string -> string ->
    Z -> Z -> option string -> option string;
  construct_synthetic_unique_id : string -> string -> string;
  construct_tabs_attribute : SpanPanelCircuit -> option string;
  construct_voltage_attribute : SpanPanelCircuit -> option Z;
  combine_yaml_templates : list string -> Dict string -> Res PyVal
}.

(** ** The module *)

Section SyntheticSolar.

Context {collab : Collaborators}.

Definition _extract_leg_numbers (leg1_circuit leg2_circuit : string)
  : Res (Z * Z) :=
  match
    (if Py.startswith "unmapped_tab_" leg1_circuit
     then Py.int (Py.replace "unmapped_tab_" "" leg1_circuit)
     else Ok 0)
  with
  | Raise e => Raise e
  | Ok leg1_number =>
      match
        (if negb (leg2_circuit =? "")%string
            && Py.startswith "unmapped_tab_" leg2_circuit
         then Py.int (Py.replace "unmapped_tab_" "" leg2_circuit)
         else Ok 0)
      with
      | Raise e => Raise e
      | Ok leg2_number => Ok (leg1_number, leg2_number)
      end
  end.

(** The three lines that name the device once a mapped circuit is found:
    [device_info], [device_name_raw] and [device_name]. *)
Definition _device_name (span_panel : SpanPanel) : string :=
  let device_info := panel_to_device_info span_panel in
  let device_name_raw :=
    dict_get_default "name" (Some "span_panel") device_info in
  match device_name_raw with
  | Some raw => if (raw =? "")%string then "span_panel" else slugify raw
  | None => "span_panel"
  end.

(** The [for circuit_id, circuit in span_panel.circuits.items()] loop of the
    nested [_get_circuit_entity_id], with the fallback after it. *)
Fixpoint _scan_circuits (span_panel : SpanPanel)
    (items : Dict SpanPanelCircuit) (tab_number : Z) (suffix : string)
  : M (option string) :=
  match items with
  | [] =>
      log DEBUG "No mapped circuit found for tab %s, trying unmapped" ;;;
      ret (get_unmapped_circuit_entity_id span_panel tab_number suffix)
  | (_, circuit) :: rest =>
      match tabs circuit with
      | Some (t :: ts) =>
          if existsb (Z.eqb tab_number) (t :: ts)
          then
            let device_name := _device_name span_panel in
            if (List.length (t :: ts) =? 1)%nat
            then
              let entity_id :=
                "sensor." ++ device_name ++ "_circuit_"
                  ++ Py.str_int tab_number ++ "_" ++ suffix in
              log DEBUG "Found mapped single-tab circuit for tab %s: %s" ;;;
              ret (Some entity_id)
            else
              let sorted_tabs := Py.sorted (t :: ts) in
              let tabs_str := Py.join "_" (map Py.str_int sorted_tabs) in
              let entity_id :=
                "sensor." ++ device_name ++ "_circuit_"
                  ++ tabs_str ++ "_" ++ suffix in
              log DEBUG "Found mapped multi-tab circuit for tab %s: %s" ;;;
              ret (Some entity_id)
          else _scan_circuits span_panel rest tab_number suffix
      | _ => _scan_circuits span_panel rest tab_number suffix
      end
  end.

Definition _get_circuit_entity_id (span_panel : SpanPanel)
    (tab_number : Z) (suffix : string) : M (option string) :=
  _scan_circuits span_panel (circuits span_panel) tab_number suffix.

(** [isinstance(entity, str)] keeps the strings of a list of optional ids. *)
Definition str_instances (l : list (option string)) : list string :=
  flat_map (fun e => match e with Some s => [s] | None => [] end) l.

(** One leg of [_get_leg_entities].  The source spells the block out twice,
    for leg 1 and for leg 2; the two copies differ in the digit that their
    messages carry, which is [leg] here. *)
Definition _leg_block (span_panel : SpanPanel) (leg : string)
    (leg_number : Z)
  : M (option string * option string * option string * list string) :=
  if 0 <? leg_number
  then
    log DEBUG ("Generating leg" ++ leg ++ " entities for tab number: %s") ;;;
    power_entity <- _get_circuit_entity_id span_panel leg_number "power" ;;
    produced_entity <-
      _get_circuit_entity_id span_panel leg_number "energy_produced" ;;
    consumed_entity <-
      _get_circuit_entity_id span_panel leg_number "energy_consumed" ;;
    log DEBUG ("Leg" ++ leg ++ " entities: power=%s, produced=%s, consumed=%s") ;;;
    let found :=
      str_instances [power_entity; produced_entity; consumed_entity] in
    (if forallb Py.truthy_opt
          [power_entity; produced_entity; consumed_entity]
     then ret tt
     else
       log ERROR ("Failed to generate some leg" ++ leg ++ " entity IDs for tab %s") ;;;
       log ERROR "Generated: power=%s, produced=%s, consumed=%s") ;;;
    ret (power_entity, produced_entity, consumed_entity, found)
  else ret (None, None, None, []).

(** [x or ""]. *)
Definition or_empty (o : option string) : string :=
  match o with
  | Some s => s
  | None => ""
  end.

Definition _get_leg_entities (span_panel : SpanPanel)
    (leg1_number leg2_number : Z) : M (Dict Scalar * list string) :=
  '(leg1_power_entity, leg1_produced_entity, leg1_consumed_entity, found1)
    <- _leg_block span_panel "1" leg1_number ;;
  '(leg2_power_entity, leg2_produced_entity, leg2_consumed_entity, found2)
    <- _leg_block span_panel "2" leg2_number ;;
  let required_entities := (found1 ++ found2)%list in
  let leg_entities :=
    dict_update []
      [ ("leg1_power_entity", SStr (or_empty leg1_power_entity));
        ("leg1_produced_entity", SStr (or_empty leg1_produced_entity));
        ("leg1_consumed_entity", SStr (or_empty leg1_consumed_entity));
        ("leg2_power_entity", SStr (or_empty leg2_power_entity));
        ("leg2_produced_entity", SStr (or_empty leg2_produced_entity));
        ("leg2_consumed_entity", SStr (or_empty leg2_consumed_entity)) ] in
  log DEBUG "Final leg_entities dict: %s" ;;;
  log DEBUG "Required entities list: %s" ;;;
  ret (leg_entities, required_entities).

Definition _get_template_attributes (leg1_number leg2_number : Z)
  : string * Z :=
  if (0 <? leg1_number) && (0 <? leg2_number)
  then
    let synthetic_circuit :=
      mkCircuit "solar_synthetic" "Solar Synthetic" "CLOSED" "NORMAL"
        false false false (Some [leg1_number; leg2_number]) in
    let tabs_attribute_full := construct_tabs_attribute synthetic_circuit in
    let voltage_attribute := construct_voltage_attribute synthetic_circuit in
    let tabs_attribute :=
      if Py.truthy_opt tabs_attribute_full
      then or_empty tabs_attribute_full else "" in
    let voltage_attribute :=
      match voltage_attribute with
      | Some v => v
      | None => 0
      end in
    (tabs_attribute, voltage_attribute)
  else ("", 0).

Definition _generate_sensor_entity_id (coordinator : SpanPanelCoordinator)
    (span_panel : SpanPanel) (sensor_type : string)
    (leg1_number leg2_number : Z) : option string :=
  if (0 <? leg1_number) && (0 <? leg2_number)
  then
    construct_240v_synthetic_entity_id coordinator span_panel
      "sensor" sensor_type "Solar" leg1_number leg2_number None
  else
    let active_tab := if 0 <? leg1_number then leg1_number else leg2_number in
    construct_120v_synthetic_entity_id coordinator span_panel
      "sensor" sensor_type "Solar" active_tab None.

(** The [required_vars] chosen from the sensor type. *)
Definition _required_vars (sensor_def : SensorDef) : list string :=
  if Py.contains "power" (sensor_type sensor_def)
  then ["leg1_power_entity"; "leg2_power_entity"]
  else if Py.contains "produced" (sensor_type sensor_def)
  then ["leg1_produced_entity"; "leg2_produced_entity"]
  else if Py.contains "consumed" (sensor_type sensor_def)
  then ["leg1_consumed_entity"; "leg2_consumed_entity"]
  else [].

(** [not template_vars.get(var) or template_vars[var] == ""]. *)
Definition _var_unusable (template_vars : Dict Scalar) (var : string) : bool :=
  match dict_get var template_vars with
  | None => true
  | Some v =>
      negb (Py.truthy v)
      || match v with SStr s => (s =? "")%string | _ => false end
  end.

(** [isinstance(value, int | float)]; [bool] is a subclass of [int]. *)
Definition is_number (value : Scalar) : bool :=
  match value with
  | SInt _ | SBool _ => true
  | _ => false
  end.

(** One round of the loop that fills [string_template_vars]. *)
Definition _stringify (key : string) (value : Scalar) : string :=
  if (key =? "voltage_attribute")%string && is_number value
  then Py.str value
  else if is_number value
  then Py.str value
  else match value with
       | SNone => ""
       | _ => Py.str value
       end.

(** The dict display that [_process_sensor_template] returns. *)
Definition _final_config (entity_id : string) (sensor_config : Dict PyVal)
  : Dict PyVal :=
  [ ("entity_id",
     dict_get_default "entity_id" (PAtom (SStr entity_id)) sensor_config);
    ("name", dict_get_default "name" (PAtom (SStr "")) sensor_config);
    ("formula", dict_get_default "formula" (PAtom (SStr "")) sensor_config);
    ("variables", dict_get_default "variables" (PDict []) sensor_config);
    ("attributes", dict_get_default "attributes" (PDict []) sensor_config);
    ("metadata", dict_get_default "metadata" (PDict []) sensor_config) ].

Definition _process_sensor_template (sensor_def : SensorDef)
    (template_vars : Dict Scalar) (entity_id : option string)
  : M (option (Dict PyVal)) :=
  match entity_id with
  | None => ret None
  | Some entity_id =>
      if (entity_id =? "")%string then ret None else
      let required_vars := _required_vars sensor_def in
      if existsb (_var_unusable template_vars) required_vars
      then
        log ERROR
          "Missing or empty required variable '%s' for sensor template %s. Variables: %s" ;;;
        ret None
      else
        let sensor_template_vars :=
          dict_set "entity_id" (SStr entity_id) template_vars in
        let string_template_vars :=
          map (fun kv => (fst kv, _stringify (fst kv) (snd kv)))
            sensor_template_vars in
        log DEBUG "Solar template variables for %s: %r" ;;;
        rendered <-
          try_except
            (let template_files := [template sensor_def] in
             combined_result <-
               lift (combine_yaml_templates template_files
                       string_template_vars) ;;
             log DEBUG "Template processing result for %s: %r" ;;;
             ret (Some combined_result))
            (fun template_error =>
               log ERROR "Template processing failed for %s: %s" ;;;
               ret None) ;;
        match rendered with
        | None => ret None
        | Some combined_result =>
            match
              match combined_result with
              | PDict d => dict_get "sensor_configs" d
              | _ => None
              end
            with
            | None =>
                log ERROR "No sensors found in template %s. Combined result: %r" ;;;
                ret None
            | Some template_sensors =>
                if negb (Py.truthy_val template_sensors)
                then
                  log ERROR "Empty sensors in template %s. Template sensors: %r" ;;;
                  ret None
                else
                  match template_sensors with
                  | PDict ((sensor_key, PDict sensor_config) :: _) =>
                      log DEBUG "Raw sensor config from template %s: %r" ;;;
                      ret (Some (_final_config entity_id sensor_config))
                  | PDict ((sensor_key, PList _) :: _) =>
                      (* a list has [copy] but no [get] *)
                      log DEBUG "Raw sensor config from template %s: %r" ;;;
                      raise AttributeError
                  | _ =>
                      (* no [keys] on the value, or no [copy] on the entry *)
                      raise AttributeError
                  end
            end
        end
  end.

(** The opening [try] of [generate_solar_sensors]: the global settings of
    the header template, [{}] when they cannot be had. *)
Definition load_global_settings (coordinator : SpanPanelCoordinator)
    (span_panel : SpanPanel) : M PyVal :=
  try_except
    (let power_precision :=
       dict_get_default "power_display_precision" (SInt 0)
         (options coordinator) in
     let energy_precision :=
       dict_get_default "energy_display_precision" (SInt 2)
         (options coordinator) in
     let header_placeholders :=
       [ ("device_identifier", serial_number span_panel);
         ("power_display_precision", Py.str power_precision);
         ("energy_display_precision", Py.str energy_precision) ] in
     combined_result <-
       lift (combine_yaml_templates [] header_placeholders) ;;
     let global_settings :=
       match combined_result with
       | PDict d =>
           match dict_get "global_settings" d with
           | Some (PAtom SNone) => PDict []
           | Some settings => settings
           | None => PDict []
           end
       | _ => PDict []
       end in
     log DEBUG "Loaded global settings for solar sensors: %s" ;;;
     ret global_settings)
    (fun e =>
       log WARNING "Could not load global settings for solar sensors: %s" ;;;
       ret (PDict [])).

(** The body of [for sensor_def in SOLAR_SENSOR_DEFINITIONS], from the
    mapping built so far to the next. *)
Definition _solar_sensor_step (coordinator : SpanPanelCoordinator)
    (span_panel : SpanPanel) (template_vars : Dict Scalar)
    (leg1_number leg2_number : Z)
    (sensor_configs : Dict (Dict PyVal)) (sensor_def : SensorDef)
  : M (Dict (Dict PyVal)) :=
  try_except
    (let entity_id :=
       _generate_sensor_entity_id coordinator span_panel
         (sensor_type sensor_def) leg1_number leg2_number in
     let unique_id :=
       construct_synthetic_unique_id (serial_number span_panel)
         ("solar_" ++ sensor_type sensor_def) in
     log DEBUG "Processing template %s for sensor %s" ;;;
     final_config <-
       _process_sensor_template sensor_def template_vars entity_id ;;
     match final_config with
     | Some ((_ :: _) as config) =>
         log DEBUG "Successfully generated solar sensor: %s -> %s" ;;;
         log DEBUG "Final config has formula: %s, variables: %s" ;;;
         ret (dict_set unique_id config sensor_configs)
     | _ =>
         log ERROR "Template processing returned None for %s" ;;;
         ret sensor_configs
     end)
    (fun e =>
       log ERROR "Error generating solar sensor from template %s: %s" ;;;
       ret sensor_configs).

Fixpoint _for_each_sensor_def (coordinator : SpanPanelCoordinator)
    (span_panel : SpanPanel) (template_vars : Dict Scalar)
    (leg1_number leg2_number : Z)
    (defs : list SensorDef) (sensor_configs : Dict (Dict PyVal))
  : M (Dict (Dict PyVal)) :=
  match defs with
  | [] => ret sensor_configs
  | sensor_def :: rest =>
      sensor_configs' <-
        _solar_sensor_step coordinator span_panel template_vars
          leg1_number leg2_number sensor_configs sensor_def ;;
      _for_each_sensor_def coordinator span_panel template_vars
        leg1_number leg2_number rest sensor_configs'
  end.

(** The [template_vars] display of [generate_solar_sensors]. *)
Definition solar_template_vars (coordinator : SpanPanelCoordinator)
    (span_panel : SpanPanel) (leg1_circuit leg2_circuit : string)
    (tabs_attribute : string) (voltage_attribute : Z)
    (leg_entities : Dict Scalar) : Dict Scalar :=
  dict_update
    [ ("device_identifier", SStr (serial_number span_panel));
      ("power_display_precision",
       SStr (Py.str (dict_get_default "power_display_precision" (SInt 0)
                       (options coordinator))));
      ("energy_display_precision",
       SStr (Py.str (dict_get_default "energy_display_precision" (SInt 2)
                       (options coordinator))));
      ("leg1_circuit", SStr leg1_circuit);
      ("leg2_circuit", SStr leg2_circuit);
      ("tabs_attribute", SStr tabs_attribute);
      ("voltage_attribute", SStr (Py.str_int voltage_attribute)) ]
    leg_entities.

Definition generate_solar_sensors (coordinator : SpanPanelCoordinator)
    (span_panel : SpanPanel) (leg1_circuit leg2_circuit : string)
    (device_name : string)
  : M (Dict (Dict PyVal) * list BackingEntity * PyVal) :=
  let sensor_configs : Dict (Dict PyVal) := [] in
  let backing_entities : list BackingEntity := [] in
  global_settings <- load_global_settings coordinator span_panel ;;
  ' (leg1_number, leg2_number) <-
    lift (_extract_leg_numbers leg1_circuit leg2_circuit) ;;
  if (leg1_number =? 0) && (leg2_number =? 0)
  then
    log DEBUG "No valid solar tabs configured, skipping solar sensor generation" ;;;
    ret ([], [], global_settings)
  else
    ' (leg_entities, required_entities) <-
      _get_leg_entities span_panel leg1_number leg2_number ;;
    match required_entities with
    | [] =>
        log ERROR "No valid entities found for solar circuits %s and %s" ;;;
        ret ([], [], global_settings)
    | _ :: _ =>
        let invalid_entities :=
          filter (fun entity => (entity =? "")%string) required_entities in
        match invalid_entities with
        | _ :: _ =>
            log ERROR "Some entity IDs are invalid for solar circuits %s and %s: %s" ;;;
            ret ([], [], global_settings)
        | [] =>
            let (tabs_attribute, voltage_attribute) :=
              _get_template_attributes leg1_number leg2_number in
            let template_vars :=
              solar_template_vars coordinator span_panel
                leg1_circuit leg2_circuit
                tabs_attribute voltage_attribute leg_entities in
            log DEBUG "Solar tabs_attribute value: %r" ;;;
            log DEBUG "Solar tabs_attribute type: %s" ;;;
            log DEBUG "Complete template_vars for solar sensors: %s" ;;;
            sensor_configs <-
              _for_each_sensor_def coordinator span_panel template_vars
                leg1_number leg2_number
                SOLAR_SENSOR_DEFINITIONS sensor_configs ;;
            log DEBUG "Generated %d solar sensor configurations" ;;;
            ret (sensor_configs, backing_entities, global_settings)
        end
    end.

End SyntheticSolar.

(** ** Notions used to state the properties *)

Section Notions.

Context {collab : Collaborators}.

(** The call to the template service that [_process_sensor_template] makes
    for a non-empty entity id. *)
Definition render_for (sensor_def : SensorDef) (template_vars : Dict Scalar)
    (entity_id : string) : Res PyVal :=
  combine_yaml_templates [template sensor_def]
    (map (fun kv => (fst kv, _stringify (fst kv) (snd kv)))
       (dict_set "entity_id" (SStr entity_id) template_vars)).

(** What the service answered under [sensor_configs], when it answered with
    a mapping that has the key. *)
Definition rendered_sensors (sensor_def : SensorDef)
    (template_vars : Dict Scalar) (entity_id : string) : option PyVal :=
  match render_for sensor_def template_vars entity_id with
  | Ok (PDict d) => dict_get "sensor_configs" d
  | _ => None
  end.

(** The failure list of the template processor, as the specification words
    it: entity id absent; a required variable missing or the empty string;
    the renderer raises, returns a non-mapping or omits [sensor_configs];
    [sensor_configs] is empty, which is read here as any falsy value. *)
Definition spec_process_fails (sensor_def : SensorDef)
    (template_vars : Dict Scalar) (entity_id : option string) : bool :=
  match entity_id with
  | None => true
  | Some e =>
      existsb
        (fun var =>
           match dict_get var template_vars with
           | None => true
           | Some (SStr s) => (s =? "")%string
           | Some _ => false
           end)
        (_required_vars sensor_def)
      || match rendered_sensors sensor_def template_vars e with
         | None => true
         | Some sensors => negb (Py.truthy_val sensors)
         end
  end.

(** The same list with the tests the code makes: a falsy entity id and a
    falsy required variable count as well. *)
Definition process_fails (sensor_def : SensorDef)
    (template_vars : Dict Scalar) (entity_id : option string) : bool :=
  match entity_id with
  | None => true
  | Some e =>
      (e =? "")%string
      || existsb
           (fun var =>
              match dict_get var template_vars with
              | None => true
              | Some v => negb (Py.truthy v)
              end)
           (_required_vars sensor_def)
      || match rendered_sensors sensor_def template_vars e with
         | None => true
         | Some sensors => negb (Py.truthy_val sensors)
         end
  end.

(** The first entry of a rendered [sensor_configs] mapping, when it is a
    mapping itself. *)
Definition first_sensor_config (sensors : PyVal) : option (Dict PyVal) :=
  match sensors with
  | PDict ((_, PDict sensor_config) :: _) => Some sensor_config
  | _ => None
  end.

(** The claim about the template processor, as stated. *)
Definition process_claim_as_stated (sensor_def : SensorDef)
    (template_vars : Dict Scalar) (entity_id : option string) : Prop :=
  let r := outcome (_process_sensor_template sensor_def template_vars entity_id) in
  (r = Ok None <-> spec_process_fails sensor_def template_vars entity_id = true)
  /\ (spec_process_fails sensor_def template_vars entity_id = false ->
      exists config, r = Ok (Some config)).

(** Does the circuit span the tab? *)
Definition circuit_has_tab (tab_number : Z) (circuit : SpanPanelCircuit) : bool :=
  match tabs circuit with
  | Some ts => existsb (Z.eqb tab_number) ts
  | None => false
  end.

(** The entity id of a mapped multi-tab circuit, as the specification gives
    it: device, sorted tabs joined by underscores, suffix. *)
Definition multi_tab_entity_id (span_panel : SpanPanel) (ts : list Z)
    (suffix : string) : string :=
  "sensor." ++ _device_name span_panel ++ "_circuit_"
    ++ Py.join "_" (map Py.str_int (Py.sorted ts)) ++ "_" ++ suffix.

(** The key under which a sensor definition is stored. *)
Definition solar_unique_id (span_panel : SpanPanel) (sensor_def : SensorDef)
  : string :=
  construct_synthetic_unique_id (serial_number span_panel)
    ("solar_" ++ sensor_type sensor_def).

(** What processing one sensor definition on its own contributes: its
    record, or nothing when the processor returns [None] or raises. *)
Definition sensor_attempt (coordinator : SpanPanelCoordinator)
    (span_panel : SpanPanel) (template_vars : Dict Scalar)
    (leg1_number leg2_number : Z) (sensor_def : SensorDef)
  : option (Dict PyVal) :=
  match
    outcome
      (_process_sensor_template sensor_def template_vars
         (_generate_sensor_entity_id coordinator span_panel
            (sensor_type sensor_def) leg1_number leg2_number))
  with
  | Ok (Some ((_ :: _) as config)) => Some config
  | _ => None
  end.

Definition attempt_succeeds (coordinator : SpanPanelCoordinator)
    (span_panel : SpanPanel) (template_vars : Dict Scalar)
    (leg1_number leg2_number : Z) (sensor_def : SensorDef) : bool :=
  match sensor_attempt coordinator span_panel template_vars
          leg1_number leg2_number sensor_def with
  | Some _ => true
  | None => false
  end.

(** The header placeholders of the global-settings call. *)
Definition header_placeholders (coordinator : SpanPanelCoordinator)
    (span_panel : SpanPanel) : Dict string :=
  [ ("device_identifier", serial_number span_panel);
    ("power_display_precision",
     Py.str (dict_get_default "power_display_precision" (SInt 0)
               (options coordinator)));
    ("energy_display_precision",
     Py.str (dict_get_default "energy_display_precision" (SInt 2)
               (options coordinator))) ].

(** The template variables a run hands to every sensor definition. *)
Definition run_template_vars (coordinator : SpanPanelCoordinator)
    (span_panel : SpanPanel) (leg1_circuit leg2_circuit : string)
    (leg1_number leg2_number : Z) (leg_entities : Dict Scalar) : Dict Scalar :=
  solar_template_vars coordinator span_panel leg1_circuit leg2_circuit
    (fst (_get_template_attributes leg1_number leg2_number))
    (snd (_get_template_attributes leg1_number leg2_number))
    leg_entities.

(** What the resolver answers for a tab and a suffix. *)
Definition resolved (span_panel : SpanPanel) (tab_number : Z)
    (suffix : string) : option string :=
  match outcome (_get_circuit_entity_id span_panel tab_number suffix) with
  | Ok found => found
  | Raise _ => None
  end.

(** The power, produced and consumed ids of a leg; none for a leg that is
    not configured. *)
Definition leg_ids (span_panel : SpanPanel) (leg_number : Z)
  : list (option string) :=
  if 0 <? leg_number
  then [ resolved span_panel leg_number "power";
         resolved span_panel leg_number "energy_produced";
         resolved span_panel leg_number "energy_consumed" ]
  else [ None; None; None ].

(** The six leg-entity variables of a run. *)
Definition leg_entities_of (span_panel : SpanPanel)
    (leg1_number leg2_number : Z) : Dict Scalar :=
  let id leg_number i := SStr (or_empty (nth i (leg_ids span_panel leg_number) None)) in
  [ ("leg1_power_entity", id leg1_number 0%nat);
    ("leg1_produced_entity", id leg1_number 1%nat);
    ("leg1_consumed_entity", id leg1_number 2%nat);
    ("leg2_power_entity", id leg2_number 0%nat);
    ("leg2_produced_entity", id leg2_number 1%nat);
    ("leg2_consumed_entity", id leg2_number 2%nat) ].

(** The [required_entities] of a run. *)
Definition required_entities_of (span_panel : SpanPanel)
    (leg1_number leg2_number : Z) : list string :=
  (str_instances (leg_ids span_panel leg1_number)
     ++ str_instances (leg_ids span_panel leg2_number))%list.

(** Does a run get as far as the loop over the sensor definitions? *)
Definition sensors_attempted (span_panel : SpanPanel)
    (leg1_number leg2_number : Z) : bool :=
  negb ((leg1_number =? 0) && (leg2_number =? 0))
  && match required_entities_of span_panel leg1_number leg2_number with
     | [] => false
     | _ :: _ => true
     end
  && forallb (fun entity => negb (entity =? "")%string)
       (required_entities_of span_panel leg1_number leg2_number).

(** The template variables of a run that gets that far. *)
Definition template_vars_of (coordinator : SpanPanelCoordinator)
    (span_panel : SpanPanel) (leg1_circuit leg2_circuit : string)
    (leg1_number leg2_number : Z) : Dict Scalar :=
  run_template_vars coordinator span_panel leg1_circuit leg2_circuit
    leg1_number leg2_number
    (leg_entities_of span_panel leg1_number leg2_number).

(** The mapping after the sensor definitions [defs], each storing what its
    own attempt gave. *)
Definition store_attempt (coordinator : SpanPanelCoordinator)
    (span_panel : SpanPanel) (template_vars : Dict Scalar)
    (leg1_number leg2_number : Z)
    (sensor_configs : Dict (Dict PyVal)) (sensor_def : SensorDef)
  : Dict (Dict PyVal) :=
  match sensor_attempt coordinator span_panel template_vars
          leg1_number leg2_number sensor_def with
  | Some config =>
      dict_set (solar_unique_id span_panel sensor_def) config sensor_configs
  | None => sensor_configs
  end.

(** The sensor definitions a run processes with success, in order. *)
Definition processed (coordinator : SpanPanelCoordinator)
    (span_panel : SpanPanel) (leg1_circuit leg2_circuit : string)
    (leg1_number leg2_number : Z) : list SensorDef :=
  if sensors_attempted span_panel leg1_number leg2_number
  then filter
         (attempt_succeeds coordinator span_panel
            (template_vars_of coordinator span_panel leg1_circuit leg2_circuit
               leg1_number leg2_number)
            leg1_number leg2_number)
         SOLAR_SENSOR_DEFINITIONS
  else [].

(** The unique-id constructor tells the three kind tokens apart. *)
Definition distinct_unique_ids (span_panel : SpanPanel) : Prop :=
  NoDup (map (solar_unique_id span_panel) SOLAR_SENSOR_DEFINITIONS).

(** The global settings a run ends up with. *)
Definition global_settings_of (coordinator : SpanPanelCoordinator)
    (span_panel : SpanPanel) : PyVal :=
  match outcome (load_global_settings coordinator span_panel) with
  | Ok settings => settings
  | Raise _ => PDict []
  end.

(** The entries that the successful attempts among [defs] contribute. *)
Definition attempt_entries (coordinator : SpanPanelCoordinator)
    (span_panel : SpanPanel) (template_vars : Dict Scalar)
    (leg1_number leg2_number : Z) (defs : list SensorDef)
  : Dict (Dict PyVal) :=
  flat_map
    (fun sensor_def =>
       match sensor_attempt coordinator span_panel template_vars
               leg1_number leg2_number sensor_def with
       | Some config => [(solar_unique_id span_panel sensor_def, config)]
       | None => []
       end)
    defs.

(** A run has logged an error. *)
Definition logged_error {A : Type} (m : M A) : Prop :=
  exists r, In r (trace m) /\ level r = ERROR.

End Notions.

(** Two sets of collaborators that answer every call alike. *)
Definition collaborators_agree (c1 c2 : Collaborators) : Prop :=
  (forall s, @slugify c1 s = @slugify c2 s)
  /\ (forall p, @panel_to_device_info c1 p = @panel_to_device_info c2 p)
  /\ (forall p t s,
        @get_unmapped_circuit_entity_id c1 p t s
        = @get_unmapped_circuit_entity_id c2 p t s)
  /\ (forall co p d st f t u,
        @construct_120v_synthetic_entity_id c1 co p d st f t u
        = @construct_120v_synthetic_entity_id c2 co p d st f t u)
  /\ (forall co p d st f t1 t2 u,
        @construct_240v_synthetic_entity_id c1 co p d st f t1 t2 u
        = @construct_240v_synthetic_entity_id c2 co p d st f t1 t2 u)
  /\ (forall s k,
        @construct_synthetic_unique_id c1 s k
        = @construct_synthetic_unique_id c2 s k)
  /\ (forall c, @construct_tabs_attribute c1 c = @construct_tabs_attribute c2 c)
  /\ (forall c,
        @construct_voltage_attribute c1 c = @construct_voltage_attribute c2 c)
  /\ (forall t v, @combine_yaml_templates c1 t v = @combine_yaml_templates c2 t v).

(** Modelled from the spec: [construct_tabs_attribute] of helpers.py, which
    is not among the sources.  The specification asks for the canonical
    string list of the circuit's tab numbers, sorted ascending, and writes
    the two-tab case "15_16"; a circuit without tabs has no attribute. *)
Definition spec_tabs_attribute (circuit : SpanPanelCircuit) : option string :=
  match tabs circuit with
  | Some (t :: ts) => Some (Py.join "_" (map Py.str_int (Py.sorted (t :: ts))))
  | _ => None
  end.

(** Modelled from the spec: [construct_voltage_attribute] of helpers.py,
    which is not among the sources.  The voltage follows the tab count: one
    tab is the 120V class, two tabs the 240V class. *)
Definition spec_voltage_attribute (circuit : SpanPanelCircuit) : option Z :=
  match tabs circuit with
  | Some [_] => Some 120
  | Some [_; _] => Some 240
  | _ => None
  end.

(** ** Sample panels and collaborators

    Stand-ins for helpers.py and for the template service, used to run the
    module on concrete inputs. *)

Module Sample.

Definition unmapped_id (span_panel : SpanPanel) (tab_number : Z)
    (suffix : string) : option string :=
  Some ("sensor.span_panel_unmapped_tab_" ++ Py.str_int tab_number
          ++ "_" ++ suffix).

(** A resolver that knows no power entity for unmapped tabs. *)
Definition unmapped_id_without_power (span_panel : SpanPanel)
    (tab_number : Z) (suffix : string) : option string :=
  if (suffix =? "power")%string then None
  else unmapped_id span_panel tab_number suffix.

Definition unique_id (serial kind : string) : string :=
  "span_" ++ serial ++ "_" ++ kind.

(** A template service that answers the header call with the precisions
    and a sensor call with one sensor keyed by its template. *)
Definition renderer (template_files : list string) (vars : Dict string)
  : Res PyVal :=
  match template_files with
  | [] =>
      Ok (PDict
            [ ("global_settings",
               PDict [ ("device_identifier",
                        PAtom (SStr (dict_get_default "device_identifier" "" vars))) ]);
              ("sensor_configs", PDict []) ])
  | file :: _ =>
      Ok (PDict
            [ ("sensor_configs",
               PDict [ (file,
                        PDict [ ("name", PAtom (SStr "Solar"));
                                ("formula", PAtom (SStr "leg1 + leg2")) ]) ]) ])
  end.

(** A template whose only sensor key has no body: YAML reads it as null. *)
Definition renderer_null_entry (template_files : list string)
    (vars : Dict string) : Res PyVal :=
  Ok (PDict [ ("sensor_configs", PDict [ ("solar", PAtom SNone) ]) ]).

Definition renderer_down (template_files : list string) (vars : Dict string)
  : Res PyVal :=
  Raise (OtherError "template service unavailable").

Definition collaborators_with
    (unmapped : SpanPanel -> Z -> string -> option string)
    (service : list string -> Dict string -> Res PyVal) : Collaborators :=
  {| slugify := fun s => s;
     panel_to_device_info := fun _ => [("name", Some "span_panel")];
     get_unmapped_circuit_entity_id := unmapped;
     construct_120v_synthetic_entity_id :=
       fun _ _ domain kind _ tab _ =>
         Some (domain ++ ".span_panel_solar_" ++ Py.str_int tab ++ "_" ++ kind);
     construct_240v_synthetic_entity_id :=
       fun _ _ domain kind _ tab1 tab2 _ =>
         Some (domain ++ ".span_panel_solar_" ++ Py.str_int tab1 ++ "_"
                 ++ Py.str_int tab2 ++ "_" ++ kind);
     construct_synthetic_unique_id := unique_id;
     construct_tabs_attribute := spec_tabs_attribute;
     construct_voltage_attribute := spec_voltage_attribute;
     combine_yaml_templates := service |}.

Definition helpers : Collaborators := collaborators_with unmapped_id renderer.

Definition helpers_null_entry : Collaborators :=
  collaborators_with unmapped_id renderer_null_entry.

Definition helpers_without_power : Collaborators :=
  collaborators_with unmapped_id_without_power renderer.

Definition helpers_renderer_down : Collaborators :=
  collaborators_with unmapped_id renderer_down.

(** The same answers as [helpers], computed another way. *)
Definition helpers_again : Collaborators :=
  collaborators_with
    (fun span_panel tab_number suffix =>
       match unmapped_id span_panel tab_number suffix with
       | Some s => Some s
       | None => None
       end)
    (fun template_files vars =>
       match renderer template_files vars with
       | Ok v => Ok v
       | Raise e => Raise e
       end).

Definition coordinator : SpanPanelCoordinator := mkCoordinator [].

Definition circuit_on (id : string) (ts : list Z) : SpanPanelCircuit :=
  mkCircuit id id "CLOSED" "NORMAL" true true false (Some ts).

(** A panel without mapped circuits. *)
Definition panel : SpanPanel := mkPanel [] "ABC123".

(** A panel with a circuit on tabs 5 and 3. *)
Definition panel_3_5 : SpanPanel :=
  mkPanel [ ("c7", circuit_on "c7" [7]); ("c35", circuit_on "c35" [5; 3]) ]
    "ABC123".

(** A snapshot in which tab 3 is listed by two circuits. *)
Definition panel_overlap : SpanPanel :=
  mkPanel [ ("c3", circuit_on "c3" [3]); ("c35", circuit_on "c35" [3; 5]) ]
    "ABC123".

Definition power_def : SensorDef :=
  mkSensorDef "solar_current_power.yaml.txt" "power"
    "Current solar power production".

Definition produced_def : SensorDef :=
  mkSensorDef "solar_produced_energy.yaml.txt" "energy_produced"
    "Total solar energy produced".

Definition consumed_def : SensorDef :=
  mkSensorDef "solar_consumed_energy.yaml.txt" "energy_consumed"
    "Total solar energy consumed".

Definition power_vars : Dict Scalar :=
  [ ("leg1_power_entity", SStr "sensor.a"); ("leg2_power_entity", SStr "sensor.b") ].

End Sample.

(** ** Further notions *)

(** The characters of a printed integer: digits and the minus sign. *)
Definition number_char (c : ascii) : bool :=
  match Py.digit_of c with
  | Some _ => true
  | None => Ascii.eqb c "-"
  end.

Fixpoint number_chars (s : string) : bool :=
  match s with
  | EmptyString => true
  | String c s' => number_char c && number_chars s'
  end.

(** The leg identifier of an unmapped tab, as in "unmapped_tab_15". *)
Definition leg_identifier (tab_number : Z) : string :=
  "unmapped_tab_" ++ Py.str_int tab_number.


Section ResolverNotions.

Context {collab : Collaborators}.

(** The entity id of a mapped single-tab circuit. *)
Definition single_tab_entity_id (span_panel : SpanPanel) (tab_number : Z)
    (suffix : string) : string :=
  "sensor." ++ _device_name span_panel ++ "_circuit_"
    ++ Py.str_int tab_number ++ "_" ++ suffix.

(** The first circuit, in the order of the snapshot, that lists the tab. *)
Definition first_circuit_with (tab_number : Z) (items : Dict SpanPanelCircuit)
  : option SpanPanelCircuit :=
  option_map snd (find (fun kc => circuit_has_tab tab_number (snd kc)) items).

(** The circuits of the snapshot that list the tab. *)
Definition circuits_with (tab_number : Z) (items : Dict SpanPanelCircuit)
  : Dict SpanPanelCircuit :=
  filter (fun kc => circuit_has_tab tab_number (snd kc)) items.

End ResolverNotions.

(** No record of the given level is logged. *)
Definition never_logs {A : Type} (lv : Level) (m : M A) : Prop :=
  Forall (fun r => level r <> lv) (trace m).

(** The six keys of the leg-entity variables. *)
Definition leg_entity_keys : list string :=
  [ "leg1_power_entity"; "leg1_produced_entity"; "leg1_consumed_entity";
    "leg2_power_entity"; "leg2_produced_entity"; "leg2_consumed_entity" ].

Module Scenario.

(** The snapshot of [Sample.panel_3_5] with its circuits the other way
    round. *)
Definition panel_3_5_reversed : SpanPanel :=
  mkPanel [ ("c35", Sample.circuit_on "c35" [5; 3]);
            ("c7", Sample.circuit_on "c7" [7]) ]
    "ABC123".

(** A resolver that answers the power entity of an unmapped tab with an
    empty id. *)
Definition unmapped_id_empty_power (span_panel : SpanPanel)
    (tab_number : Z) (suffix : string) : option string :=
  if (suffix =? "power")%string then Some ""
  else Sample.unmapped_id span_panel tab_number suffix.

Definition helpers_empty_power : Collaborators :=
  Sample.collaborators_with unmapped_id_empty_power Sample.renderer.

(** Collaborators whose naming helpers give no entity id. *)
Definition helpers_unnamed : Collaborators :=
  {| slugify := @slugify Sample.helpers;
     panel_to_device_info := @panel_to_device_info Sample.helpers;
     get_unmapped_circuit_entity_id := Sample.unmapped_id;
     construct_120v_synthetic_entity_id := fun _ _ _ _ _ _ _ => None;
     construct_240v_synthetic_entity_id := fun _ _ _ _ _ _ _ _ => None;
     construct_synthetic_unique_id := Sample.unique_id;
     construct_tabs_attribute := spec_tabs_attribute;
     construct_voltage_attribute := spec_voltage_attribute;
     combine_yaml_templates := Sample.renderer |}.

End Scenario.

(** The variables that [_process_sensor_template] hands to the template
    service: the template variables with [entity_id] set, made strings. *)
Definition renderer_vars (template_vars : Dict Scalar) (entity_id : string)
  : Dict string :=
  map (fun kv => (fst kv, _stringify (fst kv) (snd kv)))
    (dict_set "entity_id" (SStr entity_id) template_vars).

(** The default of each field of a sensor-config record; no default for a
    key that is not one of its fields. *)
Definition default_field (entity_id : string) (key : string) : option PyVal :=
  if ("entity_id" =? key)%string then Some (PAtom (SStr entity_id))
  else if ("name" =? key)%string then Some (PAtom (SStr ""))
  else if ("formula" =? key)%string then Some (PAtom (SStr ""))
  else if ("variables" =? key)%string then Some (PDict [])
  else if ("attributes" =? key)%string then Some (PDict [])
  else if ("metadata" =? key)%string then Some (PDict [])
  else None.

(** ** Notions of the amended statements *)

Section AmendedNotions.

Context {collab : Collaborators}.

(** The rendering is well formed for the template processor when what it
    finds under [sensor_configs], if anything truthy, is a mapping whose
    first entry is a mapping. *)
Definition well_formed_rendering (sensor_def : SensorDef)
    (template_vars : Dict Scalar) (entity_id : option string) : bool :=
  match entity_id with
  | None => true
  | Some e =>
      match rendered_sensors sensor_def template_vars e with
      | None => true
      | Some sensors =>
          negb (Py.truthy_val sensors)
          || match first_sensor_config sensors with
             | Some _ => true
             | None => false
             end
      end
  end.

(** The global-settings load fails: the header call raises. *)
Definition settings_load_fails (coordinator : SpanPanelCoordinator)
    (span_panel : SpanPanel) : Prop :=
  exists e,
    combine_yaml_templates [] (header_placeholders coordinator span_panel)
    = Raise e.

(** The propagation claim, as stated, on the failure path of a
    global-settings load failure: no exception leaves the generator. *)
Definition no_escape_as_stated (coordinator : SpanPanelCoordinator)
    (span_panel : SpanPanel) (leg1_circuit leg2_circuit device_name : string)
  : Prop :=
  settings_load_fails coordinator span_panel ->
  exists result,
    outcome (generate_solar_sensors coordinator span_panel
               leg1_circuit leg2_circuit device_name)
    = Ok result.

(** Two snapshots that Python holds equal: the same serial number and the
    same circuits under the same keys, in whatever order. *)
Definition same_snapshot (p1 p2 : SpanPanel) : Prop :=
  serial_number p1 = serial_number p2
  /\ Permutation (circuits p1) (circuits p2).

(** The collaborators that are handed the snapshot answer alike for two
    snapshots. *)
Definition helpers_alike (p1 p2 : SpanPanel) : Prop :=
  panel_to_device_info p1 = panel_to_device_info p2
  /\ (forall tab_number suffix,
        get_unmapped_circuit_entity_id p1 tab_number suffix
        = get_unmapped_circuit_entity_id p2 tab_number suffix)
  /\ (forall coordinator domain kind friendly tab unique_id,
        construct_120v_synthetic_entity_id coordinator p1
          domain kind friendly tab unique_id
        = construct_120v_synthetic_entity_id coordinator p2
            domain kind friendly tab unique_id)
  /\ (forall coordinator domain kind friendly tab1 tab2 unique_id,
        construct_240v_synthetic_entity_id coordinator p1
          domain kind friendly tab1 tab2 unique_id
        = construct_240v_synthetic_entity_id coordinator p2
            domain kind friendly tab1 tab2 unique_id).

(** No tab is listed by more than one circuit of the snapshot. *)
Definition tabs_listed_once (span_panel : SpanPanel) : Prop :=
  forall tab_number,
    (List.length (circuits_with tab_number (circuits span_panel)) <= 1)%nat.

(** The sensor-config mapping of a run, when it returns. *)
Definition sensor_configs_of (coordinator : SpanPanelCoordinator)
    (span_panel : SpanPanel) (leg1_circuit leg2_circuit device_name : string)
  : option (Dict (Dict PyVal)) :=
  match
    outcome (generate_solar_sensors coordinator span_panel
               leg1_circuit leg2_circuit device_name)
  with
  | Ok (sensor_configs, _, _) => Some sensor_configs
  | Raise _ => None
  end.

(** The determinism claim, as stated, on two invocations with equal
    inputs. *)
Definition deterministic_as_stated (coordinator : SpanPanelCoordinator)
    (p1 p2 : SpanPanel) (leg1_circuit leg2_circuit device_name : string)
  : Prop :=
  same_snapshot p1 p2 -> helpers_alike p1 p2 ->
  sensor_configs_of coordinator p1 leg1_circuit leg2_circuit device_name
  = sensor_configs_of coordinator p2 leg1_circuit leg2_circuit device_name.

End AmendedNotions.

(** The collaborators [base] with another template service. *)
Definition with_service (base : Collaborators)
    (service : list string -> Dict string -> Res PyVal) : Collaborators :=
  {| slugify := @slugify base;
     panel_to_device_info := @panel_to_device_info base;
     get_unmapped_circuit_entity_id := @get_unmapped_circuit_entity_id base;
     construct_120v_synthetic_entity_id :=
       @construct_120v_synthetic_entity_id base;
     construct_240v_synthetic_entity_id :=
       @construct_240v_synthetic_entity_id base;
     construct_synthetic_unique_id := @construct_synthetic_unique_id base;
     construct_tabs_attribute := @construct_tabs_attribute base;
     construct_voltage_attribute := @construct_voltage_attribute base;
     combine_yaml_templates := service |}.

(** A template service that answers every call with one sensor, whose
    fields [answer] computes from the very arguments of the call. *)
Definition reporting_service
    (answer : list string -> Dict string -> Dict PyVal)
    (template_files : list string) (vars : Dict string) : Res PyVal :=
  Ok (PDict [ ("sensor_configs",
               PDict [ ("sensor", PDict (answer template_files vars)) ]) ]).

Module Cases.

(** The snapshot of [Sample.panel_overlap] with its circuits the other way
    round. *)
Definition panel_overlap_reversed : SpanPanel :=
  mkPanel [ ("c35", Sample.circuit_on "c35" [3; 5]);
            ("c3", Sample.circuit_on "c3" [3]) ]
    "ABC123".

(** A template service whose sensor has the leg-1 power entity as its
    formula. *)
Definition renderer_of_leg1 (template_files : list string)
    (vars : Dict string) : Res PyVal :=
  reporting_service
    (fun _ vars =>
       [ ("formula",
          PAtom (SStr (dict_get_default "leg1_power_entity" "" vars))) ])
    template_files vars.

Definition helpers_of_leg1 : Collaborators :=
  Sample.collaborators_with Sample.unmapped_id renderer_of_leg1.

(** An answer that shows both arguments of the call: the template files
    under [name], the variables under [variables]. *)
Definition echo (template_files : list string) (vars : Dict string)
  : Dict PyVal :=
  [ ("name", PAtom (SStr (String.concat "," template_files)));
    ("variables", PDict (map (fun kv => (fst kv, PAtom (SStr (snd kv)))) vars)) ].

(** Template variables of every kind, with an [entity_id] of their own. *)
Definition vars_of_every_kind : Dict Scalar :=
  [ ("leg1_power_entity", SStr "sensor.a");
    ("entity_id", SStr "sensor.other");
    ("leg2_power_entity", SStr "sensor.b");
    ("voltage_attribute", SInt 240);
    ("power_display_precision", SNone) ].

End Cases.

(** * Properties *)

(** ** The monad *)

Section MonadFacts.

Context {A B : Type}.

Lemma outcome_bind_ok (m : M A) (f : A -> M B) (a : A) :
  outcome m = Ok a -> outcome (bind m f) = outcome (f a).
Proof.
  destruct m as [l [x | e]]; simpl; intros H; inversion H; subst.
  destruct (f a); reflexivity.
Qed.

Lemma outcome_bind_raise (m : M A) (f : A -> M B) (e : Exn) :
  outcome m = Raise e -> outcome (bind m f) = Raise e.
Proof.
  destruct m as [l [x | e']]; simpl; intros H; inversion H; subst.
  reflexivity.
Qed.

Lemma trace_bind_head (m : M A) (f : A -> M B) (r : LogRecord) :
  In r (trace m) -> In r (trace (bind m f)).
Proof.
  destruct m as [l [x | e]]; simpl; intros H; [ | exact H ].
  destruct (f x); simpl. apply in_or_app. left. exact H.
Qed.

Lemma trace_bind_tail (m : M A) (f : A -> M B) (a : A) (r : LogRecord) :
  outcome m = Ok a -> In r (trace (f a)) -> In r (trace (bind m f)).
Proof.
  destruct m as [l [x | e]]; simpl; intros H; inversion H; subst.
  destruct (f a); simpl. intros Hr. apply in_or_app. right. exact Hr.
Qed.

Lemma outcome_log_then (lv : Level) (msg : string) (k : M B) :
  outcome (log lv msg ;;; k) = outcome k.
Proof. unfold bind, log. destruct k. reflexivity. Qed.

Lemma trace_log_then (lv : Level) (msg : string) (k : M B) :
  trace (log lv msg ;;; k) = mkLog lv msg :: trace k.
Proof. unfold bind, log. destruct k. reflexivity. Qed.

Lemma outcome_lift_then (a : A) (f : A -> M B) :
  outcome (bind (lift (Ok a)) f) = outcome (f a).
Proof. unfold bind, lift. destruct (f a). reflexivity. Qed.

End MonadFacts.

(** ** The template processor *)

Section TemplateProcessor.

Context {collab : Collaborators}.

Lemma var_unusable_falsy (template_vars : Dict Scalar) (var : string) :
  _var_unusable template_vars var =
  match dict_get var template_vars with
  | None => true
  | Some v => negb (Py.truthy v)
  end.
Proof.
  unfold _var_unusable. destruct (dict_get var template_vars) as [v | ]; [ | reflexivity ].
  destruct v as [ | b | z | s]; simpl; try (rewrite orb_false_r; reflexivity).
  - reflexivity.
  - destruct (s =? "")%string; reflexivity.
Qed.

Lemma required_vars_falsy (template_vars : Dict Scalar) (vars : list string) :
  existsb (_var_unusable template_vars) vars =
  existsb (fun var =>
             match dict_get var template_vars with
             | None => true
             | Some v => negb (Py.truthy v)
             end) vars.
Proof.
  induction vars as [ | var vars IH]; simpl; [ reflexivity | ].
  rewrite var_unusable_falsy, IH. reflexivity.
Qed.

(** Past the two guards the outcome is decided by what the service
    answers. *)
Lemma process_outcome_rendered (sensor_def : SensorDef)
    (template_vars : Dict Scalar) (e : string) :
  (e =? "")%string = false ->
  existsb (_var_unusable template_vars) (_required_vars sensor_def) = false ->
  outcome (_process_sensor_template sensor_def template_vars (Some e)) =
  match rendered_sensors sensor_def template_vars e with
  | None => Ok None
  | Some sensors =>
      if Py.truthy_val sensors
      then match first_sensor_config sensors with
           | Some sensor_config => Ok (Some (_final_config e sensor_config))
           | None => Raise AttributeError
           end
      else Ok None
  end.
Proof.
  intros He Hv. unfold _process_sensor_template, rendered_sensors, render_for.
  rewrite He, Hv. rewrite outcome_log_then.
  destruct (combine_yaml_templates _ _) as [v | err]; [ | reflexivity ].
  destruct v as [a | l | d]; try reflexivity.
  simpl. destruct (dict_get "sensor_configs" d) as [sensors | ]; [ | reflexivity ].
  destruct sensors as [a | l | ds].
  - simpl. destruct (Py.truthy a); reflexivity.
  - destruct l; reflexivity.
  - destruct ds as [ | [key entry] rest]; [ reflexivity | ].
    destruct entry as [a | l | config]; reflexivity.
Qed.

(** Every outcome of the template processor, the one on a rendering that
    is not well formed included. *)
Lemma process_sensor_template_outcomes (sensor_def : SensorDef)
    (template_vars : Dict Scalar) (entity_id : option string) :
  let r := outcome (_process_sensor_template sensor_def template_vars entity_id) in
  (r = Ok None <-> process_fails sensor_def template_vars entity_id = true)
  /\ (process_fails sensor_def template_vars entity_id = false ->
      exists e sensors,
        entity_id = Some e
        /\ rendered_sensors sensor_def template_vars e = Some sensors
        /\ match first_sensor_config sensors with
           | Some sensor_config =>
               r = Ok (Some (_final_config e sensor_config))
           | None => r = Raise AttributeError
           end).
Proof.
  destruct entity_id as [e | ]; cbv zeta.
  2: { simpl. split; [ tauto | discriminate ]. }
  unfold process_fails. rewrite <- required_vars_falsy.
  destruct (e =? "")%string eqn:He.
  { unfold _process_sensor_template. rewrite He. simpl.
    split; [ tauto | discriminate ]. }
  destruct (existsb (_var_unusable template_vars) (_required_vars sensor_def))
    eqn:Hv.
  { unfold _process_sensor_template. rewrite He, Hv, outcome_log_then. simpl.
    split; [ tauto | discriminate ]. }
  rewrite (process_outcome_rendered _ _ _ He Hv). simpl.
  destruct (rendered_sensors sensor_def template_vars e) as [sensors | ] eqn:Hr.
  2: { split; [ tauto | discriminate ]. }
  destruct (Py.truthy_val sensors) eqn:Ht; simpl.
  - split.
    + destruct (first_sensor_config sensors); split; discriminate.
    + intros _. exists e, sensors. split; [ reflexivity | ]. split; [ exact Hr | ].
      destruct (first_sensor_config sensors); reflexivity.
  - split; [ tauto | discriminate ].
Qed.


End TemplateProcessor.



(** An empty entity id is present, yet it too gives [None]. *)
Example process_empty_entity_id :
  @spec_process_fails Sample.helpers Sample.power_def Sample.power_vars (Some "")
  = false
  /\ outcome (@_process_sensor_template Sample.helpers
                Sample.power_def Sample.power_vars (Some ""))
     = Ok None.
Proof. split; reflexivity. Qed.

(** ** The entity resolver *)

Lemma insert_sorted_perm (x : Z) (l : list Z) :
  Permutation (x :: l) (Py.insert_sorted x l).
Proof.
  induction l as [ | y l IH]; simpl; [ apply Permutation_refl | ].
  destruct (x <=? y); [ apply Permutation_refl | ].
  eapply Permutation_trans; [ apply perm_swap | ].
  apply perm_skip. exact IH.
Qed.

Lemma sorted_perm (l : list Z) : Permutation l (Py.sorted l).
Proof.
  induction l as [ | x l IH]; simpl; [ apply perm_nil | ].
  eapply Permutation_trans; [ apply perm_skip; exact IH | ].
  apply insert_sorted_perm.
Qed.

Lemma insert_sorted_ascending (x : Z) (l : list Z) :
  StronglySorted Z.le l -> StronglySorted Z.le (Py.insert_sorted x l).
Proof.
  induction l as [ | y l IH]; simpl; intros Hs.
  - constructor; [ constructor | constructor ].
  - destruct (x <=? y) eqn:Hxy.
    + apply Z.leb_le in Hxy. constructor; [ exact Hs | ].
      inversion Hs as [ | ? ? Hl Hall]; subst.
      constructor; [ exact Hxy | ].
      eapply Forall_impl; [ | exact Hall ]. intros z Hz. lia.
    + apply Z.leb_gt in Hxy.
      inversion Hs as [ | ? ? Hl Hall]; subst.
      constructor; [ apply IH; exact Hl | ].
      eapply Permutation_Forall; [ apply insert_sorted_perm | ].
      constructor; [ lia | exact Hall ].
Qed.

Lemma sorted_ascending (l : list Z) : StronglySorted Z.le (Py.sorted l).
Proof.
  induction l as [ | x l IH]; simpl; [ constructor | ].
  apply insert_sorted_ascending. exact IH.
Qed.

Lemma existsb_eqb_in (t : Z) (ts : list Z) :
  In t ts -> existsb (Z.eqb t) ts = true.
Proof.
  intros H. apply existsb_exists. exists t. split; [ exact H | apply Z.eqb_refl ].
Qed.

Section Resolver.

Context {collab : Collaborators}.

Lemma scan_skip (span_panel : SpanPanel) (key : string)
    (circuit : SpanPanelCircuit) (rest : Dict SpanPanelCircuit)
    (tab_number : Z) (suffix : string) :
  circuit_has_tab tab_number circuit = false ->
  _scan_circuits span_panel ((key, circuit) :: rest) tab_number suffix
  = _scan_circuits span_panel rest tab_number suffix.
Proof.
  unfold circuit_has_tab. cbn [_scan_circuits].
  destruct (tabs circuit) as [[ | t ts] | ]; try reflexivity.
  intros H. rewrite H. reflexivity.
Qed.

Lemma scan_skip_all (span_panel : SpanPanel)
    (before rest : Dict SpanPanelCircuit) (tab_number : Z) (suffix : string) :
  (forall kc, In kc before -> circuit_has_tab tab_number (snd kc) = false) ->
  _scan_circuits span_panel (before ++ rest)%list tab_number suffix
  = _scan_circuits span_panel rest tab_number suffix.
Proof.
  induction before as [ | [key circuit] before IH]; intros H; [ reflexivity | ].
  rewrite <- app_comm_cons, scan_skip.
  - apply IH. intros kc Hkc. apply H. right. exact Hkc.
  - apply (H (key, circuit)). left. reflexivity.
Qed.

Lemma scan_hit_multi (span_panel : SpanPanel) (key : string)
    (circuit : SpanPanelCircuit) (rest : Dict SpanPanelCircuit)
    (ts : list Z) (tab_number : Z) (suffix : string) :
  tabs circuit = Some ts ->
  (1 < List.length ts)%nat ->
  In tab_number ts ->
  outcome (_scan_circuits span_panel ((key, circuit) :: rest) tab_number suffix)
  = Ok (Some (multi_tab_entity_id span_panel ts suffix)).
Proof.
  intros Ht Hlen Hin. cbn [_scan_circuits]. rewrite Ht.
  destruct ts as [ | t ts]; [ inversion Hin | ].
  rewrite (existsb_eqb_in _ _ Hin).
  destruct (List.length (t :: ts) =? 1)%nat eqn:Hone.
  - apply Nat.eqb_eq in Hone. lia.
  - rewrite outcome_log_then. reflexivity.
Qed.

(** The resolver always answers; it has no failure of its own. *)
Lemma scan_returns (span_panel : SpanPanel) (items : Dict SpanPanelCircuit)
    (tab_number : Z) (suffix : string) :
  exists found,
    outcome (_scan_circuits span_panel items tab_number suffix) = Ok found.
Proof.
  induction items as [ | [key circuit] items IH]; cbn [_scan_circuits].
  - eexists. reflexivity.
  - destruct (tabs circuit) as [[ | t ts] | ]; try exact IH.
    destruct (existsb (Z.eqb tab_number) (t :: ts)); [ | exact IH ].
    destruct (List.length (t :: ts) =? 1)%nat; eexists; reflexivity.
Qed.


End Resolver.



(** ** The orchestrator, step by step *)

Section Orchestrator.

Context {collab : Collaborators}.

Lemma resolver_outcome (span_panel : SpanPanel) (tab_number : Z)
    (suffix : string) :
  outcome (_get_circuit_entity_id span_panel tab_number suffix)
  = Ok (resolved span_panel tab_number suffix).
Proof.
  unfold resolved, _get_circuit_entity_id.
  destruct (scan_returns span_panel (circuits span_panel) tab_number suffix)
    as [found Hf].
  rewrite Hf. reflexivity.
Qed.

Lemma leg_block_outcome (span_panel : SpanPanel) (leg : string)
    (leg_number : Z) :
  outcome (_leg_block span_panel leg leg_number)
  = Ok (nth 0 (leg_ids span_panel leg_number) None,
        nth 1 (leg_ids span_panel leg_number) None,
        nth 2 (leg_ids span_panel leg_number) None,
        str_instances (leg_ids span_panel leg_number)).
Proof.
  unfold _leg_block, leg_ids. destruct (0 <? leg_number); [ | reflexivity ].
  rewrite outcome_log_then.
  rewrite (outcome_bind_ok _ _ _ (resolver_outcome _ _ _)).
  rewrite (outcome_bind_ok _ _ _ (resolver_outcome _ _ _)).
  rewrite (outcome_bind_ok _ _ _ (resolver_outcome _ _ _)).
  rewrite outcome_log_then.
  destruct (forallb Py.truthy_opt _); reflexivity.
Qed.

Lemma leg_entities_outcome (span_panel : SpanPanel)
    (leg1_number leg2_number : Z) :
  outcome (_get_leg_entities span_panel leg1_number leg2_number)
  = Ok (leg_entities_of span_panel leg1_number leg2_number,
        required_entities_of span_panel leg1_number leg2_number).
Proof.
  unfold _get_leg_entities.
  rewrite (outcome_bind_ok _ _ _ (leg_block_outcome _ _ _)).
  rewrite (outcome_bind_ok _ _ _ (leg_block_outcome _ _ _)).
  rewrite !outcome_log_then. reflexivity.
Qed.

Lemma step_outcome (coordinator : SpanPanelCoordinator)
    (span_panel : SpanPanel) (template_vars : Dict Scalar)
    (leg1_number leg2_number : Z)
    (sensor_configs : Dict (Dict PyVal)) (sensor_def : SensorDef) :
  outcome (_solar_sensor_step coordinator span_panel template_vars
             leg1_number leg2_number sensor_configs sensor_def)
  = Ok (store_attempt coordinator span_panel template_vars
          leg1_number leg2_number sensor_configs sensor_def).
Proof.
  unfold _solar_sensor_step, store_attempt, sensor_attempt, solar_unique_id.
  destruct (_process_sensor_template _ _ _) as [l [[[ | entry config] | ] | e]];
    reflexivity.
Qed.

Lemma for_each_outcome (coordinator : SpanPanelCoordinator)
    (span_panel : SpanPanel) (template_vars : Dict Scalar)
    (leg1_number leg2_number : Z) (defs : list SensorDef) :
  forall sensor_configs,
    outcome (_for_each_sensor_def coordinator span_panel template_vars
               leg1_number leg2_number defs sensor_configs)
    = Ok (fold_left
            (store_attempt coordinator span_panel template_vars
               leg1_number leg2_number)
            defs sensor_configs).
Proof.
  induction defs as [ | sensor_def defs IH]; intros sensor_configs.
  - reflexivity.
  - cbn [_for_each_sensor_def fold_left].
    rewrite (outcome_bind_ok _ _ _ (step_outcome _ _ _ _ _ _ _)).
    apply IH.
Qed.

Lemma global_settings_outcome (coordinator : SpanPanelCoordinator)
    (span_panel : SpanPanel) :
  outcome (load_global_settings coordinator span_panel)
  = Ok (global_settings_of coordinator span_panel).
Proof.
  unfold global_settings_of, load_global_settings.
  destruct (combine_yaml_templates _ _) as [v | e]; reflexivity.
Qed.

(** What a run returns once the leg tokens have parsed. *)
Lemma generate_outcome (coordinator : SpanPanelCoordinator)
    (span_panel : SpanPanel) (leg1_circuit leg2_circuit device_name : string)
    (leg1_number leg2_number : Z) :
  _extract_leg_numbers leg1_circuit leg2_circuit
  = Ok (leg1_number, leg2_number) ->
  outcome (generate_solar_sensors coordinator span_panel
             leg1_circuit leg2_circuit device_name)
  = Ok (if sensors_attempted span_panel leg1_number leg2_number
        then fold_left
               (store_attempt coordinator span_panel
                  (template_vars_of coordinator span_panel
                     leg1_circuit leg2_circuit leg1_number leg2_number)
                  leg1_number leg2_number)
               SOLAR_SENSOR_DEFINITIONS []
        else [],
        [], global_settings_of coordinator span_panel).
Proof.
  intros Hx. unfold generate_solar_sensors, sensors_attempted.
  rewrite (outcome_bind_ok _ _ _ (global_settings_outcome _ _)).
  rewrite Hx, outcome_lift_then.
  destruct ((leg1_number =? 0) && (leg2_number =? 0)).
  { rewrite outcome_log_then. reflexivity. }
  rewrite (outcome_bind_ok _ _ _ (leg_entities_outcome _ _ _)).
  destruct (required_entities_of span_panel leg1_number leg2_number)
    as [ | entity entities] eqn:Hreq.
  { rewrite outcome_log_then. reflexivity. }
  cbn [negb andb].
  destruct (filter _ (entity :: entities)) as [ | bad rest] eqn:Hbad.
  - assert (Hall : forallb (fun e => negb (e =? "")%string) (entity :: entities) = true).
    { apply forallb_forall. intros e He.
      destruct (e =? "")%string eqn:Hee; [ | reflexivity ].
      assert (Hin : In e (filter (fun entity0 => (entity0 =? "")%string) (entity :: entities))).
      { apply filter_In. split; assumption. }
      rewrite Hbad in Hin. inversion Hin. }
    rewrite Hall.
    unfold template_vars_of, run_template_vars.
    destruct (_get_template_attributes leg1_number leg2_number) as [ta va].
    rewrite !outcome_log_then.
    rewrite (outcome_bind_ok _ _ _ (for_each_outcome _ _ _ _ _ _ _)).
    rewrite outcome_log_then. reflexivity.
  - assert (Hall : forallb (fun e => negb (e =? "")%string) (entity :: entities) = false).
    { apply not_true_is_false. intros Hf.
      assert (Hin : In bad (filter (fun entity0 => (entity0 =? "")%string) (entity :: entities))).
      { rewrite Hbad. left. reflexivity. }
      apply filter_In in Hin. destruct Hin as [Hin Hb].
      rewrite forallb_forall in Hf. specialize (Hf _ Hin). rewrite Hb in Hf.
      discriminate Hf. }
    rewrite Hall. rewrite outcome_log_then. reflexivity.
Qed.

Lemma generate_outcome_raise (coordinator : SpanPanelCoordinator)
    (span_panel : SpanPanel) (leg1_circuit leg2_circuit device_name : string)
    (e : Exn) :
  _extract_leg_numbers leg1_circuit leg2_circuit = Raise e ->
  outcome (generate_solar_sensors coordinator span_panel
             leg1_circuit leg2_circuit device_name)
  = Raise e.
Proof.
  intros Hx. unfold generate_solar_sensors.
  rewrite (outcome_bind_ok _ _ _ (global_settings_outcome _ _)).
  rewrite Hx. reflexivity.
Qed.

End Orchestrator.

(** ** Dictionaries *)

Section DictFacts.

Context {V : Type}.

Lemma dict_get_app (k : string) (d1 d2 : Dict V) :
  dict_get k (d1 ++ d2)%list =
  match dict_get k d1 with
  | Some v => Some v
  | None => dict_get k d2
  end.
Proof.
  induction d1 as [ | [k' v'] d1 IH]; simpl; [ reflexivity | ].
  destruct (k' =? k)%string; [ reflexivity | exact IH ].
Qed.

Lemma dict_set_fresh (k : string) (v : V) (d : Dict V) :
  dict_get k d = None -> dict_set k v d = (d ++ [(k, v)])%list.
Proof.
  induction d as [ | [k' v'] d IH]; simpl; [ reflexivity | ].
  destruct (k' =? k)%string; [ discriminate | ].
  intros H. rewrite (IH H). reflexivity.
Qed.

Lemma dict_get_absent (k : string) (d : Dict V) :
  ~ In k (map fst d) -> dict_get k d = None.
Proof.
  induction d as [ | [k' v'] d IH]; simpl; intros H; [ reflexivity | ].
  destruct (k' =? k)%string eqn:Hk.
  - apply String.eqb_eq in Hk. exfalso. apply H. left. exact Hk.
  - apply IH. intros Hin. apply H. right. exact Hin.
Qed.

Lemma dict_get_present (k : string) (v : V) (d : Dict V) :
  dict_get k d = Some v -> In k (map fst d).
Proof.
  induction d as [ | [k' v'] d IH]; simpl; [ discriminate | ].
  destruct (k' =? k)%string eqn:Hk.
  - apply String.eqb_eq in Hk. intros _. left. exact Hk.
  - intros H. right. apply IH. exact H.
Qed.

End DictFacts.

(** ** One entry per processed definition *)

Section StoredConfigs.

Context {collab : Collaborators}.

Variable coordinator : SpanPanelCoordinator.
Variable span_panel : SpanPanel.
Variable template_vars : Dict Scalar.
Variables leg1_number leg2_number : Z.

Let attempt := sensor_attempt coordinator span_panel template_vars
                 leg1_number leg2_number.
Let store := store_attempt coordinator span_panel template_vars
               leg1_number leg2_number.
Let entries := attempt_entries coordinator span_panel template_vars
                 leg1_number leg2_number.
Let succeeds := attempt_succeeds coordinator span_panel template_vars
                  leg1_number leg2_number.

Lemma entries_keys (defs : list SensorDef) :
  map fst (entries defs) = map (solar_unique_id span_panel) (filter succeeds defs).
Proof.
  unfold entries, attempt_entries, succeeds, attempt_succeeds.
  induction defs as [ | d defs IH]; simpl; [ reflexivity | ].
  destruct (sensor_attempt _ _ _ _ _ d); simpl; rewrite IH; reflexivity.
Qed.

Lemma entries_keys_incl (defs : list SensorDef) (k : string) :
  In k (map fst (entries defs)) -> In k (map (solar_unique_id span_panel) defs).
Proof.
  rewrite entries_keys. intros H. apply in_map_iff in H.
  destruct H as [d [Hd Hin]]. apply filter_In in Hin.
  apply in_map_iff. exists d. tauto.
Qed.

(** From a mapping that holds none of their keys, definitions with
    distinct keys append their entries in order. *)
Lemma stored_entries (defs : list SensorDef) :
  NoDup (map (solar_unique_id span_panel) defs) ->
  forall acc,
    (forall d, In d defs -> dict_get (solar_unique_id span_panel d) acc = None) ->
    fold_left store defs acc = (acc ++ entries defs)%list.
Proof.
  unfold store, entries, attempt_entries.
  induction defs as [ | d defs IH]; intros Hnd acc Hacc; simpl.
  - rewrite app_nil_r. reflexivity.
  - inversion Hnd as [ | ? ? Hd Hnd']; subst.
    unfold store_attempt at 2.
    destruct (sensor_attempt _ _ _ _ _ d) as [config | ].
    + rewrite dict_set_fresh by (apply Hacc; left; reflexivity).
      rewrite IH; [ rewrite <- app_assoc; reflexivity | exact Hnd' | ].
      intros d' Hd'. rewrite dict_get_app, Hacc by (right; exact Hd').
      simpl. destruct (solar_unique_id span_panel d =? solar_unique_id span_panel d')%string eqn:Hk;
        [ | reflexivity ].
      apply String.eqb_eq in Hk. exfalso. apply Hd. rewrite Hk.
      apply in_map. exact Hd'.
    + apply IH; [ exact Hnd' | ]. intros d' Hd'. apply Hacc. right. exact Hd'.
Qed.

Lemma entries_lookup (defs : list SensorDef) (d : SensorDef) :
  NoDup (map (solar_unique_id span_panel) defs) ->
  In d defs ->
  dict_get (solar_unique_id span_panel d) (entries defs) = attempt d.
Proof.
  unfold entries, attempt_entries, attempt.
  induction defs as [ | d' defs IH]; intros Hnd Hin; [ inversion Hin | ].
  inversion Hnd as [ | ? ? Hd' Hnd']; subst. simpl.
  rewrite dict_get_app. destruct Hin as [Heq | Hin].
  - subst d'. destruct (sensor_attempt _ _ _ _ _ d) as [config | ]; simpl.
    + rewrite String.eqb_refl. reflexivity.
    + apply dict_get_absent. intros Hk. apply Hd'.
      exact (entries_keys_incl defs _ Hk).
  - assert (Hne : (solar_unique_id span_panel d' =? solar_unique_id span_panel d)%string = false).
    { apply String.eqb_neq. intros Hk. apply Hd'. rewrite Hk. apply in_map. exact Hin. }
    destruct (sensor_attempt _ _ _ _ _ d') as [config | ]; simpl.
    + rewrite Hne. apply IH; assumption.
    + apply IH; assumption.
Qed.

End StoredConfigs.

(** ** Runs of the generator *)

Section Runs.

Context {collab : Collaborators}.

Variable coordinator : SpanPanelCoordinator.
Variable span_panel : SpanPanel.
Variables leg1_circuit leg2_circuit device_name : string.

Lemma extract_unprefixed :
  Py.startswith "unmapped_tab_" leg1_circuit = false ->
  Py.startswith "unmapped_tab_" leg2_circuit = false ->
  _extract_leg_numbers leg1_circuit leg2_circuit = Ok (0, 0).
Proof.
  intros H1 H2. unfold _extract_leg_numbers. rewrite H1, H2, andb_false_r.
  reflexivity.
Qed.

(** C2.  When neither leg identifier starts with "unmapped_tab_", leg
    extraction yields (0, 0), and the generator returns an empty
    sensor-config mapping, an empty backing-entity list and the global
    settings that the header template gave. *)
Theorem unprefixed_legs_yield_nothing :
  Py.startswith "unmapped_tab_" leg1_circuit = false ->
  Py.startswith "unmapped_tab_" leg2_circuit = false ->
  _extract_leg_numbers leg1_circuit leg2_circuit = Ok (0, 0)
  /\ outcome (generate_solar_sensors coordinator span_panel
                leg1_circuit leg2_circuit device_name)
     = Ok ([], [], global_settings_of coordinator span_panel).
Proof.
  intros H1 H2. pose proof (extract_unprefixed H1 H2) as Hx.
  split; [ exact Hx | ].
  rewrite (generate_outcome _ _ _ _ _ _ _ Hx). reflexivity.
Qed.

(** C9.  Whatever the input, the backing-entity list of the value that the
    generator returns is empty; it returns no value only when a leg token
    fails to parse. *)
Theorem backing_entities_always_empty :
  match
    outcome (generate_solar_sensors coordinator span_panel
               leg1_circuit leg2_circuit device_name)
  with
  | Ok (_, backing_entities, _) => backing_entities = []
  | Raise e => _extract_leg_numbers leg1_circuit leg2_circuit = Raise e
  end.
Proof.
  destruct (_extract_leg_numbers leg1_circuit leg2_circuit)
    as [[leg1_number leg2_number] | e] eqn:Hx.
  - rewrite (generate_outcome _ _ _ _ _ _ _ Hx). reflexivity.
  - rewrite (generate_outcome_raise _ _ _ _ _ _ Hx). reflexivity.
Qed.

Variables leg1_number leg2_number : Z.
Hypothesis legs_parse :
  _extract_leg_numbers leg1_circuit leg2_circuit
  = Ok (leg1_number, leg2_number).

Let template_vars :=
  template_vars_of coordinator span_panel leg1_circuit leg2_circuit
    leg1_number leg2_number.

Lemma attempt_needs_variables (sensor_def : SensorDef) :
  existsb (_var_unusable template_vars) (_required_vars sensor_def) = true ->
  sensor_attempt coordinator span_panel template_vars
    leg1_number leg2_number sensor_def = None.
Proof.
  intros Hv. unfold sensor_attempt, _process_sensor_template.
  destruct (_generate_sensor_entity_id _ _ _ _ _) as [e | ]; [ | reflexivity ].
  destruct (e =? "")%string; [ reflexivity | ].
  rewrite Hv, outcome_log_then. reflexivity.
Qed.

Lemma unconfigured_leg1_variables :
  (0 <? leg1_number) = false ->
  forall sensor_def, In sensor_def SOLAR_SENSOR_DEFINITIONS ->
    existsb (_var_unusable template_vars) (_required_vars sensor_def) = true.
Proof.
  intros H1 sensor_def Hin.
  unfold template_vars, template_vars_of, run_template_vars, leg_entities_of.
  unfold leg_ids at 1 2 3. rewrite H1.
  apply existsb_exists.
  destruct Hin as [Hd | [Hd | [Hd | []]]]; subst sensor_def;
    [ exists "leg1_power_entity"
    | exists "leg1_produced_entity"
    | exists "leg1_consumed_entity" ];
    (split; [ left; reflexivity | reflexivity ]).
Qed.

Lemma unconfigured_leg2_variables :
  (0 <? leg2_number) = false ->
  forall sensor_def, In sensor_def SOLAR_SENSOR_DEFINITIONS ->
    existsb (_var_unusable template_vars) (_required_vars sensor_def) = true.
Proof.
  intros H2 sensor_def Hin.
  unfold template_vars, template_vars_of, run_template_vars, leg_entities_of.
  unfold leg_ids at 4 5 6. rewrite H2.
  apply existsb_exists.
  destruct Hin as [Hd | [Hd | [Hd | []]]]; subst sensor_def;
    [ exists "leg2_power_entity"
    | exists "leg2_produced_entity"
    | exists "leg2_consumed_entity" ];
    (split; [ right; left; reflexivity | reflexivity ]).
Qed.

Lemma no_attempt_no_entry :
  (forall sensor_def, In sensor_def SOLAR_SENSOR_DEFINITIONS ->
     sensor_attempt coordinator span_panel template_vars
       leg1_number leg2_number sensor_def = None) ->
  fold_left
    (store_attempt coordinator span_panel template_vars
       leg1_number leg2_number)
    SOLAR_SENSOR_DEFINITIONS []
  = [].
Proof.
  intros H. unfold SOLAR_SENSOR_DEFINITIONS in *. cbn [fold_left].
  unfold store_attempt.
  rewrite !H; [ reflexivity | .. ]; simpl; tauto.
Qed.

(** C3.  When exactly one extracted leg tab number is positive and the
    other is 0, the returned sensor-config mapping is empty: with the
    variables of the unconfigured leg empty, the required-variable check of
    each of the three sensor definitions fails. *)
Theorem single_leg_yields_no_sensor :
  (0 < leg1_number /\ leg2_number = 0) \/ (leg1_number = 0 /\ 0 < leg2_number) ->
  outcome (generate_solar_sensors coordinator span_panel
             leg1_circuit leg2_circuit device_name)
  = Ok ([], [], global_settings_of coordinator span_panel)
  /\ forall sensor_def, In sensor_def SOLAR_SENSOR_DEFINITIONS ->
       existsb (_var_unusable template_vars) (_required_vars sensor_def) = true.
Proof.
  intros Hone.
  assert (Hvars : forall sensor_def, In sensor_def SOLAR_SENSOR_DEFINITIONS ->
            existsb (_var_unusable template_vars) (_required_vars sensor_def) = true).
  { destruct Hone as [[_ H2] | [H1 _]].
    - apply unconfigured_leg2_variables. subst leg2_number. reflexivity.
    - apply unconfigured_leg1_variables. subst leg1_number. reflexivity. }
  split; [ | exact Hvars ].
  rewrite (generate_outcome _ _ _ _ _ _ _ legs_parse).
  destruct (sensors_attempted span_panel leg1_number leg2_number);
    [ | reflexivity ].
  fold template_vars. rewrite no_attempt_no_entry; [ reflexivity | ].
  intros sensor_def Hin. apply attempt_needs_variables, Hvars, Hin.
Qed.

Lemma NoDup_map_filter {X Y : Type} (g : X -> Y) (f : X -> bool) (l : list X) :
  NoDup (map g l) -> NoDup (map g (filter f l)).
Proof.
  induction l as [ | x l IH]; simpl; intros H; [ constructor | ].
  inversion H as [ | ? ? Hx Hl]; subst.
  destruct (f x); simpl; [ | apply IH; exact Hl ].
  constructor; [ | apply IH; exact Hl ].
  intros Hin. apply Hx. apply in_map_iff in Hin. destruct Hin as [y [Hy Hin]].
  apply filter_In in Hin. apply in_map_iff. exists y. tauto.
Qed.

(** With distinct keys, a run returns the entries of its successful
    attempts, in the order of the definitions. *)
Lemma generate_entries :
  distinct_unique_ids span_panel ->
  outcome (generate_solar_sensors coordinator span_panel
             leg1_circuit leg2_circuit device_name)
  = Ok (if sensors_attempted span_panel leg1_number leg2_number
        then attempt_entries coordinator span_panel template_vars
               leg1_number leg2_number SOLAR_SENSOR_DEFINITIONS
        else [],
        [], global_settings_of coordinator span_panel).
Proof.
  intros Hd. rewrite (generate_outcome _ _ _ _ _ _ _ legs_parse).
  fold template_vars.
  rewrite (stored_entries coordinator span_panel template_vars
             leg1_number leg2_number SOLAR_SENSOR_DEFINITIONS Hd []);
    reflexivity.
Qed.

(** C6.  The three sensor definitions are processed independently: in the
    returned mapping the entry under the key of a definition is exactly what
    the processing of that definition alone gave, so a kind whose template
    processing fails is the only one absent on that account and the kinds
    that succeed are present. *)
Theorem sensor_definitions_fail_alone :
  distinct_unique_ids span_panel ->
  exists sensor_configs,
    outcome (generate_solar_sensors coordinator span_panel
               leg1_circuit leg2_circuit device_name)
    = Ok (sensor_configs, [], global_settings_of coordinator span_panel)
    /\ forall sensor_def, In sensor_def SOLAR_SENSOR_DEFINITIONS ->
         dict_get (solar_unique_id span_panel sensor_def) sensor_configs
         = if sensors_attempted span_panel leg1_number leg2_number
           then sensor_attempt coordinator span_panel template_vars
                  leg1_number leg2_number sensor_def
           else None.
Proof.
  intros Hd. eexists. split; [ apply (generate_entries Hd) | ].
  intros sensor_def Hin.
  destruct (sensors_attempted span_panel leg1_number leg2_number);
    [ | reflexivity ].
  apply entries_lookup; assumption.
Qed.

(** C8.  A run adds exactly one entry per sensor definition that it
    processes with success, under the unique id built from the device
    serial number and the token "solar_<sensor_type>"; over the three fixed
    definitions that is at most three entries, with distinct keys taken from
    those three. *)
Theorem one_entry_per_processed_definition :
  distinct_unique_ids span_panel ->
  exists sensor_configs,
    outcome (generate_solar_sensors coordinator span_panel
               leg1_circuit leg2_circuit device_name)
    = Ok (sensor_configs, [], global_settings_of coordinator span_panel)
    /\ map fst sensor_configs
       = map (fun sensor_def =>
                construct_synthetic_unique_id (serial_number span_panel)
                  ("solar_" ++ sensor_type sensor_def))
           (processed coordinator span_panel leg1_circuit leg2_circuit
              leg1_number leg2_number)
    /\ NoDup (map fst sensor_configs)
    /\ (List.length sensor_configs <= 3)%nat
    /\ forall key, In key (map fst sensor_configs) ->
         key = construct_synthetic_unique_id (serial_number span_panel) "solar_power"
         \/ key = construct_synthetic_unique_id (serial_number span_panel)
                    "solar_energy_produced"
         \/ key = construct_synthetic_unique_id (serial_number span_panel)
                    "solar_energy_consumed".
Proof.
  intros Hd. eexists. split; [ apply (generate_entries Hd) | ].
  unfold processed.
  destruct (sensors_attempted span_panel leg1_number leg2_number).
  2: { simpl. repeat split; [ constructor | lia | intros key [] ]. }
  fold template_vars.
  pose proof (entries_keys coordinator span_panel template_vars
                leg1_number leg2_number SOLAR_SENSOR_DEFINITIONS) as Hk.
  split; [ exact Hk | ]. split; [ | split ].
  - rewrite Hk. apply NoDup_map_filter. exact Hd.
  - rewrite <- (length_map fst), Hk, length_map.
    etransitivity; [ apply filter_length_le | ]. simpl. lia.
  - intros key Hin.
    apply (entries_keys_incl coordinator span_panel template_vars
             leg1_number leg2_number) in Hin.
    simpl in Hin. unfold solar_unique_id in Hin. simpl in Hin.
    destruct Hin as [H | [H | [H | []]]]; subst key; tauto.
Qed.

End Runs.

(** ** What is logged *)

Section Traces.

Context {A B : Type}.

Lemma trace_try_body (body : M A) (handler : Exn -> M A) (r : LogRecord) :
  In r (trace body) -> In r (trace (try_except body handler)).
Proof.
  destruct body as [l [a | e]]; simpl; intros H; [ exact H | ].
  destruct (handler e); simpl. apply in_or_app. left. exact H.
Qed.

Lemma trace_try_handler (body : M A) (handler : Exn -> M A) (e : Exn)
    (r : LogRecord) :
  outcome body = Raise e -> In r (trace (handler e)) ->
  In r (trace (try_except body handler)).
Proof.
  destruct body as [l [a | e']]; simpl; intros H; inversion H; subst.
  destruct (handler e); simpl. intros Hr. apply in_or_app. right. exact Hr.
Qed.

Lemma trace_log_head (lv : Level) (msg : string) (k : M B) :
  In (mkLog lv msg) (trace (log lv msg ;;; k)).
Proof. rewrite trace_log_then. left. reflexivity. Qed.

Lemma trace_log_tail (lv : Level) (msg : string) (k : M B) (r : LogRecord) :
  In r (trace k) -> In r (trace (log lv msg ;;; k)).
Proof. rewrite trace_log_then. intros H. right. exact H. Qed.

End Traces.

Section Failures.

Context {collab : Collaborators}.

Variable coordinator : SpanPanelCoordinator.
Variable span_panel : SpanPanel.
Variables leg1_circuit leg2_circuit device_name : string.

Lemma global_settings_failure (e : Exn) :
  combine_yaml_templates [] (header_placeholders coordinator span_panel)
  = Raise e ->
  load_global_settings coordinator span_panel
  = ([mkLog WARNING "Could not load global settings for solar sensors: %s"],
     Ok (PDict [])).
Proof.
  intros H. unfold load_global_settings, header_placeholders in *.
  cbv zeta. rewrite H. reflexivity.
Qed.

Lemma leg_block_failure (leg : string) (leg_number : Z) :
  0 < leg_number ->
  forallb Py.truthy_opt (leg_ids span_panel leg_number) = false ->
  In (mkLog ERROR ("Failed to generate some leg" ++ leg ++ " entity IDs for tab %s"))
     (trace (_leg_block span_panel leg leg_number)).
Proof.
  intros Hpos Hf. apply Z.ltb_lt in Hpos.
  unfold _leg_block, leg_ids in *. rewrite Hpos in *.
  apply trace_log_tail.
  eapply trace_bind_tail; [ apply resolver_outcome | ].
  eapply trace_bind_tail; [ apply resolver_outcome | ].
  eapply trace_bind_tail; [ apply resolver_outcome | ].
  apply trace_log_tail. apply trace_bind_head.
  rewrite Hf. apply trace_log_head.
Qed.

Lemma process_render_failure (sensor_def : SensorDef)
    (template_vars : Dict Scalar) (entity_id : string) (e : Exn) :
  (entity_id =? "")%string = false ->
  existsb (_var_unusable template_vars) (_required_vars sensor_def) = false ->
  render_for sensor_def template_vars entity_id = Raise e ->
  In (mkLog ERROR "Template processing failed for %s: %s")
     (trace (_process_sensor_template sensor_def template_vars (Some entity_id))).
Proof.
  intros He Hv Hr. unfold _process_sensor_template, render_for in *.
  rewrite He, Hv. apply trace_log_tail. apply trace_bind_head.
  cbv zeta. rewrite Hr. simpl. left. reflexivity.
Qed.

Lemma step_carries_trace (template_vars : Dict Scalar)
    (leg1_number leg2_number : Z) (sensor_configs : Dict (Dict PyVal))
    (sensor_def : SensorDef) (r : LogRecord) :
  In r (trace (_process_sensor_template sensor_def template_vars
                 (_generate_sensor_entity_id coordinator span_panel
                    (sensor_type sensor_def) leg1_number leg2_number))) ->
  In r (trace (_solar_sensor_step coordinator span_panel template_vars
                 leg1_number leg2_number sensor_configs sensor_def)).
Proof.
  intros H. unfold _solar_sensor_step. apply trace_try_body.
  cbv zeta. apply trace_log_tail. apply trace_bind_head. exact H.
Qed.

Lemma step_failure (template_vars : Dict Scalar)
    (leg1_number leg2_number : Z) (sensor_def : SensorDef) :
  sensor_attempt coordinator span_panel template_vars
    leg1_number leg2_number sensor_def = None ->
  exists r,
    level r = ERROR
    /\ forall sensor_configs,
         In r (trace (_solar_sensor_step coordinator span_panel template_vars
                        leg1_number leg2_number sensor_configs sensor_def)).
Proof.
  unfold sensor_attempt, _solar_sensor_step.
  destruct (_process_sensor_template _ _ _) as [l [[[ | entry config] | ] | e]];
    intros H; try discriminate H.
  - exists (mkLog ERROR "Template processing returned None for %s").
    split; [ reflexivity | ]. intros sensor_configs.
    simpl. right. apply in_or_app. right. left. reflexivity.
  - exists (mkLog ERROR "Template processing returned None for %s").
    split; [ reflexivity | ]. intros sensor_configs.
    simpl. right. apply in_or_app. right. left. reflexivity.
  - exists (mkLog ERROR "Error generating solar sensor from template %s: %s").
    split; [ reflexivity | ]. intros sensor_configs.
    simpl. right. apply in_or_app. right. left. reflexivity.
Qed.

Lemma for_each_carries_trace (template_vars : Dict Scalar)
    (leg1_number leg2_number : Z) (defs : list SensorDef)
    (sensor_def : SensorDef) (r : LogRecord) :
  In sensor_def defs ->
  (forall sensor_configs,
     In r (trace (_solar_sensor_step coordinator span_panel template_vars
                    leg1_number leg2_number sensor_configs sensor_def))) ->
  forall sensor_configs,
    In r (trace (_for_each_sensor_def coordinator span_panel template_vars
                   leg1_number leg2_number defs sensor_configs)).
Proof.
  intros Hin Hstep.
  induction defs as [ | d defs IH]; intros sensor_configs; [ inversion Hin | ].
  cbn [_for_each_sensor_def]. destruct Hin as [Heq | Hin].
  - subst d. apply trace_bind_head. apply Hstep.
  - eapply trace_bind_tail; [ apply step_outcome | ]. apply IH. exact Hin.
Qed.

Lemma dict_get_set_same {V : Type} (k : string) (v : V) (d : Dict V) :
  dict_get k (dict_set k v d) = Some v.
Proof.
  induction d as [ | [k' v'] d IH]; simpl.
  - rewrite String.eqb_refl. reflexivity.
  - destruct (k' =? k)%string eqn:Hk; simpl.
    + rewrite String.eqb_refl. reflexivity.
    + rewrite Hk. exact IH.
Qed.

Lemma dict_get_set_other {V : Type} (k k' : string) (v : V) (d : Dict V) :
  k <> k' -> dict_get k (dict_set k' v d) = dict_get k d.
Proof.
  intros Hne. induction d as [ | [k0 v0] d IH]; simpl.
  - destruct (k' =? k)%string eqn:Hk; [ | reflexivity ].
    apply String.eqb_eq in Hk. congruence.
  - destruct (k0 =? k')%string eqn:Hk0; simpl.
    + apply String.eqb_eq in Hk0. subst k0.
      destruct (k' =? k)%string eqn:Hk; [ | reflexivity ].
      apply String.eqb_eq in Hk. congruence.
    + destruct (k0 =? k)%string; [ reflexivity | exact IH ].
Qed.

Lemma store_keeps_key (template_vars : Dict Scalar)
    (leg1_number leg2_number : Z) (defs : list SensorDef) (key : string) :
  forall sensor_configs,
    dict_get key sensor_configs <> None ->
    dict_get key
      (fold_left
         (store_attempt coordinator span_panel template_vars
            leg1_number leg2_number)
         defs sensor_configs)
    <> None.
Proof.
  induction defs as [ | d defs IH]; intros sensor_configs H; [ exact H | ].
  cbn [fold_left]. apply IH. unfold store_attempt.
  destruct (sensor_attempt _ _ _ _ _ d) as [config | ]; [ | exact H ].
  destruct (String.eqb_spec key (solar_unique_id span_panel d)) as [Heq | Hne].
  - subst key. rewrite dict_get_set_same. discriminate.
  - rewrite dict_get_set_other by exact Hne. exact H.
Qed.

(** A definition whose key is missing in the end is one that failed. *)
Lemma missing_key_failed (template_vars : Dict Scalar)
    (leg1_number leg2_number : Z) (defs : list SensorDef)
    (sensor_def : SensorDef) :
  In sensor_def defs ->
  forall sensor_configs,
    dict_get (solar_unique_id span_panel sensor_def)
      (fold_left
         (store_attempt coordinator span_panel template_vars
            leg1_number leg2_number)
         defs sensor_configs)
    = None ->
    sensor_attempt coordinator span_panel template_vars
      leg1_number leg2_number sensor_def = None.
Proof.
  induction defs as [ | d defs IH]; intros Hin sensor_configs H;
    [ inversion Hin | ].
  cbn [fold_left] in H. destruct Hin as [Heq | Hin].
  - subst d.
    destruct (sensor_attempt _ _ _ _ _ sensor_def) as [config | ] eqn:Ha;
      [ | reflexivity ].
    exfalso. revert H. apply store_keeps_key. unfold store_attempt.
    rewrite Ha, dict_get_set_same. discriminate.
  - exact (IH Hin _ H).
Qed.

Variables leg1_number leg2_number : Z.
Hypothesis legs_parse :
  _extract_leg_numbers leg1_circuit leg2_circuit
  = Ok (leg1_number, leg2_number).

Let template_vars :=
  template_vars_of coordinator span_panel leg1_circuit leg2_circuit
    leg1_number leg2_number.
Let run :=
  generate_solar_sensors coordinator span_panel
    leg1_circuit leg2_circuit device_name.

Lemma run_carries_header_trace (r : LogRecord) :
  In r (trace (load_global_settings coordinator span_panel)) ->
  In r (trace run).
Proof. intros H. unfold run, generate_solar_sensors. apply trace_bind_head, H. Qed.

Lemma run_carries_leg_trace (r : LogRecord) :
  (leg1_number =? 0) && (leg2_number =? 0) = false ->
  In r (trace (_get_leg_entities span_panel leg1_number leg2_number)) ->
  In r (trace run).
Proof.
  intros Hz H. unfold run, generate_solar_sensors.
  eapply trace_bind_tail; [ apply global_settings_outcome | ].
  rewrite legs_parse. eapply trace_bind_tail; [ reflexivity | ].
  cbv beta iota. rewrite Hz. apply trace_bind_head, H.
Qed.

Lemma run_carries_loop_trace (r : LogRecord) :
  sensors_attempted span_panel leg1_number leg2_number = true ->
  In r (trace (_for_each_sensor_def coordinator span_panel template_vars
                 leg1_number leg2_number SOLAR_SENSOR_DEFINITIONS [])) ->
  In r (trace run).
Proof.
  unfold sensors_attempted. intros Ha H.
  apply andb_prop in Ha. destruct Ha as [Ha Hvalid].
  apply andb_prop in Ha. destruct Ha as [Hz Hreq].
  apply negb_true_iff in Hz.
  unfold run, generate_solar_sensors.
  eapply trace_bind_tail; [ apply global_settings_outcome | ].
  rewrite legs_parse. eapply trace_bind_tail; [ reflexivity | ].
  cbv beta iota. rewrite Hz. eapply trace_bind_tail; [ apply leg_entities_outcome | ].
  cbv beta iota.
  destruct (required_entities_of span_panel leg1_number leg2_number)
    as [ | entity entities]; [ discriminate Hreq | ].
  destruct (filter _ (entity :: entities)) as [ | bad rest] eqn:Hbad.
  - unfold template_vars, template_vars_of, run_template_vars in H.
    destruct (_get_template_attributes leg1_number leg2_number) as [ta va].
    do 3 apply trace_log_tail. apply trace_bind_head. exact H.
  - exfalso.
    assert (Hin : In bad (filter (fun entity0 => (entity0 =? "")%string)
                            (entity :: entities))).
    { rewrite Hbad. left. reflexivity. }
    apply filter_In in Hin. destruct Hin as [Hin Hb].
    rewrite forallb_forall in Hvalid. specialize (Hvalid _ Hin).
    rewrite Hb in Hvalid. discriminate Hvalid.
Qed.

Lemma run_abort_logged :
  (leg1_number =? 0) && (leg2_number =? 0) = false ->
  sensors_attempted span_panel leg1_number leg2_number = false ->
  logged_error run.
Proof.
  unfold sensors_attempted. intros Hz Ha. rewrite Hz in Ha. cbn [negb andb] in Ha.
  unfold logged_error, run, generate_solar_sensors.
  destruct (required_entities_of span_panel leg1_number leg2_number)
    as [ | entity entities] eqn:Hreq.
  - exists (mkLog ERROR "No valid entities found for solar circuits %s and %s").
    split; [ | reflexivity ].
    eapply trace_bind_tail; [ apply global_settings_outcome | ].
    rewrite legs_parse. eapply trace_bind_tail; [ reflexivity | ].
    cbv beta iota. rewrite Hz. eapply trace_bind_tail; [ apply leg_entities_outcome | ].
    cbv beta iota. rewrite Hreq. apply trace_log_head.
  - exists (mkLog ERROR
              "Some entity IDs are invalid for solar circuits %s and %s: %s").
    split; [ | reflexivity ].
    eapply trace_bind_tail; [ apply global_settings_outcome | ].
    rewrite legs_parse. eapply trace_bind_tail; [ reflexivity | ].
    cbv beta iota. rewrite Hz. eapply trace_bind_tail; [ apply leg_entities_outcome | ].
    cbv beta iota. rewrite Hreq.
    destruct (filter _ (entity :: entities)) as [ | bad rest] eqn:Hbad.
    + exfalso. cbn [andb] in Ha.
      assert (Hall : forallb (fun e => negb (e =? "")%string) (entity :: entities) = true).
      { apply forallb_forall. intros e He.
        destruct (e =? "")%string eqn:Hee; [ | reflexivity ].
        assert (Hin : In e (filter (fun entity0 => (entity0 =? "")%string)
                              (entity :: entities))).
        { apply filter_In. split; assumption. }
        rewrite Hbad in Hin. inversion Hin. }
      rewrite Hall in Ha. discriminate Ha.
    + apply trace_log_head.
Qed.

Lemma run_carries_leg1_failure :
  0 < leg1_number ->
  forallb Py.truthy_opt (leg_ids span_panel leg1_number) = false ->
  In (mkLog ERROR "Failed to generate some leg1 entity IDs for tab %s")
     (trace run).
Proof.
  intros Hpos Hf. apply run_carries_leg_trace.
  - replace (leg1_number =? 0) with false by (symmetry; apply Z.eqb_neq; lia).
    reflexivity.
  - unfold _get_leg_entities. apply trace_bind_head.
    exact (leg_block_failure "1" leg1_number Hpos Hf).
Qed.

Lemma run_carries_leg2_failure :
  0 < leg2_number ->
  forallb Py.truthy_opt (leg_ids span_panel leg2_number) = false ->
  In (mkLog ERROR "Failed to generate some leg2 entity IDs for tab %s")
     (trace run).
Proof.
  intros Hpos Hf. apply run_carries_leg_trace.
  - replace (leg2_number =? 0) with false by (symmetry; apply Z.eqb_neq; lia).
    apply andb_false_r.
  - unfold _get_leg_entities.
    eapply trace_bind_tail; [ apply leg_block_outcome | ].
    cbv beta iota. apply trace_bind_head.
    exact (leg_block_failure "2" leg2_number Hpos Hf).
Qed.


End Failures.


(** ** Attributes and naming by tab count *)

Section AttributesAndNaming.

Context {collab : Collaborators}.

Lemma sorted_pair (a b : Z) : Py.sorted [a; b] = [Z.min a b; Z.max a b].
Proof.
  simpl. destruct (a <=? b) eqn:H.
  - apply Z.leb_le in H. rewrite Z.min_l, Z.max_r by lia. reflexivity.
  - apply Z.leb_gt in H. rewrite Z.min_r, Z.max_l by lia. reflexivity.
Qed.

Lemma joined_pair_not_empty (x y : string) :
  (Py.join "_" [x; y] =? "")%string = false.
Proof. destruct x; reflexivity. Qed.

(** C5.  Here [construct_tabs_attribute] is the helper as the
    specification describes it.  With both leg tab numbers positive, the
    attribute builder returns as tabs attribute the two tab numbers sorted
    ascending, read off a synthetic two-tab circuit, and every sensor kind
    is named by the dual-tab (240V) helper.  Otherwise the attributes are
    the empty tabs string and voltage 0, and every sensor kind is named by
    the single-tab (120V) helper, with the positive tab when there is
    one. *)
Theorem attributes_and_naming_by_tab_count
    (coordinator : SpanPanelCoordinator) (span_panel : SpanPanel)
    (leg1_number leg2_number : Z) :
  (forall circuit, construct_tabs_attribute circuit = spec_tabs_attribute circuit) ->
  (0 < leg1_number -> 0 < leg2_number ->
     fst (_get_template_attributes leg1_number leg2_number)
     = Py.join "_" (map Py.str_int (Py.sorted [leg1_number; leg2_number]))
     /\ Py.sorted [leg1_number; leg2_number]
        = [Z.min leg1_number leg2_number; Z.max leg1_number leg2_number]
     /\ forall kind,
          _generate_sensor_entity_id coordinator span_panel kind
            leg1_number leg2_number
          = construct_240v_synthetic_entity_id coordinator span_panel
              "sensor" kind "Solar" leg1_number leg2_number None)
  /\ (~ (0 < leg1_number /\ 0 < leg2_number) ->
      _get_template_attributes leg1_number leg2_number = ("", 0)
      /\ (forall kind,
            _generate_sensor_entity_id coordinator span_panel kind
              leg1_number leg2_number
            = construct_120v_synthetic_entity_id coordinator span_panel
                "sensor" kind "Solar"
                (if 0 <? leg1_number then leg1_number else leg2_number) None)
      /\ (forall tab,
            0 < tab -> tab = leg1_number \/ tab = leg2_number ->
            (if 0 <? leg1_number then leg1_number else leg2_number) = tab)).
Proof.
  intros Htabs. split.
  - intros H1 H2. apply Z.ltb_lt in H1, H2.
    unfold _get_template_attributes, _generate_sensor_entity_id.
    rewrite H1, H2. cbv zeta. rewrite Htabs. unfold spec_tabs_attribute.
    cbn [tabs andb]. split; [ | split ].
    + rewrite sorted_pair. cbn [map fst Py.truthy_opt or_empty].
      rewrite joined_pair_not_empty. reflexivity.
    + apply sorted_pair.
    + intros kind. reflexivity.
  - intros Hnot.
    assert (Hb : (0 <? leg1_number) && (0 <? leg2_number) = false).
    { apply not_true_is_false. intros Hb. apply andb_prop in Hb.
      destruct Hb as [H1 H2]. apply Z.ltb_lt in H1, H2. tauto. }
    unfold _get_template_attributes, _generate_sensor_entity_id. rewrite Hb.
    split; [ reflexivity | ]. split; [ intros kind; reflexivity | ].
    intros tab Hpos [Ht | Ht]; subst tab.
    + apply Z.ltb_lt in Hpos. rewrite Hpos. reflexivity.
    + destruct (0 <? leg1_number) eqn:H1; [ | reflexivity ].
      apply Z.ltb_lt in H1. tauto.
Qed.

End AttributesAndNaming.

(** Tabs 16 and 15 give the tabs attribute "15_16" and dual-tab names;
    tab 15 alone gives the defaults and single-tab names. *)
Lemma attributes_and_naming_16_15 :
  (fst (@_get_template_attributes Sample.helpers 16 15) = "15_16"
   /\ Py.sorted [16; 15] = [15; 16]
   /\ forall kind,
        @_generate_sensor_entity_id Sample.helpers Sample.coordinator
          Sample.panel kind 16 15
        = @construct_240v_synthetic_entity_id Sample.helpers
            Sample.coordinator Sample.panel "sensor" kind "Solar" 16 15 None)
  /\ (@_get_template_attributes Sample.helpers 15 0 = ("", 0)
      /\ forall kind,
           @_generate_sensor_entity_id Sample.helpers Sample.coordinator
             Sample.panel kind 15 0
           = @construct_120v_synthetic_entity_id Sample.helpers
               Sample.coordinator Sample.panel "sensor" kind "Solar" 15 None).
Proof.
  split.
  - apply (@attributes_and_naming_by_tab_count Sample.helpers
             Sample.coordinator Sample.panel 16 15);
      [ reflexivity | lia | lia ].
  - destruct (@attributes_and_naming_by_tab_count Sample.helpers
                Sample.coordinator Sample.panel 15 0 (fun _ => eq_refl))
      as [_ H].
    destruct H as [Ha [Hn _]]; [ lia | ]. split; [ exact Ha | exact Hn ].
Defined.

(** ** Determinism *)

Lemma bind_ext {A B : Type} (m1 m2 : M A) (f1 f2 : A -> M B) :
  m1 = m2 -> (forall a, f1 a = f2 a) -> bind m1 f1 = bind m2 f2.
Proof.
  intros Hm Hf. subst m2. destruct m1 as [l [a | e]]; simpl; [ | reflexivity ].
  rewrite Hf. reflexivity.
Qed.

Section Determinism.

Variables c1 c2 : Collaborators.
Hypothesis agree : collaborators_agree c1 c2.

Let agree_slugify := proj1 agree.
Let agree_device_info := proj1 (proj2 agree).
Let agree_unmapped := proj1 (proj2 (proj2 agree)).
Let agree_120v := proj1 (proj2 (proj2 (proj2 agree))).
Let agree_240v := proj1 (proj2 (proj2 (proj2 (proj2 agree)))).
Let agree_unique_id := proj1 (proj2 (proj2 (proj2 (proj2 (proj2 agree))))).
Let agree_tabs := proj1 (proj2 (proj2 (proj2 (proj2 (proj2 (proj2 agree)))))).
Let agree_voltage :=
  proj1 (proj2 (proj2 (proj2 (proj2 (proj2 (proj2 (proj2 agree))))))).
Let agree_templates :=
  proj2 (proj2 (proj2 (proj2 (proj2 (proj2 (proj2 (proj2 agree))))))).

Lemma device_name_agrees (span_panel : SpanPanel) :
  @_device_name c1 span_panel = @_device_name c2 span_panel.
Proof.
  unfold _device_name. rewrite agree_device_info.
  destruct (dict_get_default _ _ _) as [raw | ]; [ | reflexivity ].
  rewrite agree_slugify. reflexivity.
Qed.

Lemma scan_agrees (span_panel : SpanPanel) (items : Dict SpanPanelCircuit)
    (tab_number : Z) (suffix : string) :
  @_scan_circuits c1 span_panel items tab_number suffix
  = @_scan_circuits c2 span_panel items tab_number suffix.
Proof.
  induction items as [ | [key circuit] items IH]; cbn [_scan_circuits].
  - rewrite agree_unmapped. reflexivity.
  - rewrite IH, device_name_agrees. reflexivity.
Qed.

Lemma leg_block_agrees (span_panel : SpanPanel) (leg : string)
    (leg_number : Z) :
  @_leg_block c1 span_panel leg leg_number
  = @_leg_block c2 span_panel leg leg_number.
Proof.
  unfold _leg_block, _get_circuit_entity_id.
  destruct (0 <? leg_number); [ | reflexivity ].
  apply bind_ext; [ reflexivity | intros _ ].
  apply bind_ext; [ apply scan_agrees | intros power_entity ].
  apply bind_ext; [ apply scan_agrees | intros produced_entity ].
  apply bind_ext; [ apply scan_agrees | intros consumed_entity ].
  reflexivity.
Qed.

Lemma leg_entities_agree (span_panel : SpanPanel)
    (leg1_number leg2_number : Z) :
  @_get_leg_entities c1 span_panel leg1_number leg2_number
  = @_get_leg_entities c2 span_panel leg1_number leg2_number.
Proof.
  unfold _get_leg_entities.
  apply bind_ext; [ apply leg_block_agrees | intros [[[a b] c] found1] ].
  apply bind_ext; [ apply leg_block_agrees | intros [[[d e] f] found2] ].
  reflexivity.
Qed.

Lemma template_attributes_agree (leg1_number leg2_number : Z) :
  @_get_template_attributes c1 leg1_number leg2_number
  = @_get_template_attributes c2 leg1_number leg2_number.
Proof.
  unfold _get_template_attributes. cbv zeta.
  rewrite agree_tabs, agree_voltage. reflexivity.
Qed.

Lemma sensor_entity_id_agrees (coordinator : SpanPanelCoordinator)
    (span_panel : SpanPanel) (kind : string) (leg1_number leg2_number : Z) :
  @_generate_sensor_entity_id c1 coordinator span_panel kind
    leg1_number leg2_number
  = @_generate_sensor_entity_id c2 coordinator span_panel kind
      leg1_number leg2_number.
Proof.
  unfold _generate_sensor_entity_id. cbv zeta.
  rewrite agree_240v, agree_120v. reflexivity.
Qed.

Lemma process_agrees (sensor_def : SensorDef) (template_vars : Dict Scalar)
    (entity_id : option string) :
  @_process_sensor_template c1 sensor_def template_vars entity_id
  = @_process_sensor_template c2 sensor_def template_vars entity_id.
Proof.
  unfold _process_sensor_template.
  destruct entity_id as [e | ]; [ | reflexivity ].
  destruct (e =? "")%string; [ reflexivity | ].
  destruct (existsb _ _); [ reflexivity | ].
  cbv zeta. rewrite agree_templates. reflexivity.
Qed.

Lemma global_settings_agree (coordinator : SpanPanelCoordinator)
    (span_panel : SpanPanel) :
  @load_global_settings c1 coordinator span_panel
  = @load_global_settings c2 coordinator span_panel.
Proof.
  unfold load_global_settings. cbv zeta. rewrite agree_templates. reflexivity.
Qed.

Lemma step_agrees (coordinator : SpanPanelCoordinator)
    (span_panel : SpanPanel) (template_vars : Dict Scalar)
    (leg1_number leg2_number : Z)
    (sensor_configs : Dict (Dict PyVal)) (sensor_def : SensorDef) :
  @_solar_sensor_step c1 coordinator span_panel template_vars
    leg1_number leg2_number sensor_configs sensor_def
  = @_solar_sensor_step c2 coordinator span_panel template_vars
      leg1_number leg2_number sensor_configs sensor_def.
Proof.
  unfold _solar_sensor_step. cbv zeta.
  rewrite sensor_entity_id_agrees, process_agrees, agree_unique_id.
  reflexivity.
Qed.

Lemma for_each_agrees (coordinator : SpanPanelCoordinator)
    (span_panel : SpanPanel) (template_vars : Dict Scalar)
    (leg1_number leg2_number : Z) (defs : list SensorDef) :
  forall sensor_configs,
    @_for_each_sensor_def c1 coordinator span_panel template_vars
      leg1_number leg2_number defs sensor_configs
    = @_for_each_sensor_def c2 coordinator span_panel template_vars
        leg1_number leg2_number defs sensor_configs.
Proof.
  induction defs as [ | d defs IH]; intros sensor_configs; [ reflexivity | ].
  cbn [_for_each_sensor_def].
  apply bind_ext; [ apply step_agrees | intros sensor_configs'; apply IH ].
Qed.

(** Two invocations on the same coordinator, panel snapshot, leg
    identifiers and device name, with collaborators that answer every call
    alike, give the same result: the same sensor-config mapping, key for key
    and field for field, and the same log besides. *)
Lemma generate_solar_sensors_deterministic
    (coordinator : SpanPanelCoordinator) (span_panel : SpanPanel)
    (leg1_circuit leg2_circuit device_name : string) :
  @generate_solar_sensors c1 coordinator span_panel
    leg1_circuit leg2_circuit device_name
  = @generate_solar_sensors c2 coordinator span_panel
      leg1_circuit leg2_circuit device_name.
Proof.
  unfold generate_solar_sensors. cbv zeta.
  apply bind_ext; [ apply global_settings_agree | intros global_settings ].
  apply bind_ext; [ reflexivity | intros [leg1_number leg2_number] ].
  destruct ((leg1_number =? 0) && (leg2_number =? 0)); [ reflexivity | ].
  apply bind_ext;
    [ apply leg_entities_agree | intros [leg_entities required_entities] ].
  destruct required_entities as [ | entity entities]; [ reflexivity | ].
  destruct (filter _ (entity :: entities)); [ | reflexivity ].
  rewrite template_attributes_agree.
  destruct (@_get_template_attributes c2 leg1_number leg2_number) as [ta va].
  apply bind_ext; [ reflexivity | intros _ ].
  apply bind_ext; [ reflexivity | intros _ ].
  apply bind_ext; [ reflexivity | intros _ ].
  apply bind_ext; [ apply for_each_agrees | intros sensor_configs ].
  reflexivity.
Qed.

End Determinism.

(** ** The properties on sample runs *)

Lemma sample_unique_ids_distinct (span_panel : SpanPanel)
    (unmapped : SpanPanel -> Z -> string -> option string)
    (service : list string -> Dict string -> Res PyVal) :
  @distinct_unique_ids (Sample.collaborators_with unmapped service) span_panel.
Proof.
  unfold distinct_unique_ids, solar_unique_id. simpl. unfold Sample.unique_id.
  assert (Hinj : forall a b : string,
            ("span_" ++ serial_number span_panel ++ "_" ++ a
             = "span_" ++ serial_number span_panel ++ "_" ++ b) -> a = b).
  { intros a b H. simpl in H. injection H as H.
    induction (serial_number span_panel) as [ | c s IH]; simpl in H.
    - injection H as H. exact H.
    - injection H as H. exact (IH H). }
  repeat constructor; simpl.
  - intros [H | [H | []]]; apply Hinj in H; discriminate H.
  - intros [H | []]; apply Hinj in H; discriminate H.
  - intros [].
Qed.

(** Legs that are not unmapped tabs: nothing but the global settings. *)
Lemma unprefixed_legs_on_sample :
  _extract_leg_numbers "circuit_15" "" = Ok (0, 0)
  /\ outcome (@generate_solar_sensors Sample.helpers Sample.coordinator
                Sample.panel "circuit_15" "" "Span Panel")
     = Ok ([], [], PDict [("device_identifier", PAtom (SStr "ABC123"))]).
Proof.
  apply (@unprefixed_legs_yield_nothing Sample.helpers Sample.coordinator
           Sample.panel "circuit_15" "" "Span Panel");
    reflexivity.
Defined.

(** One leg on tab 15: no sensor. *)
Lemma single_leg_on_sample :
  outcome (@generate_solar_sensors Sample.helpers Sample.coordinator
             Sample.panel "unmapped_tab_15" "" "Span Panel")
  = Ok ([], [], PDict [("device_identifier", PAtom (SStr "ABC123"))]).
Proof.
  apply (@single_leg_yields_no_sensor Sample.helpers Sample.coordinator
           Sample.panel "unmapped_tab_15" "" "Span Panel" 15 0);
    [ reflexivity | left; split; [ reflexivity | reflexivity ] ].
Defined.

(** With no power entity to be had, the power sensor alone is missing. *)
Lemma power_fails_alone_on_sample :
  exists sensor_configs settings,
    outcome (@generate_solar_sensors Sample.helpers_without_power
               Sample.coordinator Sample.panel
               "unmapped_tab_15" "unmapped_tab_16" "Span Panel")
    = Ok (sensor_configs, [], settings)
    /\ dict_get "span_ABC123_solar_power" sensor_configs = None
    /\ dict_get "span_ABC123_solar_energy_produced" sensor_configs <> None
    /\ dict_get "span_ABC123_solar_energy_consumed" sensor_configs <> None.
Proof.
  destruct (@sensor_definitions_fail_alone Sample.helpers_without_power
              Sample.coordinator Sample.panel
              "unmapped_tab_15" "unmapped_tab_16" "Span Panel" 15 16 eq_refl
              (sample_unique_ids_distinct _ _ _))
    as [sensor_configs [Hrun Hget]].
  exists sensor_configs. eexists. split; [ exact Hrun | ].
  split; [ | split ].
  - change "span_ABC123_solar_power"
      with (@solar_unique_id Sample.helpers_without_power Sample.panel
              Sample.power_def).
    rewrite Hget by (left; reflexivity). reflexivity.
  - change "span_ABC123_solar_energy_produced"
      with (@solar_unique_id Sample.helpers_without_power Sample.panel
              Sample.produced_def).
    rewrite Hget by (right; left; reflexivity).
    vm_compute. discriminate.
  - change "span_ABC123_solar_energy_consumed"
      with (@solar_unique_id Sample.helpers_without_power Sample.panel
              Sample.consumed_def).
    rewrite Hget by (right; right; left; reflexivity).
    vm_compute. discriminate.
Defined.


(** Legs on tabs 15 and 16, serial ABC123: three entries under the three
    keys. *)
Lemma three_entries_on_sample :
  exists sensor_configs settings,
    outcome (@generate_solar_sensors Sample.helpers Sample.coordinator
               Sample.panel "unmapped_tab_15" "unmapped_tab_16" "Span Panel")
    = Ok (sensor_configs, [], settings)
    /\ map fst sensor_configs
       = [ "span_ABC123_solar_power";
           "span_ABC123_solar_energy_produced";
           "span_ABC123_solar_energy_consumed" ].
Proof.
  destruct (@one_entry_per_processed_definition Sample.helpers
              Sample.coordinator Sample.panel
              "unmapped_tab_15" "unmapped_tab_16" "Span Panel" 15 16 eq_refl
              (sample_unique_ids_distinct _ _ _))
    as [sensor_configs [Hrun [Hkeys _]]].
  exists sensor_configs. eexists. split; [ exact Hrun | ].
  rewrite Hkeys. reflexivity.
Defined.

Lemma sample_helpers_agree :
  collaborators_agree Sample.helpers Sample.helpers_again.
Proof.
  unfold collaborators_agree. repeat split.
  intros template_files vars. simpl.
  destruct template_files; reflexivity.
Defined.

(** The same answers computed another way: the same run. *)
Lemma deterministic_on_sample :
  @generate_solar_sensors Sample.helpers Sample.coordinator Sample.panel
    "unmapped_tab_15" "unmapped_tab_16" "Span Panel"
  = @generate_solar_sensors Sample.helpers_again Sample.coordinator
      Sample.panel "unmapped_tab_15" "unmapped_tab_16" "Span Panel".
Proof.
  apply (generate_solar_sensors_deterministic Sample.helpers
           Sample.helpers_again sample_helpers_agree).
Defined.

(** * Further properties *)

(** ** Leg identifiers *)

Lemma number_char_facts (c : ascii) :
  number_char c = true ->
  Py.is_space c = false /\ Ascii.eqb "u" c = false.
Proof.
  destruct c as [[] [] [] [] [] [] [] []]; vm_compute; intros H;
    try discriminate H; split; reflexivity.
Qed.

Lemma digits_from_acc (d : Decimal.uint) :
  forall acc : positive,
    Py.digits_from (NilEmpty.string_of_uint d) Py.AfterDigit (Z.pos acc)
    = Some (Z.pos (Pos.of_uint_acc d acc)).
Proof.
  induction d; intros acc; cbn [NilEmpty.string_of_uint Py.digits_from Pos.of_uint_acc];
    try reflexivity;
    match goal with
    | |- context [Py.digit_of ?c] =>
        let v := eval vm_compute in (Py.digit_of c) in
        change (Py.digit_of c) with v
    end; cbv beta iota; rewrite <- IHd; f_equal; lia.
Qed.

Lemma digits_from_zero (d : Decimal.uint) :
  Py.digits_from (NilEmpty.string_of_uint d) Py.AfterDigit 0
  = Some (Z.of_N (Pos.of_uint d)).
Proof.
  induction d; cbn [NilEmpty.string_of_uint Py.digits_from Pos.of_uint];
    try reflexivity;
    match goal with
    | |- context [Py.digit_of ?c] =>
        let v := eval vm_compute in (Py.digit_of c) in
        change (Py.digit_of c) with v
    end; cbv beta iota;
    [ exact IHd | .. ]; apply (digits_from_acc d).
Qed.

Lemma digits_from_start (d : Decimal.uint) :
  d <> Decimal.Nil ->
  Py.digits_from (NilEmpty.string_of_uint d) Py.AtStart 0
  = Py.digits_from (NilEmpty.string_of_uint d) Py.AfterDigit 0.
Proof. destruct d; intros H; [ congruence | reflexivity .. ]. Qed.

Lemma uint_number_chars (d : Decimal.uint) :
  number_chars (NilEmpty.string_of_uint d) = true.
Proof. induction d; simpl; try reflexivity; exact IHd. Qed.

Lemma rev_onto_rev_onto (s a b : string) :
  Py.rev_onto (Py.rev_onto s a) b = Py.rev_onto a (s ++ b).
Proof.
  revert a b. induction s as [ | c s IH]; intros a b; simpl; [ reflexivity | ].
  rewrite IH. reflexivity.
Qed.

Lemma rev_onto_number_chars (s a : string) :
  number_chars s = true -> number_chars a = true ->
  number_chars (Py.rev_onto s a) = true.
Proof.
  revert a. induction s as [ | c s IH]; intros a Hs Ha; simpl; [ exact Ha | ].
  simpl in Hs. apply andb_prop in Hs. destruct Hs as [Hc Hs].
  apply IH; [ exact Hs | ]. simpl. rewrite Hc, Ha. reflexivity.
Qed.

Lemma lstrip_number_chars (s : string) :
  number_chars s = true -> Py.lstrip s = s.
Proof.
  destruct s as [ | c s]; simpl; intros H; [ reflexivity | ].
  apply andb_prop in H. destruct H as [Hc _].
  destruct (number_char_facts c Hc) as [Hsp _]. rewrite Hsp. reflexivity.
Qed.

Lemma strip_number_chars (s : string) :
  number_chars s = true -> Py.strip s = s.
Proof.
  intros H. unfold Py.strip. rewrite (lstrip_number_chars s H).
  rewrite lstrip_number_chars by (apply rev_onto_number_chars; [ exact H | reflexivity ]).
  rewrite rev_onto_rev_onto. simpl. clear H.
  induction s as [ | c s IH]; simpl; [ reflexivity | rewrite IH; reflexivity ].
Qed.

Lemma number_char_ascii (c : ascii) :
  number_char c = true ->
  (N_of_ascii c <? 128)%N = true /\ Py.ascii_form (N_of_ascii c) = c.
Proof.
  destruct c as [[] [] [] [] [] [] [] []]; vm_compute; intros H;
    try discriminate H; split; reflexivity.
Qed.

(** A printed integer is ASCII: [int] parses it as it stands. *)
Lemma to_ascii_number_chars (s : string) :
  number_chars s = true -> Py.to_ascii s = Some s.
Proof.
  unfold Py.to_ascii. induction s as [ | c s IH]; intros H; [ reflexivity | ].
  simpl in H. apply andb_prop in H. destruct H as [Hc Hs].
  destruct (number_char_ascii c Hc) as [Hlt Hform].
  specialize (IH Hs). cbn [Py.code_points]. cbv zeta. rewrite Hlt.
  destruct (Py.code_points s) as [cps | ]; [ | discriminate IH ].
  cbn [option_map] in *. injection IH as IH.
  cbn [map string_of_list_ascii]. rewrite Hform, IH. reflexivity.
Qed.

Lemma int_number_chars (s : string) :
  number_chars s = true -> Py.int s = Py.int_of_ascii s.
Proof. intros H. unfold Py.int. rewrite (to_ascii_number_chars s H). reflexivity. Qed.

Lemma count_digits_uint (d : Decimal.uint) :
  Py.count_digits (NilEmpty.string_of_uint d) = Decimal.nb_digits d.
Proof.
  induction d; cbn [NilEmpty.string_of_uint Py.count_digits Decimal.nb_digits];
    try reflexivity;
    match goal with
    | |- context [Py.digit_of ?c] =>
        let v := eval vm_compute in (Py.digit_of c) in
        change (Py.digit_of c) with v
    end; cbv beta iota; rewrite IHd; reflexivity.
Qed.

Lemma of_uint_acc_lower (d : Decimal.uint) :
  forall acc : positive,
    Z.pos acc * 10 ^ Z.of_nat (Decimal.nb_digits d)
    <= Z.pos (Pos.of_uint_acc d acc).
Proof.
  induction d; intros acc;
    cbn [Decimal.nb_digits Pos.of_uint_acc];
    [ rewrite Z.pow_0_r; lia | .. ];
    rewrite Nat2Z.inj_succ, Z.pow_succ_r by lia;
    (eapply Z.le_trans; [ | apply IHd ]);
    assert (0 < 10 ^ Z.of_nat (Decimal.nb_digits d))
      by (apply Z.pow_pos_nonneg; lia);
    nia.
Qed.

(** The printed form of a positive number has no leading zero. *)
Lemma to_uint_head (p : positive) (l : Decimal.uint) :
  Pos.to_uint p <> Decimal.D0 l.
Proof.
  intros H.
  assert (Hn : Decimal.unorm (Pos.to_uint p) = Pos.to_uint p).
  { rewrite <- (DecimalPos.Unsigned.to_of (Pos.to_uint p)).
    rewrite DecimalPos.Unsigned.of_to. reflexivity. }
  rewrite H in Hn. unfold Decimal.unorm in Hn. cbn [Decimal.nzhead] in Hn.
  pose proof (DecimalFacts.nb_digits_nzhead l) as Hlen.
  destruct (Decimal.nzhead l) eqn:Hz;
    try (injection Hn as Hn; subst l;
         apply (DecimalPos.Unsigned.to_uint_nonzero p); exact H);
    try discriminate Hn.
  rewrite Hn in Hlen. cbn [Decimal.nb_digits] in Hlen. lia.
Qed.

(** A number below ten to the [max_str_digits] prints in at most that many
    digits. *)
Lemma to_uint_digits (p : positive) :
  Z.pos p < 10 ^ Z.of_nat Py.max_str_digits ->
  (Decimal.nb_digits (Pos.to_uint p) <= Py.max_str_digits)%nat.
Proof.
  intros Hp. pose proof (DecimalPos.Unsigned.of_to p) as Hof.
  pose proof (to_uint_head p) as Hhead.
  pose proof (DecimalPos.Unsigned.to_uint_nonnil p) as Hnil.
  assert (Hlow : forall l acc,
            N.pos p = N.pos (Pos.of_uint_acc l acc) ->
            (S (Decimal.nb_digits l) <= Py.max_str_digits)%nat).
  { intros l acc Heq. injection Heq as Heq.
    pose proof (of_uint_acc_lower l acc) as Hl. rewrite <- Heq in Hl.
    assert (Hpow : 10 ^ Z.of_nat (Decimal.nb_digits l)
                   < 10 ^ Z.of_nat Py.max_str_digits).
    { assert (0 < 10 ^ Z.of_nat (Decimal.nb_digits l))
        by (apply Z.pow_pos_nonneg; lia).
      nia. }
    apply Z.pow_lt_mono_r_iff in Hpow; lia. }
  destruct (Pos.to_uint p) as [ | l | l | l | l | l | l | l | l | l | l ];
    [ congruence | exfalso; exact (Hhead l eq_refl) | .. ];
    cbn [Pos.of_uint Decimal.nb_digits] in *;
    symmetry in Hof; exact (Hlow _ _ Hof).
Qed.

Lemma int_of_uint_string (d : Decimal.uint) :
  d <> Decimal.Nil ->
  (Decimal.nb_digits d <= Py.max_str_digits)%nat ->
  Py.int (NilEmpty.string_of_uint d) = Ok (Z.of_N (Pos.of_uint d)).
Proof.
  intros Hd Hlen. rewrite (int_number_chars _ (uint_number_chars d)).
  unfold Py.int_of_ascii.
  rewrite (strip_number_chars _ (uint_number_chars d)).
  assert (H : Py.digits_from (NilEmpty.string_of_uint d) Py.AtStart 0
              = Some (Z.of_N (Pos.of_uint d))).
  { rewrite (digits_from_start d Hd). apply digits_from_zero. }
  assert (Hc : (Py.count_digits (NilEmpty.string_of_uint d)
                <=? Py.max_str_digits)%nat = true).
  { rewrite count_digits_uint. apply Nat.leb_le. exact Hlen. }
  destruct d; [ congruence | .. ]; cbn [NilEmpty.string_of_uint] in *;
    cbv beta iota zeta; rewrite H, Hc; reflexivity.
Qed.

(** [int(str(n)) == n], for the numbers that both can handle. *)
Lemma int_str_int (z : Z) :
  Z.abs z < 10 ^ Z.of_nat Py.max_str_digits ->
  Py.int (Py.str_int z) = Ok z.
Proof.
  intros Hz.
  unfold Py.str_int. destruct z as [ | p | p]; cbn [Z.to_int NilZero.string_of_int].
  - reflexivity.
  - pose proof (Unsigned.to_uint_nonnil p) as Hn.
    assert (Hs : NilZero.string_of_uint (Pos.to_uint p)
                 = NilEmpty.string_of_uint (Pos.to_uint p)).
    { unfold NilZero.string_of_uint. destruct (Pos.to_uint p); [ congruence | reflexivity .. ]. }
    rewrite Hs, (int_of_uint_string _ Hn (to_uint_digits p Hz)), Unsigned.of_to.
    reflexivity.
  - pose proof (Unsigned.to_uint_nonnil p) as Hn.
    assert (Hs : NilZero.string_of_uint (Pos.to_uint p)
                 = NilEmpty.string_of_uint (Pos.to_uint p)).
    { unfold NilZero.string_of_uint. destruct (Pos.to_uint p); [ congruence | reflexivity .. ]. }
    rewrite Hs.
    rewrite int_number_chars by (simpl; apply uint_number_chars).
    unfold Py.int_of_ascii.
    rewrite strip_number_chars
      by (simpl; apply uint_number_chars).
    cbv beta iota zeta.
    rewrite (digits_from_start _ Hn), digits_from_zero, Unsigned.of_to.
    cbn [option_map Py.count_digits].
    change (Py.digit_of "-") with (@None Z). cbv beta iota.
    rewrite count_digits_uint.
    replace (Decimal.nb_digits (Pos.to_uint p) <=? Py.max_str_digits)%nat
      with true
      by (symmetry; apply Nat.leb_le; apply to_uint_digits; exact Hz).
    reflexivity.
Qed.

Lemma str_int_number_chars (z : Z) : number_chars (Py.str_int z) = true.
Proof.
  unfold Py.str_int. destruct z as [ | p | p]; cbn [Z.to_int NilZero.string_of_int].
  - reflexivity.
  - unfold NilZero.string_of_uint.
    destruct (Pos.to_uint p) eqn:Hd; try reflexivity; rewrite <- Hd;
      apply uint_number_chars.
  - unfold NilZero.string_of_uint.
    destruct (Pos.to_uint p) eqn:Hd; try reflexivity; rewrite <- Hd;
      simpl; apply uint_number_chars.
Qed.

Lemma replace_number_chars (s : string) :
  number_chars s = true -> Py.replace_from "unmapped_tab_" "" s 0 = s.
Proof.
  induction s as [ | c s IH]; intros H; [ reflexivity | ].
  simpl in H. apply andb_prop in H. destruct H as [Hc Hs].
  destruct (number_char_facts c Hc) as [_ Hu]. apply Ascii.eqb_neq in Hu.
  cbn [Py.replace_from String.prefix].
  destruct (ascii_dec "u" c) as [Heq | _]; [ contradiction | ].
  rewrite (IH Hs). reflexivity.
Qed.

Lemma prefix_of_append (p s : string) : String.prefix p (p ++ s) = true.
Proof.
  induction p as [ | c p IH]; [ destruct s; reflexivity | ].
  cbn [append String.prefix].
  destruct (ascii_dec c c) as [_ | Hne]; [ exact IH | contradiction ].
Qed.

Lemma replace_skips (old new p s : string) :
  Py.replace_from old new (p ++ s) (String.length p)
  = Py.replace_from old new s 0.
Proof.
  induction p as [ | c p IH]; [ reflexivity | ].
  cbn [append String.length Py.replace_from]. exact IH.
Qed.

Lemma replace_drops_prefix (c : ascii) (rest s : string) :
  Py.replace_from (String c rest) "" (String c rest ++ s) 0
  = Py.replace_from (String c rest) "" s 0.
Proof.
  pose proof (prefix_of_append (String c rest) s) as Hp.
  cbn [append] in *. cbn [Py.replace_from]. rewrite Hp.
  cbn [String.length Nat.sub append]. rewrite Nat.sub_0_r.
  apply replace_skips.
Qed.

Lemma startswith_leg_identifier (tab_number : Z) :
  Py.startswith "unmapped_tab_" (leg_identifier tab_number) = true.
Proof. apply prefix_of_append. Qed.

Lemma replace_leg_identifier (tab_number : Z) :
  Py.replace "unmapped_tab_" "" (leg_identifier tab_number)
  = Py.str_int tab_number.
Proof.
  unfold Py.replace, leg_identifier.
  rewrite (replace_drops_prefix "u" "nmapped_tab_").
  apply replace_number_chars, str_int_number_chars.
Qed.

(** X1.  A leg identifier built from a tab number extracts back to that
    number, for either leg and for every integer of at most
    [Py.max_str_digits] digits (beyond that limit [int] raises
    [ValueError]); beside it, an identifier that does not start with
    "unmapped_tab_" counts as 0. *)
Theorem leg_identifier_round_trip (leg1_number leg2_number : Z) :
  Z.abs leg1_number < 10 ^ Z.of_nat Py.max_str_digits ->
  Z.abs leg2_number < 10 ^ Z.of_nat Py.max_str_digits ->
  _extract_leg_numbers (leg_identifier leg1_number) (leg_identifier leg2_number)
  = Ok (leg1_number, leg2_number)
  /\ (forall other,
        Py.startswith "unmapped_tab_" other = false ->
        _extract_leg_numbers (leg_identifier leg1_number) other
        = Ok (leg1_number, 0)
        /\ _extract_leg_numbers other (leg_identifier leg2_number)
           = Ok (0, leg2_number)).
Proof.
  intros H1 H2. unfold _extract_leg_numbers.
  rewrite !startswith_leg_identifier, !replace_leg_identifier.
  rewrite (int_str_int _ H1), (int_str_int _ H2).
  split; [ reflexivity | ].
  intros other Hother. rewrite Hother, andb_false_r. split; reflexivity.
Qed.

Lemma leg_identifier_round_trip_15_16 :
  _extract_leg_numbers (leg_identifier 15) (leg_identifier 16) = Ok (15, 16)
  /\ (forall other,
        Py.startswith "unmapped_tab_" other = false ->
        _extract_leg_numbers (leg_identifier 15) other = Ok (15, 0)
        /\ _extract_leg_numbers other (leg_identifier 16) = Ok (0, 16)).
Proof.
  apply (leg_identifier_round_trip 15 16);
    (apply Z.lt_le_trans with (m := 10 ^ 2);
     [ reflexivity | apply Z.pow_le_mono_r; [ lia | vm_compute; discriminate ] ]).
Defined.

(** Past the digit limit the same identifier is rejected. *)
Lemma int_rejects_long_numbers (d : Decimal.uint) :
  (Py.max_str_digits < Decimal.nb_digits d)%nat ->
  Py.int (NilEmpty.string_of_uint d) = Raise ValueError.
Proof.
  intros Hlen. rewrite (int_number_chars _ (uint_number_chars d)).
  unfold Py.int_of_ascii.
  rewrite (strip_number_chars _ (uint_number_chars d)).
  assert (Hc : (Py.count_digits (NilEmpty.string_of_uint d)
                <=? Py.max_str_digits)%nat = false).
  { rewrite count_digits_uint. apply Nat.leb_gt. exact Hlen. }
  destruct d; [ cbn [Decimal.nb_digits] in Hlen; lia | .. ];
    cbn [NilEmpty.string_of_uint] in *; cbv beta iota zeta; rewrite Hc;
    match goal with
    | |- match ?x with _ => _ end = _ => destruct x; reflexivity
    end.
Qed.

(** [int] at the edges of what it reads: the separators 28 to 31 are not
    skipped, a no-break space is, and so is a digit of another script (here
    Arabic-Indic one and five, in UTF-8). *)
Example int_keeps_separators :
  Py.int (String "028" "5") = Raise ValueError.
Proof. reflexivity. Qed.

Example int_skips_no_break_space :
  Py.int (String "194" (String "160" "5")) = Ok 5.
Proof. reflexivity. Qed.

Example int_reads_other_digits :
  Py.int (String "217" (String "161" (String "217" (String "165" ""))))
  = Ok 15.
Proof. reflexivity. Qed.

Example extract_rejects_separators :
  _extract_leg_numbers ("unmapped_tab_" ++ String "028" "5") ""
  = Raise ValueError.
Proof. reflexivity. Qed.

(** A leg token of more digits than [int] reads is rejected. *)
Lemma extract_rejects_long_numbers (d : Decimal.uint) :
  (Py.max_str_digits < Decimal.nb_digits d)%nat ->
  _extract_leg_numbers ("unmapped_tab_" ++ NilEmpty.string_of_uint d) ""
  = Raise ValueError.
Proof.
  intros Hlen. unfold _extract_leg_numbers, Py.startswith, Py.replace.
  rewrite prefix_of_append.
  rewrite (replace_drops_prefix "u" "nmapped_tab_").
  rewrite (replace_number_chars _ (uint_number_chars d)).
  rewrite (int_rejects_long_numbers d Hlen). reflexivity.
Qed.

Lemma int_raises_value_error (s : string) (e : Exn) :
  Py.int s = Raise e -> e = ValueError.
Proof.
  unfold Py.int, Py.int_of_ascii. cbv zeta.
  destruct (Py.to_ascii s) as [s' | ];
    [ destruct (match Py.strip s' with EmptyString => _ | String _ _ => _ end);
      [ destruct (_ <=? _)%nat | ] | ];
    intros H; first [ discriminate H | injection H as H; symmetry; exact H ].
Qed.

Lemma extract_raises_value_error (leg1_circuit leg2_circuit : string) (e : Exn) :
  _extract_leg_numbers leg1_circuit leg2_circuit = Raise e -> e = ValueError.
Proof.
  unfold _extract_leg_numbers.
  assert (H1 : forall (b : bool) (s : string) (r : Z),
            (if b then Py.int s else Ok 0) = Raise e -> e = ValueError).
  { intros [ | ] s r H; [ exact (int_raises_value_error _ _ H) | discriminate H ]. }
  destruct (if Py.startswith "unmapped_tab_" leg1_circuit then _ else _)
    as [n | e1] eqn:Hleg1.
  - destruct (if negb (leg2_circuit =? "")%string && _ then _ else _)
      as [m | e2] eqn:Hleg2; intros H; [ discriminate H | ].
    injection H as H. subst e2. exact (H1 _ _ 0 Hleg2).
  - intros H. injection H as H. subst e1. exact (H1 _ _ 0 Hleg1).
Qed.

(** X2.  A leg token that [int] does not read (no number after the
    prefix, a separator among the digits, more than [Py.max_str_digits]
    digits) makes the generator raise [ValueError], and nothing else: the
    global settings have been loaded by then, and their records are all
    that is logged. *)
Theorem malformed_leg_raises_value_error {collab : Collaborators}
    (coordinator : SpanPanelCoordinator) (span_panel : SpanPanel)
    (leg1_circuit leg2_circuit device_name : string) (e : Exn) :
  _extract_leg_numbers leg1_circuit leg2_circuit = Raise e ->
  generate_solar_sensors coordinator span_panel
    leg1_circuit leg2_circuit device_name
  = (trace (load_global_settings coordinator span_panel), Raise ValueError).
Proof.
  intros Hx. pose proof (extract_raises_value_error _ _ _ Hx) as He. subst e.
  unfold generate_solar_sensors. rewrite Hx.
  pose proof (global_settings_outcome coordinator span_panel) as Hg.
  destruct (load_global_settings coordinator span_panel) as [l [settings | e]];
    [ | discriminate Hg ].
  simpl. rewrite app_nil_r. reflexivity.
Qed.

Lemma malformed_leg_on_sample :
  @generate_solar_sensors Sample.helpers Sample.coordinator Sample.panel
    "unmapped_tab_1.5" "" "Span Panel"
  = ([mkLog DEBUG "Loaded global settings for solar sensors: %s"],
     Raise ValueError).
Proof.
  apply (@malformed_leg_raises_value_error Sample.helpers Sample.coordinator
           Sample.panel "unmapped_tab_1.5" "" "Span Panel" ValueError).
  reflexivity.
Defined.

(** ** The entity resolver, in full *)

Section ResolverInFull.

Context {collab : Collaborators}.

Lemma scan_first_match (span_panel : SpanPanel)
    (items : Dict SpanPanelCircuit) (tab_number : Z) (suffix : string) :
  outcome (_scan_circuits span_panel items tab_number suffix)
  = Ok match first_circuit_with tab_number items with
       | Some circuit =>
           match tabs circuit with
           | Some [_] => Some (single_tab_entity_id span_panel tab_number suffix)
           | Some ts => Some (multi_tab_entity_id span_panel ts suffix)
           | None => None
           end
       | None => get_unmapped_circuit_entity_id span_panel tab_number suffix
       end.
Proof.
  unfold first_circuit_with.
  induction items as [ | [key circuit] items IH]; [ reflexivity | ].
  cbn [find snd].
  destruct (circuit_has_tab tab_number circuit) eqn:Hhas.
  - unfold circuit_has_tab in Hhas. cbn [_scan_circuits option_map snd].
    destruct (tabs circuit) as [[ | t ts] | ]; try discriminate Hhas.
    rewrite Hhas. destruct ts as [ | t' ts]; reflexivity.
  - rewrite (scan_skip _ _ _ _ _ _ Hhas). exact IH.
Qed.


Lemma scan_circuits_with (span_panel : SpanPanel)
    (items : Dict SpanPanelCircuit) (tab_number : Z) (suffix : string) :
  _scan_circuits span_panel (circuits_with tab_number items) tab_number suffix
  = _scan_circuits span_panel items tab_number suffix.
Proof.
  unfold circuits_with.
  induction items as [ | [key circuit] items IH]; [ reflexivity | ].
  cbn [filter snd]. destruct (circuit_has_tab tab_number circuit) eqn:Hhas.
  - unfold circuit_has_tab in Hhas. cbn [_scan_circuits].
    destruct (tabs circuit) as [[ | t ts] | ]; try discriminate Hhas.
    rewrite Hhas. reflexivity.
  - rewrite (scan_skip _ _ _ _ _ _ Hhas). exact IH.
Qed.

Lemma scan_other_panel (p1 p2 : SpanPanel) (items : Dict SpanPanelCircuit)
    (tab_number : Z) (suffix : string) :
  _device_name p1 = _device_name p2 ->
  get_unmapped_circuit_entity_id p1 tab_number suffix
  = get_unmapped_circuit_entity_id p2 tab_number suffix ->
  _scan_circuits p1 items tab_number suffix
  = _scan_circuits p2 items tab_number suffix.
Proof.
  intros Hname Hunmapped.
  induction items as [ | [key circuit] items IH]; cbn [_scan_circuits].
  - rewrite Hunmapped. reflexivity.
  - rewrite IH, Hname. reflexivity.
Qed.

Lemma Permutation_filter_dict {X : Type} (f : X -> bool) (l l' : list X) :
  Permutation l l' -> Permutation (filter f l) (filter f l').
Proof.
  induction 1 as [ | x l l' _ IH | x y l | l l' l'' _ IH1 _ IH2]; simpl.
  - constructor.
  - destruct (f x); [ constructor; exact IH | exact IH ].
  - destruct (f x), (f y); try apply Permutation_refl. apply perm_swap.
  - eapply Permutation_trans; eassumption.
Qed.

(** X4.  When at most one circuit lists the tab, the order in which the
    snapshot holds its circuits does not matter: two snapshots with the same
    circuits in any order, for which the naming collaborators answer alike,
    resolve the tab to the same id, with the same log. *)
Theorem resolver_ignores_circuit_order (p1 p2 : SpanPanel)
    (tab_number : Z) (suffix : string) :
  Permutation (circuits p1) (circuits p2) ->
  (List.length (circuits_with tab_number (circuits p1)) <= 1)%nat ->
  _device_name p1 = _device_name p2 ->
  get_unmapped_circuit_entity_id p1 tab_number suffix
  = get_unmapped_circuit_entity_id p2 tab_number suffix ->
  _get_circuit_entity_id p1 tab_number suffix
  = _get_circuit_entity_id p2 tab_number suffix.
Proof.
  intros Hperm Hone Hname Hunmapped. unfold _get_circuit_entity_id.
  rewrite <- (scan_circuits_with p1), <- (scan_circuits_with p2).
  rewrite (scan_other_panel p1 p2 _ _ _ Hname Hunmapped).
  f_equal.
  pose proof (Permutation_filter_dict
                (fun kc => circuit_has_tab tab_number (snd kc)) _ _ Hperm) as Hf.
  fold (circuits_with tab_number (circuits p1)) in Hf.
  fold (circuits_with tab_number (circuits p2)) in Hf.
  destruct (circuits_with tab_number (circuits p1)) as [ | kc [ | kc' more]].
  - apply Permutation_nil in Hf. rewrite Hf. reflexivity.
  - apply Permutation_length_1_inv in Hf. rewrite Hf. reflexivity.
  - simpl in Hone. lia.
Qed.

End ResolverInFull.

(** ** The order of the circuits in the snapshot *)

Section SnapshotOrder.

Context {collab : Collaborators}.

Variables p1 p2 : SpanPanel.
Hypothesis same : same_snapshot p1 p2.
Hypothesis alike : helpers_alike p1 p2.
Hypothesis once : tabs_listed_once p1.

Let same_serial := proj1 same.
Let same_circuits := proj2 same.
Let alike_device_info := proj1 alike.
Let alike_unmapped := proj1 (proj2 alike).
Let alike_120v := proj1 (proj2 (proj2 alike)).
Let alike_240v := proj2 (proj2 (proj2 alike)).

Lemma device_name_alike : _device_name p1 = _device_name p2.
Proof. unfold _device_name. rewrite alike_device_info. reflexivity. Qed.

Lemma resolver_alike (tab_number : Z) (suffix : string) :
  _get_circuit_entity_id p1 tab_number suffix
  = _get_circuit_entity_id p2 tab_number suffix.
Proof.
  unfold _get_circuit_entity_id.
  rewrite <- (scan_circuits_with p1), <- (scan_circuits_with p2).
  rewrite (scan_other_panel p1 p2 _ _ _ device_name_alike
             (alike_unmapped tab_number suffix)).
  f_equal.
  pose proof (Permutation_filter_dict
                (fun kc => circuit_has_tab tab_number (snd kc)) _ _
                same_circuits) as Hf.
  fold (circuits_with tab_number (circuits p1)) in Hf.
  fold (circuits_with tab_number (circuits p2)) in Hf.
  pose proof (once tab_number) as Hone.
  destruct (circuits_with tab_number (circuits p1)) as [ | kc [ | kc' more]].
  - apply Permutation_nil in Hf. rewrite Hf. reflexivity.
  - apply Permutation_length_1_inv in Hf. rewrite Hf. reflexivity.
  - simpl in Hone. lia.
Qed.

Lemma leg_block_alike (leg : string) (leg_number : Z) :
  _leg_block p1 leg leg_number = _leg_block p2 leg leg_number.
Proof.
  unfold _leg_block.
  destruct (0 <? leg_number); [ | reflexivity ].
  apply bind_ext; [ reflexivity | intros _ ].
  apply bind_ext; [ apply resolver_alike | intros power_entity ].
  apply bind_ext; [ apply resolver_alike | intros produced_entity ].
  apply bind_ext; [ apply resolver_alike | intros consumed_entity ].
  reflexivity.
Qed.

Lemma leg_entities_alike (leg1_number leg2_number : Z) :
  _get_leg_entities p1 leg1_number leg2_number
  = _get_leg_entities p2 leg1_number leg2_number.
Proof.
  unfold _get_leg_entities.
  apply bind_ext; [ apply leg_block_alike | intros [[[a b] c] found1] ].
  apply bind_ext; [ apply leg_block_alike | intros [[[d e] f] found2] ].
  reflexivity.
Qed.

Lemma sensor_entity_id_alike (coordinator : SpanPanelCoordinator)
    (kind : string) (leg1_number leg2_number : Z) :
  _generate_sensor_entity_id coordinator p1 kind leg1_number leg2_number
  = _generate_sensor_entity_id coordinator p2 kind leg1_number leg2_number.
Proof.
  unfold _generate_sensor_entity_id. cbv zeta.
  rewrite alike_240v, alike_120v. reflexivity.
Qed.

Lemma global_settings_alike (coordinator : SpanPanelCoordinator) :
  load_global_settings coordinator p1 = load_global_settings coordinator p2.
Proof. unfold load_global_settings. rewrite same_serial. reflexivity. Qed.

Lemma template_vars_alike (coordinator : SpanPanelCoordinator)
    (leg1_circuit leg2_circuit tabs_attribute : string)
    (voltage_attribute : Z) (leg_entities : Dict Scalar) :
  solar_template_vars coordinator p1 leg1_circuit leg2_circuit
    tabs_attribute voltage_attribute leg_entities
  = solar_template_vars coordinator p2 leg1_circuit leg2_circuit
      tabs_attribute voltage_attribute leg_entities.
Proof. unfold solar_template_vars. rewrite same_serial. reflexivity. Qed.

Lemma step_alike (coordinator : SpanPanelCoordinator)
    (template_vars : Dict Scalar) (leg1_number leg2_number : Z)
    (sensor_configs : Dict (Dict PyVal)) (sensor_def : SensorDef) :
  _solar_sensor_step coordinator p1 template_vars
    leg1_number leg2_number sensor_configs sensor_def
  = _solar_sensor_step coordinator p2 template_vars
      leg1_number leg2_number sensor_configs sensor_def.
Proof.
  unfold _solar_sensor_step. cbv zeta.
  rewrite sensor_entity_id_alike, same_serial. reflexivity.
Qed.

Lemma for_each_alike (coordinator : SpanPanelCoordinator)
    (template_vars : Dict Scalar) (leg1_number leg2_number : Z)
    (defs : list SensorDef) :
  forall sensor_configs,
    _for_each_sensor_def coordinator p1 template_vars
      leg1_number leg2_number defs sensor_configs
    = _for_each_sensor_def coordinator p2 template_vars
        leg1_number leg2_number defs sensor_configs.
Proof.
  induction defs as [ | d defs IH]; intros sensor_configs; [ reflexivity | ].
  cbn [_for_each_sensor_def].
  apply bind_ext; [ apply step_alike | intros sensor_configs'; apply IH ].
Qed.

Lemma run_alike (coordinator : SpanPanelCoordinator)
    (leg1_circuit leg2_circuit device_name : string) :
  generate_solar_sensors coordinator p1 leg1_circuit leg2_circuit device_name
  = generate_solar_sensors coordinator p2 leg1_circuit leg2_circuit device_name.
Proof.
  unfold generate_solar_sensors. cbv zeta.
  apply bind_ext; [ apply global_settings_alike | intros global_settings ].
  apply bind_ext; [ reflexivity | intros [leg1_number leg2_number] ].
  destruct ((leg1_number =? 0) && (leg2_number =? 0)); [ reflexivity | ].
  apply bind_ext;
    [ apply leg_entities_alike | intros [leg_entities required_entities] ].
  destruct required_entities as [ | entity entities]; [ reflexivity | ].
  destruct (filter _ (entity :: entities)); [ | reflexivity ].
  destruct (_get_template_attributes leg1_number leg2_number) as [ta va].
  rewrite template_vars_alike.
  apply bind_ext; [ reflexivity | intros _ ].
  apply bind_ext; [ reflexivity | intros _ ].
  apply bind_ext; [ reflexivity | intros _ ].
  apply bind_ext; [ apply for_each_alike | intros sensor_configs ].
  reflexivity.
Qed.

End SnapshotOrder.



Lemma panel_3_5_tabs_listed_once : tabs_listed_once Sample.panel_3_5.
Proof.
  intros tab_number. unfold circuits_with, circuit_has_tab. simpl.
  destruct (tab_number =? 7) eqn:H7; destruct (tab_number =? 5) eqn:H5;
    destruct (tab_number =? 3) eqn:H3; simpl; try lia;
    apply Z.eqb_eq in H7; try apply Z.eqb_eq in H5; try apply Z.eqb_eq in H3;
    lia.
Qed.


(** ** The leg entities *)

Section LegEntities.

Context {collab : Collaborators}.

Lemma leg_ids_three (span_panel : SpanPanel) (leg_number : Z) :
  exists a b c, leg_ids span_panel leg_number = [a; b; c].
Proof. unfold leg_ids. destruct (0 <? leg_number); do 3 eexists; reflexivity. Qed.

Lemma leg_ids_unconfigured (span_panel : SpanPanel) (leg_number : Z) :
  leg_number <= 0 -> leg_ids span_panel leg_number = [None; None; None].
Proof.
  intros H. unfold leg_ids.
  replace (0 <? leg_number) with false by (symmetry; apply Z.ltb_ge; exact H).
  reflexivity.
Qed.

Lemma str_instances_length (l : list (option string)) :
  (List.length (str_instances l) <= List.length l)%nat.
Proof.
  induction l as [ | [s | ] l IH]; simpl; lia.
Qed.

Lemma str_instances_nth (l : list (option string)) (i : nat) (s : string) :
  nth i l None = Some s -> In s (str_instances l).
Proof.
  revert i. induction l as [ | o l IH]; intros i H.
  - destruct i; discriminate H.
  - destruct i as [ | i]; simpl in H.
    + subst o. left. reflexivity.
    + unfold str_instances. cbn [flat_map]. apply in_or_app. right.
      exact (IH i H).
Qed.

Lemma or_empty_nonempty (o : option string) (s : string) :
  or_empty o = s -> s <> "" -> o = Some s.
Proof. destruct o; simpl; intros H Hs; congruence. Qed.


End LegEntities.

(** ** Which levels are logged *)

Section Levels.

Context {A B : Type}.

Lemma never_logs_ret (lv : Level) (a : A) : never_logs lv (ret a).
Proof. constructor. Qed.

Lemma never_logs_lift (lv : Level) (r : Res A) : never_logs lv (lift r).
Proof. constructor. Qed.

Lemma never_logs_raise (lv : Level) (e : Exn) : never_logs lv (@raise A e).
Proof. constructor. Qed.

Lemma never_logs_bind (lv : Level) (m : M A) (f : A -> M B) :
  never_logs lv m ->
  (forall a, outcome m = Ok a -> never_logs lv (f a)) ->
  never_logs lv (bind m f).
Proof.
  unfold never_logs. destruct m as [l [a | e]]; simpl; intros Hm Hf;
    [ | exact Hm ].
  specialize (Hf a eq_refl). destruct (f a) as [l' r]. simpl in *.
  apply Forall_app. split; assumption.
Qed.

Lemma never_logs_log_then (lv lv' : Level) (msg : string) (k : M B) :
  lv' <> lv -> never_logs lv k -> never_logs lv (log lv' msg ;;; k).
Proof.
  intros Hne Hk. unfold never_logs. rewrite trace_log_then.
  constructor; [ exact Hne | exact Hk ].
Qed.

Lemma never_logs_log (lv lv' : Level) (msg : string) :
  lv' <> lv -> never_logs lv (log lv' msg).
Proof. intros Hne. constructor; [ exact Hne | constructor ]. Qed.

Lemma never_logs_try (lv : Level) (body : M A) (handler : Exn -> M A) :
  never_logs lv body ->
  (forall e, outcome body = Raise e -> never_logs lv (handler e)) ->
  never_logs lv (try_except body handler).
Proof.
  unfold never_logs. destruct body as [l [a | e]]; simpl; intros Hb Hh;
    [ exact Hb | ].
  specialize (Hh e eq_refl). destruct (handler e) as [l' r]. simpl in *.
  apply Forall_app. split; assumption.
Qed.

Lemma trace_bind_inv (m : M A) (f : A -> M B) (r : LogRecord) :
  In r (trace (bind m f)) ->
  In r (trace m) \/ exists a, outcome m = Ok a /\ In r (trace (f a)).
Proof.
  destruct m as [l [a | e]]; simpl; intros H; [ | left; exact H ].
  destruct (f a) as [l' res] eqn:Hf. simpl in H. apply in_app_or in H.
  destruct H as [H | H]; [ left; exact H | right ].
  exists a. split; [ reflexivity | ]. rewrite Hf. exact H.
Qed.

End Levels.

Ltac quiet :=
  repeat first
    [ apply never_logs_ret
    | apply never_logs_lift
    | apply never_logs_raise
    | apply never_logs_log_then; [ discriminate | ]
    | apply never_logs_log; discriminate
    | apply never_logs_bind; [ | intros ? ? ]
    | apply never_logs_try; [ | intros ? ? ] ].

Section QuietParts.

Context {collab : Collaborators}.

(** The resolver logs at DEBUG only. *)
Lemma scan_only_debug (lv : Level) (span_panel : SpanPanel)
    (items : Dict SpanPanelCircuit) (tab_number : Z) (suffix : string) :
  lv <> DEBUG ->
  never_logs lv (_scan_circuits span_panel items tab_number suffix).
Proof.
  intros Hlv. induction items as [ | [key circuit] items IH];
    cbn [_scan_circuits].
  - apply never_logs_log_then; [ congruence | apply never_logs_ret ].
  - destruct (tabs circuit) as [[ | t ts] | ]; try exact IH.
    destruct (existsb _ _); [ | exact IH ].
    destruct (_ =? 1)%nat;
      (apply never_logs_log_then; [ congruence | apply never_logs_ret ]).
Qed.

Lemma leg_block_no_warning (span_panel : SpanPanel) (leg : string)
    (leg_number : Z) :
  never_logs WARNING (_leg_block span_panel leg leg_number).
Proof.
  unfold _leg_block, _get_circuit_entity_id.
  destruct (0 <? leg_number); [ | apply never_logs_ret ].
  apply never_logs_log_then; [ discriminate | ].
  apply never_logs_bind; [ apply scan_only_debug; discriminate | intros ? _ ].
  apply never_logs_bind; [ apply scan_only_debug; discriminate | intros ? _ ].
  apply never_logs_bind; [ apply scan_only_debug; discriminate | intros ? _ ].
  apply never_logs_log_then; [ discriminate | ].
  apply never_logs_bind; [ | intros ? _; apply never_logs_ret ].
  destruct (forallb _ _); quiet.
Qed.

Lemma leg_block_no_error (span_panel : SpanPanel) (leg : string)
    (leg_number : Z) :
  forallb Py.truthy_opt (leg_ids span_panel leg_number) = true
  \/ leg_number <= 0 ->
  never_logs ERROR (_leg_block span_panel leg leg_number).
Proof.
  intros H. unfold _leg_block.
  destruct (0 <? leg_number) eqn:Hpos; [ | apply never_logs_ret ].
  destruct H as [H | H]; [ | apply Z.ltb_lt in Hpos; lia ].
  unfold leg_ids in H. rewrite Hpos in H.
  apply never_logs_log_then; [ discriminate | ].
  apply never_logs_bind;
    [ apply scan_only_debug; discriminate | intros a Ha ].
  apply never_logs_bind;
    [ apply scan_only_debug; discriminate | intros b Hb ].
  apply never_logs_bind;
    [ apply scan_only_debug; discriminate | intros c Hc ].
  rewrite resolver_outcome in Ha, Hb, Hc.
  injection Ha as Ha. injection Hb as Hb. injection Hc as Hc. subst a b c.
  apply never_logs_log_then; [ discriminate | ].
  rewrite H. quiet.
Qed.

Lemma leg_entities_no_warning (span_panel : SpanPanel)
    (leg1_number leg2_number : Z) :
  never_logs WARNING (_get_leg_entities span_panel leg1_number leg2_number).
Proof.
  unfold _get_leg_entities.
  apply never_logs_bind; [ apply leg_block_no_warning | intros [[[a b] c] f1] _ ].
  apply never_logs_bind; [ apply leg_block_no_warning | intros [[[d e] f] f2] _ ].
  quiet.
Qed.

Lemma leg_entities_no_error (span_panel : SpanPanel)
    (leg1_number leg2_number : Z) :
  forallb Py.truthy_opt (leg_ids span_panel leg1_number) = true
  \/ leg1_number <= 0 ->
  forallb Py.truthy_opt (leg_ids span_panel leg2_number) = true
  \/ leg2_number <= 0 ->
  never_logs ERROR (_get_leg_entities span_panel leg1_number leg2_number).
Proof.
  intros H1 H2. unfold _get_leg_entities.
  apply never_logs_bind;
    [ apply leg_block_no_error; exact H1 | intros [[[a b] c] f1] _ ].
  apply never_logs_bind;
    [ apply leg_block_no_error; exact H2 | intros [[[d e] f] f2] _ ].
  quiet.
Qed.

Lemma process_no_warning (sensor_def : SensorDef)
    (template_vars : Dict Scalar) (entity_id : option string) :
  never_logs WARNING
    (_process_sensor_template sensor_def template_vars entity_id).
Proof.
  unfold _process_sensor_template.
  destruct entity_id as [e | ]; [ | apply never_logs_ret ].
  destruct (e =? "")%string; [ apply never_logs_ret | ].
  destruct (existsb _ _); [ quiet | ].
  apply never_logs_log_then; [ discriminate | ].
  apply never_logs_bind; [ quiet | intros rendered _ ].
  destruct rendered as [combined_result | ]; [ | apply never_logs_ret ].
  destruct (match combined_result with PDict d => _ | _ => None end)
    as [sensors | ]; [ | quiet ].
  destruct (negb _); [ quiet | ].
  destruct sensors as [a | l | [ | [key [a | l | config]] rest]]; quiet.
Qed.

Lemma step_no_warning (coordinator : SpanPanelCoordinator)
    (span_panel : SpanPanel) (template_vars : Dict Scalar)
    (leg1_number leg2_number : Z)
    (sensor_configs : Dict (Dict PyVal)) (sensor_def : SensorDef) :
  never_logs WARNING
    (_solar_sensor_step coordinator span_panel template_vars
       leg1_number leg2_number sensor_configs sensor_def).
Proof.
  unfold _solar_sensor_step. cbv zeta.
  apply never_logs_try; [ | intros e _; quiet ].
  apply never_logs_log_then; [ discriminate | ].
  apply never_logs_bind; [ apply process_no_warning | intros final_config _ ].
  destruct final_config as [[ | entry config] | ]; quiet.
Qed.

Lemma for_each_no_warning (coordinator : SpanPanelCoordinator)
    (span_panel : SpanPanel) (template_vars : Dict Scalar)
    (leg1_number leg2_number : Z) (defs : list SensorDef) :
  forall sensor_configs,
    never_logs WARNING
      (_for_each_sensor_def coordinator span_panel template_vars
         leg1_number leg2_number defs sensor_configs).
Proof.
  induction defs as [ | d defs IH]; intros sensor_configs;
    cbn [_for_each_sensor_def]; [ apply never_logs_ret | ].
  apply never_logs_bind; [ apply step_no_warning | intros sc _; apply IH ].
Qed.

End QuietParts.

(** ** Runs that end early *)

Section EarlyReturns.

Context {collab : Collaborators}.

Variable coordinator : SpanPanelCoordinator.
Variable span_panel : SpanPanel.
Variables leg1_circuit leg2_circuit device_name : string.

Let run :=
  generate_solar_sensors coordinator span_panel
    leg1_circuit leg2_circuit device_name.

Lemma global_settings_no_error :
  never_logs ERROR (load_global_settings coordinator span_panel).
Proof.
  unfold load_global_settings. cbv zeta.
  destruct (combine_yaml_templates _ _) as [v | e];
    (constructor; [ discriminate | constructor ]).
Qed.

Lemma global_settings_split :
  load_global_settings coordinator span_panel
  = (trace (load_global_settings coordinator span_panel),
     Ok (global_settings_of coordinator span_panel)).
Proof.
  pose proof (global_settings_outcome coordinator span_panel) as H.
  destruct (load_global_settings coordinator span_panel) as [l r].
  simpl in *. rewrite H. reflexivity.
Qed.

(** X8.  Whenever both leg numbers come out as 0 (no leg configured, a
    token without the "unmapped_tab_" prefix, or a token that names tab 0
    such as "unmapped_tab_0") the run is a silent no-op: after the records
    of the global-settings load it logs one DEBUG record, returns the empty
    result, and logs no error. *)
Theorem unconfigured_run_is_silent :
  _extract_leg_numbers leg1_circuit leg2_circuit = Ok (0, 0) ->
  run
  = ((trace (load_global_settings coordinator span_panel)
        ++ [mkLog DEBUG
              "No valid solar tabs configured, skipping solar sensor generation"])%list,
     Ok ([], [], global_settings_of coordinator span_panel))
  /\ never_logs ERROR run.
Proof.
  intros Hlegs.
  assert (Hrun : run
    = ((trace (load_global_settings coordinator span_panel)
          ++ [mkLog DEBUG
                "No valid solar tabs configured, skipping solar sensor generation"])%list,
       Ok ([], [], global_settings_of coordinator span_panel))).
  { unfold run, generate_solar_sensors.
    rewrite Hlegs, global_settings_split.
    reflexivity. }
  split; [ exact Hrun | ].
  rewrite Hrun. unfold never_logs. cbn [trace fst].
  apply Forall_app. split; [ apply global_settings_no_error | ].
  constructor; [ discriminate | constructor ].
Qed.


End EarlyReturns.

Section Aborts.

Context {collab : Collaborators}.

Variable coordinator : SpanPanelCoordinator.
Variable span_panel : SpanPanel.
Variables leg1_circuit leg2_circuit device_name : string.
Variables leg1_number leg2_number : Z.
Hypothesis legs_parse :
  _extract_leg_numbers leg1_circuit leg2_circuit
  = Ok (leg1_number, leg2_number).

Let run :=
  generate_solar_sensors coordinator span_panel
    leg1_circuit leg2_circuit device_name.

Lemma required_needs_a_leg :
  required_entities_of span_panel leg1_number leg2_number <> [] ->
  (leg1_number =? 0) && (leg2_number =? 0) = false.
Proof.
  intros H. destruct ((leg1_number =? 0) && (leg2_number =? 0)) eqn:Hz;
    [ | reflexivity ].
  apply andb_prop in Hz. destruct Hz as [H1 H2].
  apply Z.eqb_eq in H1, H2. subst. exfalso. apply H. reflexivity.
Qed.

Lemma run_after_leg_entities (r : LogRecord) :
  (leg1_number =? 0) && (leg2_number =? 0) = false ->
  In r (trace
          match required_entities_of span_panel leg1_number leg2_number with
          | [] =>
              log ERROR "No valid entities found for solar circuits %s and %s" ;;;
              ret tt
          | entity :: entities =>
              match
                filter (fun entity => (entity =? "")%string) (entity :: entities)
              with
              | _ :: _ =>
                  log ERROR "Some entity IDs are invalid for solar circuits %s and %s: %s" ;;;
                  ret tt
              | [] => ret tt
              end
          end) ->
  In r (trace run).
Proof.
  intros Hz H. unfold run, generate_solar_sensors.
  eapply trace_bind_tail; [ apply global_settings_outcome | ].
  rewrite legs_parse. eapply trace_bind_tail; [ reflexivity | ].
  cbv beta iota. rewrite Hz.
  eapply trace_bind_tail; [ apply leg_entities_outcome | ].
  cbv beta iota.
  destruct (required_entities_of span_panel leg1_number leg2_number)
    as [ | entity entities].
  - destruct H as [H | []]. subst r. apply trace_log_head.
  - destruct (filter _ (entity :: entities)).
    + destruct H.
    + destruct H as [H | []]. subst r. apply trace_log_head.
Qed.

(** X6.  An empty string among the ids resolved for a configured leg
    aborts the whole run: no sensor is returned, whatever the other ids
    are, and the error "Some entity IDs are invalid" is logged. *)
Theorem empty_entity_id_aborts_run :
  In "" (required_entities_of span_panel leg1_number leg2_number) ->
  outcome run = Ok ([], [], global_settings_of coordinator span_panel)
  /\ In (mkLog ERROR
           "Some entity IDs are invalid for solar circuits %s and %s: %s")
        (trace run).
Proof.
  intros Hin.
  assert (Hz : (leg1_number =? 0) && (leg2_number =? 0) = false).
  { apply required_needs_a_leg. intros Hnil. rewrite Hnil in Hin. destruct Hin. }
  assert (Hbad : In "" (filter (fun entity => (entity =? "")%string)
                          (required_entities_of span_panel leg1_number leg2_number))).
  { apply filter_In. split; [ exact Hin | reflexivity ]. }
  split.
  - unfold run. rewrite (generate_outcome _ _ _ _ _ _ _ legs_parse).
    unfold sensors_attempted.
    replace (forallb (fun entity => negb (entity =? "")%string)
               (required_entities_of span_panel leg1_number leg2_number))
      with false; [ rewrite andb_false_r; reflexivity | ].
    symmetry. apply not_true_is_false. intros Hall.
    rewrite forallb_forall in Hall. specialize (Hall "" Hin). discriminate Hall.
  - apply (run_after_leg_entities _ Hz).
    destruct (required_entities_of span_panel leg1_number leg2_number)
      as [ | entity entities]; [ destruct Hin | ].
    destruct (filter _ (entity :: entities)); [ destruct Hbad | ].
    left. reflexivity.
Qed.

(** X7.  When a leg token is configured but no entity id is resolved at
    all, as when no leg number is positive or every resolution fails, the
    run returns no sensor and logs "No valid entities found". *)
Theorem unresolved_legs_abort_run :
  (leg1_number =? 0) && (leg2_number =? 0) = false ->
  (leg1_number <= 0 /\ leg2_number <= 0)
  \/ required_entities_of span_panel leg1_number leg2_number = [] ->
  outcome run = Ok ([], [], global_settings_of coordinator span_panel)
  /\ In (mkLog ERROR "No valid entities found for solar circuits %s and %s")
        (trace run).
Proof.
  intros Hz Hnone.
  assert (Hreq : required_entities_of span_panel leg1_number leg2_number = []).
  { destruct Hnone as [[H1 H2] | H]; [ | exact H ].
    unfold required_entities_of.
    rewrite (leg_ids_unconfigured _ _ H1), (leg_ids_unconfigured _ _ H2).
    reflexivity. }
  split.
  - unfold run. rewrite (generate_outcome _ _ _ _ _ _ _ legs_parse).
    unfold sensors_attempted. rewrite Hreq, andb_false_r. reflexivity.
  - apply (run_after_leg_entities _ Hz). rewrite Hreq. left. reflexivity.
Qed.

End Aborts.

Lemma empty_entity_id_on_sample :
  outcome (@generate_solar_sensors Scenario.helpers_empty_power
             Sample.coordinator Sample.panel
             "unmapped_tab_15" "unmapped_tab_16" "Span Panel")
  = Ok ([], [], PDict [("device_identifier", PAtom (SStr "ABC123"))])
  /\ In (mkLog ERROR
           "Some entity IDs are invalid for solar circuits %s and %s: %s")
        (trace (@generate_solar_sensors Scenario.helpers_empty_power
                  Sample.coordinator Sample.panel
                  "unmapped_tab_15" "unmapped_tab_16" "Span Panel")).
Proof.
  apply (@empty_entity_id_aborts_run Scenario.helpers_empty_power
           Sample.coordinator Sample.panel
           "unmapped_tab_15" "unmapped_tab_16" "Span Panel" 15 16 eq_refl).
  left. reflexivity.
Defined.

Lemma negative_leg_on_sample :
  outcome (@generate_solar_sensors Sample.helpers Sample.coordinator
             Sample.panel "unmapped_tab_-5" "" "Span Panel")
  = Ok ([], [], PDict [("device_identifier", PAtom (SStr "ABC123"))])
  /\ In (mkLog ERROR "No valid entities found for solar circuits %s and %s")
        (trace (@generate_solar_sensors Sample.helpers Sample.coordinator
                  Sample.panel "unmapped_tab_-5" "" "Span Panel")).
Proof.
  apply (@unresolved_legs_abort_run Sample.helpers Sample.coordinator
           Sample.panel "unmapped_tab_-5" "" "Span Panel" (-5) 0 eq_refl);
    [ reflexivity | left; split; discriminate ].
Defined.

Lemma unconfigured_run_on_sample :
  @generate_solar_sensors Sample.helpers Sample.coordinator Sample.panel
    "unmapped_tab_0" "circuit_15" "Span Panel"
  = ([ mkLog DEBUG "Loaded global settings for solar sensors: %s";
       mkLog DEBUG
         "No valid solar tabs configured, skipping solar sensor generation" ],
     Ok ([], [], PDict [("device_identifier", PAtom (SStr "ABC123"))])).
Proof.
  apply (@unconfigured_run_is_silent Sample.helpers Sample.coordinator
           Sample.panel "unmapped_tab_0" "circuit_15" "Span Panel").
  vm_compute. reflexivity.
Defined.

Lemma resolver_order_on_sample :
  @_get_circuit_entity_id Sample.helpers Sample.panel_3_5 3 "power"
  = @_get_circuit_entity_id Sample.helpers Scenario.panel_3_5_reversed 3 "power".
Proof.
  apply (@resolver_ignores_circuit_order Sample.helpers Sample.panel_3_5
           Scenario.panel_3_5_reversed 3 "power").
  - apply perm_swap.
  - simpl. apply le_n.
  - reflexivity.
  - reflexivity.
Defined.

(** ** The run in which everything works *)

Section HappyPath.

Context {collab : Collaborators}.

Lemma truthy_ids_are_valid (ids : list (option string)) :
  forallb Py.truthy_opt ids = true ->
  forallb (fun entity => negb (entity =? "")%string) (str_instances ids) = true
  /\ (ids <> [] -> str_instances ids <> []).
Proof.
  induction ids as [ | [s | ] ids IH]; simpl; intros H.
  - split; [ reflexivity | congruence ].
  - apply andb_prop in H. destruct H as [Hs H]. destruct (IH H) as [IH1 _].
    rewrite Hs, IH1. split; [ reflexivity | discriminate ].
  - discriminate H.
Qed.

Lemma truthy_id_or_empty (ids : list (option string)) (i : nat) :
  forallb Py.truthy_opt ids = true -> (i < List.length ids)%nat ->
  (or_empty (nth i ids None) =? "")%string = false.
Proof.
  intros H Hi. rewrite forallb_forall in H.
  specialize (H (nth i ids None) (nth_In ids None Hi)).
  destruct (nth i ids None) as [s | ]; simpl in *; [ | discriminate H ].
  apply negb_true_iff in H. exact H.
Qed.

Lemma var_usable (template_vars : Dict Scalar) (var s : string) :
  dict_get var template_vars = Some (SStr s) ->
  (s =? "")%string = false ->
  _var_unusable template_vars var = false.
Proof.
  intros Hget Hs. unfold _var_unusable. rewrite Hget. simpl. rewrite Hs.
  reflexivity.
Qed.

Lemma process_success (sensor_def : SensorDef) (template_vars : Dict Scalar)
    (e : string) (sensors : PyVal) (sensor_config : Dict PyVal) :
  (e =? "")%string = false ->
  existsb (_var_unusable template_vars) (_required_vars sensor_def) = false ->
  rendered_sensors sensor_def template_vars e = Some sensors ->
  first_sensor_config sensors = Some sensor_config ->
  outcome (_process_sensor_template sensor_def template_vars (Some e))
  = Ok (Some (_final_config e sensor_config))
  /\ never_logs ERROR
       (_process_sensor_template sensor_def template_vars (Some e)).
Proof.
  intros He Hv Hr Hf. split.
  - rewrite (process_outcome_rendered _ _ _ He Hv), Hr.
    destruct sensors as [a | l | [ | [key [a | l | config]] rest]];
      try discriminate Hf.
    injection Hf as Hf. subst config. reflexivity.
  - unfold _process_sensor_template, rendered_sensors, render_for in *.
    rewrite He, Hv. apply never_logs_log_then; [ discriminate | ].
    cbv zeta.
    destruct (combine_yaml_templates _ _) as [[a | l | d] | err];
      try discriminate Hr.
    simpl. rewrite Hr.
    destruct sensors as [a | l | [ | [key [a | l | config]] rest]];
      try discriminate Hf.
    unfold never_logs. simpl.
    repeat (constructor; [ discriminate | ]). constructor.
Qed.

Variable coordinator : SpanPanelCoordinator.
Variable span_panel : SpanPanel.
Variables leg1_circuit leg2_circuit device_name : string.
Variables leg1_number leg2_number : Z.
Hypothesis legs_parse :
  _extract_leg_numbers leg1_circuit leg2_circuit
  = Ok (leg1_number, leg2_number).
Hypothesis leg1_resolved :
  forallb Py.truthy_opt (leg_ids span_panel leg1_number) = true.
Hypothesis leg2_resolved :
  forallb Py.truthy_opt (leg_ids span_panel leg2_number) = true.

Let template_vars :=
  template_vars_of coordinator span_panel leg1_circuit leg2_circuit
    leg1_number leg2_number.
Let run :=
  generate_solar_sensors coordinator span_panel
    leg1_circuit leg2_circuit device_name.

Hypothesis templates_render :
  forall sensor_def, In sensor_def SOLAR_SENSOR_DEFINITIONS ->
    exists e sensors sensor_config,
      _generate_sensor_entity_id coordinator span_panel
        (sensor_type sensor_def) leg1_number leg2_number = Some e
      /\ (e =? "")%string = false
      /\ rendered_sensors sensor_def template_vars e = Some sensors
      /\ first_sensor_config sensors = Some sensor_config.

Lemma leg1_configured : 0 < leg1_number.
Proof.
  pose proof leg1_resolved as H. unfold leg_ids in H.
  destruct (0 <? leg1_number) eqn:Hpos; [ apply Z.ltb_lt; exact Hpos | ].
  discriminate H.
Qed.

Lemma resolved_legs_attempted :
  sensors_attempted span_panel leg1_number leg2_number = true.
Proof.
  unfold sensors_attempted, required_entities_of.
  destruct (truthy_ids_are_valid _ leg1_resolved) as [Hv1 Hn1].
  destruct (truthy_ids_are_valid _ leg2_resolved) as [Hv2 _].
  pose proof leg1_configured as Hpos.
  replace (leg1_number =? 0) with false by (symmetry; apply Z.eqb_neq; lia).
  rewrite forallb_app, Hv1, Hv2. cbn [negb andb].
  destruct (leg_ids_three span_panel leg1_number) as [a [b [c E]]].
  destruct (str_instances (leg_ids span_panel leg1_number)) eqn:Hs;
    [ | reflexivity ].
  exfalso. apply Hn1; [ rewrite E; discriminate | reflexivity ].
Qed.

Lemma resolved_legs_usable (sensor_def : SensorDef) :
  In sensor_def SOLAR_SENSOR_DEFINITIONS ->
  existsb (_var_unusable template_vars) (_required_vars sensor_def) = false.
Proof.
  intros Hin.
  assert (H1 : forall i, (i < 3)%nat ->
            (or_empty (nth i (leg_ids span_panel leg1_number) None) =? "")%string
            = false).
  { intros i Hi. apply truthy_id_or_empty; [ exact leg1_resolved | ].
    destruct (leg_ids_three span_panel leg1_number) as [a [b [c E]]].
    rewrite E. exact Hi. }
  assert (H2 : forall i, (i < 3)%nat ->
            (or_empty (nth i (leg_ids span_panel leg2_number) None) =? "")%string
            = false).
  { intros i Hi. apply truthy_id_or_empty; [ exact leg2_resolved | ].
    destruct (leg_ids_three span_panel leg2_number) as [a [b [c E]]].
    rewrite E. exact Hi. }
  assert (Hu : forall (i : nat) (var1 var2 : string),
            (i < 3)%nat ->
            dict_get var1 template_vars
            = Some (SStr (or_empty (nth i (leg_ids span_panel leg1_number) None))) ->
            dict_get var2 template_vars
            = Some (SStr (or_empty (nth i (leg_ids span_panel leg2_number) None))) ->
            existsb (_var_unusable template_vars) [var1; var2] = false).
  { intros i var1 var2 Hi Hg1 Hg2. cbn [existsb].
    rewrite (var_usable _ _ _ Hg1 (H1 i Hi)), (var_usable _ _ _ Hg2 (H2 i Hi)).
    reflexivity. }
  destruct Hin as [Hd | [Hd | [Hd | []]]]; subst sensor_def.
  - apply (Hu 0%nat "leg1_power_entity" "leg2_power_entity");
      [ lia | reflexivity | reflexivity ].
  - apply (Hu 1%nat "leg1_produced_entity" "leg2_produced_entity");
      [ lia | reflexivity | reflexivity ].
  - apply (Hu 2%nat "leg1_consumed_entity" "leg2_consumed_entity");
      [ lia | reflexivity | reflexivity ].
Qed.

Lemma resolved_legs_attempt (sensor_def : SensorDef) :
  In sensor_def SOLAR_SENSOR_DEFINITIONS ->
  attempt_succeeds coordinator span_panel template_vars
    leg1_number leg2_number sensor_def = true.
Proof.
  intros Hin. destruct (templates_render _ Hin) as [e [sensors [cfg [Hid [He [Hr Hf]]]]]].
  unfold attempt_succeeds, sensor_attempt. rewrite Hid.
  destruct (process_success _ _ _ _ _ He (resolved_legs_usable _ Hin) Hr Hf)
    as [Ho _].
  rewrite Ho. reflexivity.
Qed.

Lemma step_success (sensor_configs : Dict (Dict PyVal))
    (sensor_def : SensorDef) :
  In sensor_def SOLAR_SENSOR_DEFINITIONS ->
  never_logs ERROR
    (_solar_sensor_step coordinator span_panel template_vars
       leg1_number leg2_number sensor_configs sensor_def).
Proof.
  intros Hin. destruct (templates_render _ Hin) as [e [sensors [cfg [Hid [He [Hr Hf]]]]]].
  destruct (process_success _ _ _ _ _ He (resolved_legs_usable _ Hin) Hr Hf)
    as [Ho Hq].
  unfold _solar_sensor_step. cbv zeta. rewrite Hid.
  apply never_logs_try.
  - apply never_logs_log_then; [ discriminate | ].
    apply never_logs_bind; [ exact Hq | intros final_config Hfc ].
    rewrite Ho in Hfc. injection Hfc as Hfc. subst final_config.
    cbn [_final_config]. quiet.
  - intros err Herr. exfalso.
    rewrite outcome_log_then, (outcome_bind_ok _ _ _ Ho) in Herr.
    cbn [_final_config] in Herr. rewrite !outcome_log_then in Herr.
    discriminate Herr.
Qed.

Lemma for_each_success (defs : list SensorDef) :
  incl defs SOLAR_SENSOR_DEFINITIONS ->
  forall sensor_configs,
    never_logs ERROR
      (_for_each_sensor_def coordinator span_panel template_vars
         leg1_number leg2_number defs sensor_configs).
Proof.
  induction defs as [ | d defs IH]; intros Hincl sensor_configs;
    cbn [_for_each_sensor_def]; [ apply never_logs_ret | ].
  apply never_logs_bind.
  - apply step_success. apply Hincl. left. reflexivity.
  - intros sc _. apply IH. intros x Hx. apply Hincl. right. exact Hx.
Qed.

(** X9.  With both legs configured, every leg entity resolved to a
    non-empty id, distinct unique ids, and a template service that answers
    each of the three templates with a mapping whose first sensor is a
    mapping, the run returns exactly the three sensors, in the order power,
    produced, consumed, and logs no error. *)
Theorem resolved_legs_yield_three_sensors :
  distinct_unique_ids span_panel ->
  exists sensor_configs,
    outcome run
    = Ok (sensor_configs, [], global_settings_of coordinator span_panel)
    /\ map fst sensor_configs
       = map (solar_unique_id span_panel) SOLAR_SENSOR_DEFINITIONS
    /\ never_logs ERROR run.
Proof.
  intros Hd. eexists. split; [ | split ].
  - unfold run. rewrite (generate_entries _ _ _ _ _ _ _ legs_parse Hd).
    rewrite resolved_legs_attempted. reflexivity.
  - fold template_vars. rewrite entries_keys. f_equal.
    apply forallb_filter_id. apply forallb_forall.
    intros d Hin. apply resolved_legs_attempt, Hin.
  - unfold run, generate_solar_sensors.
    apply never_logs_bind; [ apply global_settings_no_error | intros settings _ ].
    rewrite legs_parse.
    apply never_logs_bind; [ apply never_logs_lift | intros [l1 l2] Hl ].
    injection Hl as Hl1 Hl2. subst l1 l2.
    pose proof leg1_configured as Hpos.
    replace (leg1_number =? 0) with false by (symmetry; apply Z.eqb_neq; lia).
    cbn [andb].
    apply never_logs_bind;
      [ apply leg_entities_no_error; left; assumption | ].
    intros [leg_entities required_entities] Hle.
    rewrite leg_entities_outcome in Hle. injection Hle as Hle Hreq.
    subst leg_entities required_entities.
    pose proof resolved_legs_attempted as Ha. unfold sensors_attempted in Ha.
    apply andb_prop in Ha. destruct Ha as [Ha Hvalid].
    apply andb_prop in Ha. destruct Ha as [_ Hsome].
    destruct (required_entities_of span_panel leg1_number leg2_number)
      as [ | entity entities]; [ discriminate Hsome | ].
    destruct (filter _ (entity :: entities)) as [ | bad rest] eqn:Hbad.
    + pose proof (for_each_success SOLAR_SENSOR_DEFINITIONS
                    (incl_refl _) []) as Hloop.
      unfold template_vars, template_vars_of, run_template_vars in Hloop.
      destruct (_get_template_attributes leg1_number leg2_number) as [ta va].
      do 3 (apply never_logs_log_then; [ discriminate | ]).
      apply never_logs_bind; [ exact Hloop | intros sc _ ]. quiet.
    + exfalso.
      assert (Hin : In bad (filter (fun entity0 => (entity0 =? "")%string)
                              (entity :: entities))).
      { rewrite Hbad. left. reflexivity. }
      apply filter_In in Hin. destruct Hin as [Hin Hb].
      rewrite forallb_forall in Hvalid. specialize (Hvalid _ Hin).
      rewrite Hb in Hvalid. discriminate Hvalid.
Qed.

End HappyPath.

Lemma three_sensors_on_sample :
  exists sensor_configs,
    outcome (@generate_solar_sensors Sample.helpers Sample.coordinator
               Sample.panel "unmapped_tab_15" "unmapped_tab_16" "Span Panel")
    = Ok (sensor_configs, [],
          PDict [("device_identifier", PAtom (SStr "ABC123"))])
    /\ map fst sensor_configs
       = [ "span_ABC123_solar_power";
           "span_ABC123_solar_energy_produced";
           "span_ABC123_solar_energy_consumed" ]
    /\ never_logs ERROR
         (@generate_solar_sensors Sample.helpers Sample.coordinator
            Sample.panel "unmapped_tab_15" "unmapped_tab_16" "Span Panel").
Proof.
  apply (@resolved_legs_yield_three_sensors Sample.helpers Sample.coordinator
           Sample.panel "unmapped_tab_15" "unmapped_tab_16" "Span Panel"
           15 16 eq_refl eq_refl eq_refl).
  - intros sensor_def [H | [H | [H | []]]]; subst sensor_def;
      do 3 eexists; (split; [ reflexivity | ]);
      (split; [ reflexivity | ]); split; reflexivity.
  - apply sample_unique_ids_distinct.
Defined.

(** ** What the template service is handed, and what comes back *)

Section RendererInterface.

Context {collab : Collaborators}.

Lemma dict_get_map_values {V W : Type} (g : string -> V -> W)
    (key : string) (d : Dict V) :
  dict_get key (map (fun kv => (fst kv, g (fst kv) (snd kv))) d)
  = option_map (g key) (dict_get key d).
Proof.
  induction d as [ | [k v] d IH]; simpl; [ reflexivity | ].
  destruct (k =? key)%string eqn:Hk; [ | exact IH ].
  apply String.eqb_eq in Hk. subst k. reflexivity.
Qed.


Lemma process_returns_record (sensor_def : SensorDef)
    (template_vars : Dict Scalar) (entity_id : option string)
    (config : Dict PyVal) :
  outcome (_process_sensor_template sensor_def template_vars entity_id)
  = Ok (Some config) ->
  exists e sensors sensor_config,
    entity_id = Some e
    /\ rendered_sensors sensor_def template_vars e = Some sensors
    /\ first_sensor_config sensors = Some sensor_config
    /\ config = _final_config e sensor_config.
Proof.
  destruct entity_id as [e | ]; [ | discriminate ].
  destruct (e =? "")%string eqn:He.
  { unfold _process_sensor_template. rewrite He. discriminate. }
  destruct (existsb (_var_unusable template_vars) (_required_vars sensor_def))
    eqn:Hv.
  { unfold _process_sensor_template. rewrite He, Hv, outcome_log_then.
    discriminate. }
  rewrite (process_outcome_rendered _ _ _ He Hv).
  destruct (rendered_sensors sensor_def template_vars e) as [sensors | ] eqn:Hr;
    [ | discriminate ].
  destruct (Py.truthy_val sensors); [ | discriminate ].
  destruct (first_sensor_config sensors) as [sensor_config | ] eqn:Hf;
    [ | discriminate ].
  intros H. injection H as H. subst config.
  exists e, sensors, sensor_config. repeat split; assumption.
Qed.

(** X12.  A record that the template processor returns has exactly the
    six fields entity_id, name, formula, variables, attributes and metadata:
    each is the field of the template's first sensor when it has one, and
    otherwise its default (the target entity id, the empty string, the empty
    mapping); whatever else the template's sensor holds is dropped. *)
Theorem returned_record_is_normalized (sensor_def : SensorDef)
    (template_vars : Dict Scalar) (entity_id : option string)
    (config : Dict PyVal) :
  outcome (_process_sensor_template sensor_def template_vars entity_id)
  = Ok (Some config) ->
  map fst config
  = [ "entity_id"; "name"; "formula"; "variables"; "attributes"; "metadata" ]
  /\ exists e sensors sensor_config,
       entity_id = Some e
       /\ rendered_sensors sensor_def template_vars e = Some sensors
       /\ first_sensor_config sensors = Some sensor_config
       /\ forall key,
            dict_get key config
            = match default_field e key with
              | Some default => Some (dict_get_default key default sensor_config)
              | None => None
              end.
Proof.
  intros H. apply process_returns_record in H.
  destruct H as [e [sensors [sensor_config [He [Hr [Hf Hc]]]]]]. subst config.
  split; [ reflexivity | ].
  exists e, sensors, sensor_config. repeat split; try assumption.
  intros key. unfold _final_config, default_field. cbn [dict_get].
  repeat match goal with
         | |- context [(?k =? key)%string] =>
             destruct (String.eqb_spec k key) as [ ? | ? ];
             [ subst key; reflexivity | ]
         end.
  reflexivity.
Qed.

End RendererInterface.


Lemma returned_record_on_sample :
  map fst
    [ ("entity_id", PAtom (SStr "sensor.solar"));
      ("name", PAtom (SStr "Solar"));
      ("formula", PAtom (SStr "leg1 + leg2"));
      ("variables", PDict ([] : list (string * PyVal)));
      ("attributes", PDict []);
      ("metadata", PDict []) ]
  = [ "entity_id"; "name"; "formula"; "variables"; "attributes"; "metadata" ].
Proof.
  apply (@returned_record_is_normalized Sample.helpers Sample.power_def
           Sample.power_vars (Some "sensor.solar")).
  reflexivity.
Defined.

(** ** Sensors without a name *)

Section Unnamed.

Context {collab : Collaborators}.

Variable coordinator : SpanPanelCoordinator.
Variable span_panel : SpanPanel.
Variables leg1_circuit leg2_circuit device_name : string.
Variables leg1_number leg2_number : Z.
Hypothesis legs_parse :
  _extract_leg_numbers leg1_circuit leg2_circuit
  = Ok (leg1_number, leg2_number).

Let template_vars :=
  template_vars_of coordinator span_panel leg1_circuit leg2_circuit
    leg1_number leg2_number.
Let run :=
  generate_solar_sensors coordinator span_panel
    leg1_circuit leg2_circuit device_name.

Lemma process_without_entity_id (sensor_def : SensorDef)
    (vars : Dict Scalar) (entity_id : option string) :
  Py.truthy_opt entity_id = false ->
  _process_sensor_template sensor_def vars entity_id = ([], Ok None).
Proof.
  unfold _process_sensor_template. destruct entity_id as [e | ]; simpl;
    [ | reflexivity ].
  destruct (e =? "")%string; [ reflexivity | discriminate ].
Qed.

(** X13.  When the naming helper gives no entity id for any sensor kind,
    a run that reaches the sensor definitions returns no sensor, whatever
    the template service would answer, and logs "Template processing
    returned None". *)
Theorem unnamed_sensors_are_skipped :
  sensors_attempted span_panel leg1_number leg2_number = true ->
  (forall sensor_def, In sensor_def SOLAR_SENSOR_DEFINITIONS ->
     Py.truthy_opt
       (_generate_sensor_entity_id coordinator span_panel
          (sensor_type sensor_def) leg1_number leg2_number)
     = false) ->
  outcome run = Ok ([], [], global_settings_of coordinator span_panel)
  /\ In (mkLog ERROR "Template processing returned None for %s") (trace run).
Proof.
  intros Ha Hnone. split.
  - unfold run. rewrite (generate_outcome _ _ _ _ _ _ _ legs_parse), Ha.
    rewrite no_attempt_no_entry; [ reflexivity | ].
    intros sensor_def Hin. unfold sensor_attempt.
    rewrite (process_without_entity_id _ _ _ (Hnone _ Hin)). reflexivity.
  - apply (run_carries_loop_trace _ _ _ _ _ _ _ legs_parse _ Ha).
    apply for_each_carries_trace with (sensor_def := Sample.power_def);
      [ left; reflexivity | ].
    intros sensor_configs. unfold _solar_sensor_step. cbv zeta.
    rewrite (process_without_entity_id _ _ _
               (Hnone Sample.power_def (or_introl eq_refl))).
    simpl. right. left. reflexivity.
Qed.

End Unnamed.

Lemma unnamed_sensors_on_sample :
  outcome (@generate_solar_sensors Scenario.helpers_unnamed
             Sample.coordinator Sample.panel
             "unmapped_tab_15" "unmapped_tab_16" "Span Panel")
  = Ok ([], [], PDict [("device_identifier", PAtom (SStr "ABC123"))])
  /\ In (mkLog ERROR "Template processing returned None for %s")
        (trace (@generate_solar_sensors Scenario.helpers_unnamed
                  Sample.coordinator Sample.panel
                  "unmapped_tab_15" "unmapped_tab_16" "Span Panel")).
Proof.
  apply (@unnamed_sensors_are_skipped Scenario.helpers_unnamed
           Sample.coordinator Sample.panel
           "unmapped_tab_15" "unmapped_tab_16" "Span Panel" 15 16 eq_refl);
    [ reflexivity | intros sensor_def _; reflexivity ].
Defined.
